(** * MQTTOTA: the chunked firmware-update core, embedded in Rocq

    A shallow embedding of [src/MQTTOTA.cpp] and [src/src/MQTTOTA.h]:
    the session record, the telemetry emitter, the chunk handler, the
    periodic timeout check, the cancellation entry point and the
    configuration setters, followed by the properties of the
    specification that concern them.

    Conventions.
    - An Arduino [String] is a Rocq [string] (a sequence of 8-bit characters).
    - [int] is a [Z] kept in the 32-bit signed range by [int32]; [size_t] and
      [unsigned long] are a [Z] kept in [0, 2^32) by [uint32].
    - What the platform answers during one call of the public interface is a
      [Platform] record; what the code does to the outside world during
      that call is the list of [Event]s the call returns.
    - A method is a function from the object to an outcome: the object it
      leaves, the events it produced, and whether it returned or stopped the
      program ([ESP.restart], a division by zero).
    - [Serial] output and the cooperative [yield] are not modelled. *)

From Stdlib Require Import ZArith NArith Lia List Bool String Ascii.
Import ListNotations.
Open Scope string_scope.
Open Scope Z_scope.

(** ** Machine integers *)

Definition int32 (z : Z) : Z := (z + 2147483648) mod 4294967296 - 2147483648.
Definition uint32 (z : Z) : Z := z mod 4294967296.

(** [a / b] on [int]: truncating division; a zero divisor has no result. *)
Definition int_div (a b : Z) : option Z :=
  if b =? 0 then None else Some (int32 (Z.quot a b)).

(** [a % b] on [int] with a non-zero constant divisor. *)
Definition int_rem (a b : Z) : Z := Z.rem a b.

Definition strlen (s : string) : Z := Z.of_nat (String.length s).

Definition isEmpty (s : string) : bool :=
  match s with EmptyString => true | String _ _ => false end.

(** ** The base64 library (libb64)

    [base64_encode_block], [base64_encode_blockend] and [base64_decode_block]
    belong to the platform, not to this repository.  The embedding takes
    them as an interface: [base64_encode] is [base64_encode_block] followed by
    [base64_encode_blockend] on a fresh encoder state, [base64_decode_block]
    runs on a fresh decoder state. *)

Class Libb64 : Type := {
  base64_encode : string -> string;
  base64_decode_block : string -> string
}.

(** A reference instance: RFC 4648 alphabet, [=] padding, no line breaks;
    the decoder is the four-step machine of libb64's [cdecode.c], which
    skips every character outside the alphabet. *)
Module RefB64.

Open Scope N_scope.

Definition alphabet : string :=
  "ABCDEFGHIJKLMNOPQRSTUVWXYZabcdefghijklmnopqrstuvwxyz0123456789+/".

Definition encode_value (v : N) : ascii :=
  match String.get (N.to_nat v) alphabet with
  | Some c => c
  | None => "="%char
  end.

Definition decode_value (c : ascii) : option N :=
  let n := N_of_ascii c in
  if (65 <=? n) && (n <=? 90) then Some (n - 65)
  else if (97 <=? n) && (n <=? 122) then Some (n - 71)
  else if (48 <=? n) && (n <=? 57) then Some (n + 4)
  else if n =? 43 then Some 62
  else if n =? 47 then Some 63
  else None.

Definition pad : ascii := "="%char.

Fixpoint encode (s : string) : string :=
  match s with
  | EmptyString => EmptyString
  | String a EmptyString =>
      let x := N_of_ascii a in
      String (encode_value (x / 4))
        (String (encode_value ((x mod 4) * 16))
           (String pad (String pad EmptyString)))
  | String a (String b EmptyString) =>
      let x := N_of_ascii a in
      let y := N_of_ascii b in
      String (encode_value (x / 4))
        (String (encode_value ((x mod 4) * 16 + y / 16))
           (String (encode_value ((y mod 16) * 4))
              (String pad EmptyString)))
  | String a (String b (String c rest)) =>
      let x := N_of_ascii a in
      let y := N_of_ascii b in
      let z := N_of_ascii c in
      String (encode_value (x / 4))
        (String (encode_value ((x mod 4) * 16 + y / 16))
           (String (encode_value ((y mod 16) * 4 + z / 64))
              (String (encode_value (z mod 64)) (encode rest))))
  end.

Inductive decodestep : Set := step_a | step_b | step_c | step_d.

Fixpoint decode_from (st : decodestep) (plainchar : N) (code : string) : string :=
  match code with
  | EmptyString => EmptyString
  | String ch rest =>
      match decode_value ch with
      | None => decode_from st plainchar rest
      | Some fragment =>
          match st with
          | step_a => decode_from step_b (fragment * 4) rest
          | step_b =>
              String (ascii_of_N (plainchar + fragment / 16))
                (decode_from step_c ((fragment mod 16) * 16) rest)
          | step_c =>
              String (ascii_of_N (plainchar + fragment / 4))
                (decode_from step_d ((fragment mod 4) * 64) rest)
          | step_d =>
              String (ascii_of_N (plainchar + fragment))
                (decode_from step_a 0 rest)
          end
      end
  end.

Definition decode (code : string) : string := decode_from step_a 0 code.

End RefB64.

Definition reference_libb64 : Libb64 :=
  {| base64_encode := RefB64.encode; base64_decode_block := RefB64.decode |}.

(** ** Platform constants

    Values of ESP-IDF ([esp_err.h], [esp_ota_ops.h], [esp_app_format.h]),
    which the repository includes but does not declare. *)

Definition ESP_OK : Z := 0.
Definition ESP_ERR_OTA_VALIDATE_FAILED : Z := 5379.
Definition sizeof_esp_image_header_t : Z := 24.
Definition sizeof_esp_image_segment_header_t : Z := 8.
Definition sizeof_esp_app_desc_t : Z := 256.

(** ** Constants of MQTTOTA.h *)

Definition MQTT_OTA_BUFFSIZE : Z := 1024.
Definition MQTT_OTA_TIMEOUT_MS : Z := 420000.
Definition MQTT_OTA_MAX_CHUNK_SIZE : Z := 65536.
Definition MQTT_OTA_MIN_MEMORY : Z := 40000.
Definition MQTT_OTA_MAX_RETRIES : Z := 3.

Inductive OTAState : Set :=
| OTA_STATE_IDLE
| OTA_STATE_RECEIVING
| OTA_STATE_DECODING
| OTA_STATE_VALIDATING
| OTA_STATE_WRITING
| OTA_STATE_COMPLETING
| OTA_STATE_SUCCESS
| OTA_STATE_ERROR
| OTA_STATE_ABORTED.

(** [static_cast<uint8_t>(state)] *)
Definition OTAState_code (s : OTAState) : Z :=
  match s with
  | OTA_STATE_IDLE => 0
  | OTA_STATE_RECEIVING => 1
  | OTA_STATE_DECODING => 2
  | OTA_STATE_VALIDATING => 3
  | OTA_STATE_WRITING => 4
  | OTA_STATE_COMPLETING => 5
  | OTA_STATE_SUCCESS => 6
  | OTA_STATE_ERROR => 7
  | OTA_STATE_ABORTED => 8
  end.

Definition OTAState_eqb (a b : OTAState) : bool := OTAState_code a =? OTAState_code b.

Definition _getStateName (s : OTAState) : string :=
  match s with
  | OTA_STATE_IDLE => "INACTIVO"
  | OTA_STATE_RECEIVING => "RECIBIENDO"
  | OTA_STATE_DECODING => "DECODIFICANDO"
  | OTA_STATE_VALIDATING => "VALIDANDO"
  | OTA_STATE_WRITING => "ESCRIBIENDO"
  | OTA_STATE_COMPLETING => "FINALIZANDO"
  | OTA_STATE_SUCCESS => "EXITOSO"
  | OTA_STATE_ERROR => "ERROR"
  | OTA_STATE_ABORTED => "ABORTADO"
  end.

(** ** The platform during one call

    Each field is what the named platform function answers while one call of
    the public interface runs.  [esp_ota_begin] gives the return code and the
    handle it stores on [ESP_OK]; [esp_ota_write] is indexed by the number of
    writes already made in the call; a partition is named by a number, [None]
    is the null pointer.  The clock and the state of the transport are read
    once per call; [malloc] says whether a request of the given size
    succeeds. *)

Record Platform : Type := {
  getFreeHeap : Z;
  millis : Z;
  isMQTTConnected : bool;
  malloc : Z -> bool;
  esp_ota_get_next_update_partition : option Z;
  esp_ota_begin : Z * Z;
  esp_ota_write : nat -> Z;
  esp_ota_end : Z;
  esp_ota_set_boot_partition : Z;
  esp_err_to_name : Z -> string
}.

(** ** What a call does to the outside world *)

Inductive Telemetry : Type :=
| ProgressDoc (device version : string) (progress timestamp : Z)
| ErrorDoc (device version error : string) (timestamp : Z)
| SuccessDoc (device version : string) (timestamp : Z)
| StateDoc (device : string) (state : Z) (state_name : string) (timestamp : Z).

Inductive Event : Type :=
| ProgressCallback (progress : Z) (version : string)
| ErrorCallback (error version : string)
| SuccessCallback (version : string)
| StateCallback (state : Z)
| PublishMQTT (topic : string) (doc : Telemetry)
| OtaBegin (partition : Z)
| OtaWrite (handle : Z) (data : string)
| OtaEnd (handle : Z)
| OtaSetBoot (partition : option Z)
| OtaAbort (handle : Z)
| Delay (ms : Z)
| Restart.

(** ** Inbound messages

    The JSON codec (ArduinoJson) is a collaborator; a message is what
    [deserializeJson] and the accessors of the two handlers read from it. *)

Record JsonDetails : Type := {
  FirmwareVersion_as_String : string;
  Base64Part_as_String : string;
  PartIndex_as_int : Z;
  TotalParts_as_int : Z;
  IsError_or_false : bool;
  ErrorMessage_or_empty : string;
  FirmwareVersion_or_empty : string;
  Base64_or_empty : string
}.

Inductive Message : Type :=
| Malformed
| Json (EventType : option string) (Details : option JsonDetails).

Definition is_UpdateFirmwareDevice (EventType : option string) : bool :=
  match EventType with
  | Some e => String.eqb e "UpdateFirmwareDevice"
  | None => false
  end.

(** ** The object *)

Record OTAContext : Type := {
  inProgress : bool;
  firmwareVersion : string;
  currentPart : Z;
  totalParts : Z;
  startTime : Z;
  receivedSize : Z;
  update_handle : Z;
  update_partition : option Z;
  state : OTAState;
  retryCount : Z;
  maxRetries : Z;
  partitionName : string;
  rollbackEnabled : bool;
  versionCheckEnabled : bool
}.

(** The members of [OTAChunkData] that are assigned.  [firmwareVersion] and
    [totalParts] carry a prefix here: the session record has members of the
    same names. *)
Record OTAChunkData : Type := {
  chunk_firmwareVersion : string;
  base64Part : string;
  partIndex : Z;
  chunk_totalParts : Z;
  isError : bool;
  errorMessage : string
}.

(** A callback slot holds [true] when a function is registered in it. *)
Record MQTTOTA : Type := {
  _deviceName : string;
  _firmwareVersion : string;
  _deviceID : string;
  _otaTopic : string;
  _otaContext : OTAContext;
  _progressCallback : bool;
  _errorCallback : bool;
  _successCallback : bool;
  _stateChangeCallback : bool;
  _publishMQTT : bool;
  _isMQTTConnected : bool;
  _chunkedOTAEnabled : bool;
  _autoReset : bool;
  _chunkSize : Z;
  _otaInProgress : bool;
  _otaStartTime : Z;
  _currentFirmwareVersion : string;
  _currentProgress : Z
}.

Definition with_otaContext (f : OTAContext -> OTAContext) (o : MQTTOTA) : MQTTOTA :=
  {| _deviceName := _deviceName o; _firmwareVersion := _firmwareVersion o;
     _deviceID := _deviceID o; _otaTopic := _otaTopic o;
     _otaContext := f (_otaContext o);
     _progressCallback := _progressCallback o; _errorCallback := _errorCallback o;
     _successCallback := _successCallback o;
     _stateChangeCallback := _stateChangeCallback o;
     _publishMQTT := _publishMQTT o; _isMQTTConnected := _isMQTTConnected o;
     _chunkedOTAEnabled := _chunkedOTAEnabled o; _autoReset := _autoReset o;
     _chunkSize := _chunkSize o; _otaInProgress := _otaInProgress o;
     _otaStartTime := _otaStartTime o;
     _currentFirmwareVersion := _currentFirmwareVersion o;
     _currentProgress := _currentProgress o |}.

Definition set_currentProgress (p : Z) (o : MQTTOTA) : MQTTOTA :=
  {| _deviceName := _deviceName o; _firmwareVersion := _firmwareVersion o;
     _deviceID := _deviceID o; _otaTopic := _otaTopic o;
     _otaContext := _otaContext o;
     _progressCallback := _progressCallback o; _errorCallback := _errorCallback o;
     _successCallback := _successCallback o;
     _stateChangeCallback := _stateChangeCallback o;
     _publishMQTT := _publishMQTT o; _isMQTTConnected := _isMQTTConnected o;
     _chunkedOTAEnabled := _chunkedOTAEnabled o; _autoReset := _autoReset o;
     _chunkSize := _chunkSize o; _otaInProgress := _otaInProgress o;
     _otaStartTime := _otaStartTime o;
     _currentFirmwareVersion := _currentFirmwareVersion o;
     _currentProgress := p |}.

(** The four status members of the single-message path, written together. *)
Definition set_status (inprog : bool) (start : Z) (version : string) (progress : Z)
  (o : MQTTOTA) : MQTTOTA :=
  {| _deviceName := _deviceName o; _firmwareVersion := _firmwareVersion o;
     _deviceID := _deviceID o; _otaTopic := _otaTopic o;
     _otaContext := _otaContext o;
     _progressCallback := _progressCallback o; _errorCallback := _errorCallback o;
     _successCallback := _successCallback o;
     _stateChangeCallback := _stateChangeCallback o;
     _publishMQTT := _publishMQTT o; _isMQTTConnected := _isMQTTConnected o;
     _chunkedOTAEnabled := _chunkedOTAEnabled o; _autoReset := _autoReset o;
     _chunkSize := _chunkSize o; _otaInProgress := inprog;
     _otaStartTime := start;
     _currentFirmwareVersion := version;
     _currentProgress := progress |}.

(** The identity and transport members, written by [begin] and [setMQTTConfig]. *)
Definition set_identity (name version topic : string) (pub conn : bool)
  (o : MQTTOTA) : MQTTOTA :=
  {| _deviceName := name; _firmwareVersion := version;
     _deviceID := _deviceID o; _otaTopic := topic;
     _otaContext := _otaContext o;
     _progressCallback := _progressCallback o; _errorCallback := _errorCallback o;
     _successCallback := _successCallback o;
     _stateChangeCallback := _stateChangeCallback o;
     _publishMQTT := pub; _isMQTTConnected := conn;
     _chunkedOTAEnabled := _chunkedOTAEnabled o; _autoReset := _autoReset o;
     _chunkSize := _chunkSize o; _otaInProgress := _otaInProgress o;
     _otaStartTime := _otaStartTime o;
     _currentFirmwareVersion := _currentFirmwareVersion o;
     _currentProgress := _currentProgress o |}.

Definition set_callbacks (progress error success statechange : bool)
  (o : MQTTOTA) : MQTTOTA :=
  {| _deviceName := _deviceName o; _firmwareVersion := _firmwareVersion o;
     _deviceID := _deviceID o; _otaTopic := _otaTopic o;
     _otaContext := _otaContext o;
     _progressCallback := progress; _errorCallback := error;
     _successCallback := success;
     _stateChangeCallback := statechange;
     _publishMQTT := _publishMQTT o; _isMQTTConnected := _isMQTTConnected o;
     _chunkedOTAEnabled := _chunkedOTAEnabled o; _autoReset := _autoReset o;
     _chunkSize := _chunkSize o; _otaInProgress := _otaInProgress o;
     _otaStartTime := _otaStartTime o;
     _currentFirmwareVersion := _currentFirmwareVersion o;
     _currentProgress := _currentProgress o |}.

Definition set_options (chunked autoreset : bool) (chunksize : Z)
  (o : MQTTOTA) : MQTTOTA :=
  {| _deviceName := _deviceName o; _firmwareVersion := _firmwareVersion o;
     _deviceID := _deviceID o; _otaTopic := _otaTopic o;
     _otaContext := _otaContext o;
     _progressCallback := _progressCallback o; _errorCallback := _errorCallback o;
     _successCallback := _successCallback o;
     _stateChangeCallback := _stateChangeCallback o;
     _publishMQTT := _publishMQTT o; _isMQTTConnected := _isMQTTConnected o;
     _chunkedOTAEnabled := chunked; _autoReset := autoreset;
     _chunkSize := chunksize; _otaInProgress := _otaInProgress o;
     _otaStartTime := _otaStartTime o;
     _currentFirmwareVersion := _currentFirmwareVersion o;
     _currentProgress := _currentProgress o |}.

(** Writes to the session record, grouped as the code groups them. *)

Definition set_update_partition (p : option Z) (c : OTAContext) : OTAContext :=
  {| inProgress := inProgress c; firmwareVersion := firmwareVersion c;
     currentPart := currentPart c; totalParts := totalParts c;
     startTime := startTime c; receivedSize := receivedSize c;
     update_handle := update_handle c; update_partition := p;
     state := state c; retryCount := retryCount c; maxRetries := maxRetries c;
     partitionName := partitionName c; rollbackEnabled := rollbackEnabled c;
     versionCheckEnabled := versionCheckEnabled c |}.

Definition set_update_handle (h : Z) (c : OTAContext) : OTAContext :=
  {| inProgress := inProgress c; firmwareVersion := firmwareVersion c;
     currentPart := currentPart c; totalParts := totalParts c;
     startTime := startTime c; receivedSize := receivedSize c;
     update_handle := h; update_partition := update_partition c;
     state := state c; retryCount := retryCount c; maxRetries := maxRetries c;
     partitionName := partitionName c; rollbackEnabled := rollbackEnabled c;
     versionCheckEnabled := versionCheckEnabled c |}.

Definition set_currentPart (k : Z) (c : OTAContext) : OTAContext :=
  {| inProgress := inProgress c; firmwareVersion := firmwareVersion c;
     currentPart := k; totalParts := totalParts c;
     startTime := startTime c; receivedSize := receivedSize c;
     update_handle := update_handle c; update_partition := update_partition c;
     state := state c; retryCount := retryCount c; maxRetries := maxRetries c;
     partitionName := partitionName c; rollbackEnabled := rollbackEnabled c;
     versionCheckEnabled := versionCheckEnabled c |}.

Definition set_receivedSize (n : Z) (c : OTAContext) : OTAContext :=
  {| inProgress := inProgress c; firmwareVersion := firmwareVersion c;
     currentPart := currentPart c; totalParts := totalParts c;
     startTime := startTime c; receivedSize := n;
     update_handle := update_handle c; update_partition := update_partition c;
     state := state c; retryCount := retryCount c; maxRetries := maxRetries c;
     partitionName := partitionName c; rollbackEnabled := rollbackEnabled c;
     versionCheckEnabled := versionCheckEnabled c |}.

Definition set_state (s : OTAState) (c : OTAContext) : OTAContext :=
  {| inProgress := inProgress c; firmwareVersion := firmwareVersion c;
     currentPart := currentPart c; totalParts := totalParts c;
     startTime := startTime c; receivedSize := receivedSize c;
     update_handle := update_handle c; update_partition := update_partition c;
     state := s; retryCount := retryCount c; maxRetries := maxRetries c;
     partitionName := partitionName c; rollbackEnabled := rollbackEnabled c;
     versionCheckEnabled := versionCheckEnabled c |}.

(** [maxRetries], [partitionName], [rollbackEnabled], [versionCheckEnabled]. *)
Definition set_policy (retries : Z) (name : string) (rollback versioncheck : bool)
  (c : OTAContext) : OTAContext :=
  {| inProgress := inProgress c; firmwareVersion := firmwareVersion c;
     currentPart := currentPart c; totalParts := totalParts c;
     startTime := startTime c; receivedSize := receivedSize c;
     update_handle := update_handle c; update_partition := update_partition c;
     state := state c; retryCount := retryCount c; maxRetries := retries;
     partitionName := name; rollbackEnabled := rollback;
     versionCheckEnabled := versioncheck |}.

(** The six assignments that open a session in [_startChunkedOTA]. *)
Definition open_session (version : string) (total now : Z) (c : OTAContext) : OTAContext :=
  {| inProgress := true; firmwareVersion := version;
     currentPart := 0; totalParts := total;
     startTime := now; receivedSize := 0;
     update_handle := update_handle c; update_partition := update_partition c;
     state := state c; retryCount := retryCount c; maxRetries := maxRetries c;
     partitionName := partitionName c; rollbackEnabled := rollbackEnabled c;
     versionCheckEnabled := versionCheckEnabled c |}.

(** The seven assignments that close it in [_cleanupChunkedOTA]. *)
Definition close_session (c : OTAContext) : OTAContext :=
  {| inProgress := false; firmwareVersion := firmwareVersion c;
     currentPart := 0; totalParts := 0;
     startTime := 0; receivedSize := 0;
     update_handle := 0; update_partition := None;
     state := state c; retryCount := retryCount c; maxRetries := maxRetries c;
     partitionName := partitionName c; rollbackEnabled := rollbackEnabled c;
     versionCheckEnabled := versionCheckEnabled c |}.

(** ** Constructor *)

Definition OTAContext_ctor : OTAContext :=
  {| inProgress := false; firmwareVersion := "";
     currentPart := 0; totalParts := 0;
     startTime := 0; receivedSize := 0;
     update_handle := 0; update_partition := None;
     state := OTA_STATE_IDLE; retryCount := 0; maxRetries := MQTT_OTA_MAX_RETRIES;
     partitionName := ""; rollbackEnabled := true;
     versionCheckEnabled := true |}.

(** [MQTTOTA::MQTTOTA()]; [deviceID] is what [_generateDeviceID] returns. *)
Definition MQTTOTA_ctor (deviceID : string) : MQTTOTA :=
  {| _deviceName := ""; _firmwareVersion := "";
     _deviceID := deviceID; _otaTopic := "";
     _otaContext := OTAContext_ctor;
     _progressCallback := false; _errorCallback := false;
     _successCallback := false; _stateChangeCallback := false;
     _publishMQTT := false; _isMQTTConnected := false;
     _chunkedOTAEnabled := true; _autoReset := true;
     _chunkSize := MQTT_OTA_BUFFSIZE; _otaInProgress := false;
     _otaStartTime := 0;
     _currentFirmwareVersion := "";
     _currentProgress := 0 |}.

(** ** Effects

    A method is a function from the object to a [Step]: it either returns
    ([Next]) or stops the program ([Stop]), and in both cases leaves the
    object it reached and the events it produced, oldest first. *)

Inductive Halt : Set :=
| Rebooted        (* ESP.restart() *)
| DivideByZero    (* integer division by zero *)
| Hang.           (* a loop that makes no progress *)

Inductive Step (A : Type) : Type :=
| Next (a : A) (o : MQTTOTA) (evs : list Event)
| Stop (h : Halt) (o : MQTTOTA) (evs : list Event).

Arguments Next {A} a o evs.
Arguments Stop {A} h o evs.

Definition M (A : Type) : Type := MQTTOTA -> Step A.

Definition ret {A : Type} (a : A) : M A := fun o => Next a o [].

Definition bind {A B : Type} (c : M A) (k : A -> M B) : M B :=
  fun o =>
    match c o with
    | Next a o1 e1 =>
        match k a o1 with
        | Next b o2 e2 => Next b o2 (e1 ++ e2)
        | Stop h o2 e2 => Stop h o2 (e1 ++ e2)
        end
    | Stop h o1 e1 => Stop h o1 e1
    end.

Notation "x <- c ;; k" := (bind c (fun x => k))
  (at level 61, c at next level, right associativity).
Notation "c ;; k" := (bind c (fun _ => k))
  (at level 61, right associativity).

Definition get : M MQTTOTA := fun o => Next o o [].
Definition modify (f : MQTTOTA -> MQTTOTA) : M unit := fun o => Next tt (f o) [].
Definition emit (e : Event) : M unit := fun o => Next tt o [e].
Definition halt {A : Type} (h : Halt) : M A := fun o => Stop h o [].
Definition when (b : bool) (c : M unit) : M unit := if b then c else ret tt.

Definition final {A : Type} (r : Step A) : MQTTOTA :=
  match r with Next _ o _ => o | Stop _ o _ => o end.

Definition events {A : Type} (r : Step A) : list Event :=
  match r with Next _ _ e => e | Stop _ _ e => e end.

Definition returned {A : Type} (r : Step A) : bool :=
  match r with Next _ _ _ => true | Stop _ _ _ => false end.

(** ** Inline queries of MQTTOTA.h *)

Definition isUpdateInProgress (o : MQTTOTA) : bool :=
  _otaInProgress o || inProgress (_otaContext o).

Definition isValidating (o : MQTTOTA) : bool :=
  OTAState_eqb (state (_otaContext o)) OTA_STATE_VALIDATING.

Definition isWriting (o : MQTTOTA) : bool :=
  OTAState_eqb (state (_otaContext o)) OTA_STATE_WRITING.

Definition getCurrentState (o : MQTTOTA) : OTAState := state (_otaContext o).

Definition getProgress (o : MQTTOTA) : Z := _currentProgress o.

(** ** Configuration *)

Definition begin (deviceName firmwareVersion : string) (o : MQTTOTA) : MQTTOTA :=
  set_identity deviceName firmwareVersion (_otaTopic o)
    (_publishMQTT o) (_isMQTTConnected o) o.

Definition setMQTTConfig (publishFunc isConnectedFunc : bool) (otaTopic : string)
  (o : MQTTOTA) : MQTTOTA :=
  set_identity (_deviceName o) (_firmwareVersion o) otaTopic
    publishFunc isConnectedFunc o.

Definition onProgress (callback : bool) (o : MQTTOTA) : MQTTOTA :=
  set_callbacks callback (_errorCallback o) (_successCallback o)
    (_stateChangeCallback o) o.

Definition onError (callback : bool) (o : MQTTOTA) : MQTTOTA :=
  set_callbacks (_progressCallback o) callback (_successCallback o)
    (_stateChangeCallback o) o.

Definition onSuccess (callback : bool) (o : MQTTOTA) : MQTTOTA :=
  set_callbacks (_progressCallback o) (_errorCallback o) callback
    (_stateChangeCallback o) o.

Definition onStateChange (callback : bool) (o : MQTTOTA) : MQTTOTA :=
  set_callbacks (_progressCallback o) (_errorCallback o) (_successCallback o)
    callback o.

Definition enableChunkedOTA (enable : bool) (o : MQTTOTA) : MQTTOTA :=
  set_options enable (_autoReset o) (_chunkSize o) o.

Definition setChunkSize (chunkSize : Z) (o : MQTTOTA) : MQTTOTA :=
  set_options (_chunkedOTAEnabled o) (_autoReset o)
    (if (chunkSize >? 0) && (chunkSize <=? MQTT_OTA_MAX_CHUNK_SIZE)
     then chunkSize else MQTT_OTA_BUFFSIZE) o.

Definition setAutoReset (autoReset : bool) (o : MQTTOTA) : MQTTOTA :=
  set_options (_chunkedOTAEnabled o) autoReset (_chunkSize o) o.

Definition setMaxRetries (n : Z) (o : MQTTOTA) : MQTTOTA :=
  with_otaContext
    (fun c => set_policy (if n >? 0 then n else MQTT_OTA_MAX_RETRIES)
                (partitionName c) (rollbackEnabled c) (versionCheckEnabled c) c) o.

Definition setPartitionName (name : string) (o : MQTTOTA) : MQTTOTA :=
  with_otaContext
    (fun c => set_policy (maxRetries c) name (rollbackEnabled c)
                (versionCheckEnabled c) c) o.

Definition enableRollbackProtection (enable : bool) (o : MQTTOTA) : MQTTOTA :=
  with_otaContext
    (fun c => set_policy (maxRetries c) (partitionName c) enable
                (versionCheckEnabled c) c) o.

Definition enableVersionCheck (enable : bool) (o : MQTTOTA) : MQTTOTA :=
  with_otaContext
    (fun c => set_policy (maxRetries c) (partitionName c) (rollbackEnabled c)
                enable c) o.

(** [MQTTOTA::cleanup] *)
Definition cleanup : M unit := modify (set_status false 0 "" 0).

(** ** Telemetry *)

Definition transport_up (w : Platform) (o : MQTTOTA) : bool :=
  _publishMQTT o && _isMQTTConnected o && isMQTTConnected w.

Definition _publishError (w : Platform) (errorMessage version : string) : M unit :=
  o <- get ;;
  let v := if isEmpty version then _firmwareVersion o else version in
  when (_errorCallback o) (emit (ErrorCallback errorMessage v)) ;;
  when (transport_up w o)
    (emit (PublishMQTT "ota/error" (ErrorDoc (_deviceID o) v errorMessage (millis w)))).

Definition _publishSuccess (w : Platform) (version : string) : M unit :=
  o <- get ;;
  when (_successCallback o) (emit (SuccessCallback version)) ;;
  when (transport_up w o)
    (emit (PublishMQTT "ota/success" (SuccessDoc (_deviceID o) version (millis w)))).

Definition _publishProgress (w : Platform) (progress : Z) (version : string) : M unit :=
  modify (set_currentProgress progress) ;;
  o <- get ;;
  when (_progressCallback o) (emit (ProgressCallback progress version)) ;;
  when (transport_up w o && ((int_rem progress 10 =? 0) || (progress =? 100)))
    (emit (PublishMQTT "ota/progress"
             (ProgressDoc (_deviceID o) version progress (millis w)))).

Definition _publishStateChange (w : Platform) (s : OTAState) : M unit :=
  o <- get ;;
  when (_stateChangeCallback o) (emit (StateCallback (OTAState_code s))) ;;
  when (transport_up w o)
    (emit (PublishMQTT "ota/state"
             (StateDoc (_deviceID o) (OTAState_code s) (_getStateName s) (millis w)))).

Definition _setState (w : Platform) (s : OTAState) : M unit :=
  o <- get ;;
  when (negb (OTAState_eqb (state (_otaContext o)) s))
    (modify (with_otaContext (set_state s)) ;; _publishStateChange w s).

(** ** Image header *)

Definition _processImageHeader (data : string) (data_len : Z) : bool :=
  negb (data_len <? sizeof_esp_image_header_t + sizeof_esp_image_segment_header_t
                    + sizeof_esp_app_desc_t).

Section WithLibb64.

Context {libb64 : Libb64}.

(** ** Base64 wrappers *)

Definition base64Decode (w : Platform) (encoded : string) : string :=
  let encodedLength := strlen encoded in
  let maxDecodedSize := int32 (Z.quot (int32 (encodedLength * 3)) 4 + 2) in
  if maxDecodedSize >? 50000 then ""
  else if negb (malloc w maxDecodedSize) then ""
  else
    let buffer := base64_decode_block encoded in
    let count := strlen buffer in
    if count >? 0 then buffer else "".

Definition base64Encode (w : Platform) (input : string) : string :=
  if isEmpty input then ""
  else
    let inputLength := strlen input in
    let encodedLength := int32 (int32 (Z.quot (int32 (inputLength + 2)) 3 * 4) + 1) in
    if negb (malloc w encodedLength) then ""
    else base64_encode input.

(** ** The chunked session *)

Definition _cleanupChunkedOTA : M unit :=
  o <- get ;;
  let c := _otaContext o in
  when (inProgress c && negb (update_handle c =? 0)) (emit (OtaAbort (update_handle c))) ;;
  modify (with_otaContext close_session).

Definition _startChunkedOTA (w : Platform) (chunk : OTAChunkData) : M bool :=
  modify (with_otaContext (set_update_partition (esp_ota_get_next_update_partition w))) ;;
  match esp_ota_get_next_update_partition w with
  | None =>
      _publishError w "No se pudo encontrar partición OTA" (chunk_firmwareVersion chunk) ;;
      ret false
  | Some p =>
      emit (OtaBegin p) ;;
      let err := fst (esp_ota_begin w) in
      if negb (err =? ESP_OK) then
        _publishError w ("Error iniciando OTA: " ++ esp_err_to_name w err)
          (chunk_firmwareVersion chunk) ;;
        ret false
      else
        modify (with_otaContext (set_update_handle (snd (esp_ota_begin w)))) ;;
        modify (with_otaContext
                  (open_session (chunk_firmwareVersion chunk) (chunk_totalParts chunk)
                     (millis w))) ;;
        _publishProgress w 0 (chunk_firmwareVersion chunk) ;;
        ret true
  end.

Definition _processChunkData (w : Platform) (chunk : OTAChunkData) : M bool :=
  o <- get ;;
  let c := _otaContext o in
  if negb (inProgress c) || (update_handle c =? 0) then
    _publishError w "OTA no iniciada correctamente" (chunk_firmwareVersion chunk) ;;
    ret false
  else
    let decodedData := base64Decode w (base64Part chunk) in
    if strlen decodedData =? 0 then
      _publishError w "Error decodificando chunk Base64" (chunk_firmwareVersion chunk) ;;
      ret false
    else if (partIndex chunk =? 1)
            && negb (_processImageHeader decodedData (strlen decodedData)) then
      _publishError w "Encabezado de imagen inválido en primer chunk"
        (chunk_firmwareVersion chunk) ;;
      _cleanupChunkedOTA ;;
      ret false
    else
      emit (OtaWrite (update_handle c) decodedData) ;;
      let err := esp_ota_write w 0%nat in
      if negb (err =? ESP_OK) then
        _publishError w ("Error escribiendo chunk OTA: " ++ esp_err_to_name w err)
          (chunk_firmwareVersion chunk) ;;
        ret false
      else
        modify (with_otaContext
                  (fun c => set_receivedSize
                              (uint32 (receivedSize c + strlen decodedData)) c)) ;;
        ret true.

Definition _completeChunkedOTA (w : Platform) (chunk : OTAChunkData) : M unit :=
  o <- get ;;
  let c := _otaContext o in
  if receivedSize c <? 1000 then
    _publishError w "Firmware demasiado pequeño" (chunk_firmwareVersion chunk) ;;
    _cleanupChunkedOTA
  else
    _publishProgress w 90 (chunk_firmwareVersion chunk) ;;
    emit (OtaEnd (update_handle c)) ;;
    let err := esp_ota_end w in
    if negb (err =? ESP_OK) then
      _publishError w
        (("Error finalizando OTA: " ++ esp_err_to_name w err)
           ++ (if err =? ESP_ERR_OTA_VALIDATE_FAILED
               then " - Validación de imagen falló" else ""))
        (chunk_firmwareVersion chunk) ;;
      _cleanupChunkedOTA
    else
      _publishProgress w 95 (chunk_firmwareVersion chunk) ;;
      emit (OtaSetBoot (update_partition c)) ;;
      let err := esp_ota_set_boot_partition w in
      if negb (err =? ESP_OK) then
        _publishError w
          ("Error estableciendo partición de arranque: " ++ esp_err_to_name w err)
          (chunk_firmwareVersion chunk) ;;
        _cleanupChunkedOTA
      else
        _publishProgress w 100 (chunk_firmwareVersion chunk) ;;
        _publishSuccess w (chunk_firmwareVersion chunk) ;;
        emit (Delay 3000) ;;
        emit Restart ;;
        halt Rebooted.

(** [_processOTAChunk] from [// Verify sequence] to its end. *)
Definition _processOTAChunk_sequence (w : Platform) (chunk : OTAChunkData) : M unit :=
  o <- get ;;
  let c := _otaContext o in
  if negb (inProgress c) || negb (partIndex chunk =? int32 (currentPart c + 1)) then
    _publishError w "Chunk fuera de secuencia" (chunk_firmwareVersion chunk) ;;
    _cleanupChunkedOTA
  else
    ok <- _processChunkData w chunk ;;
    if negb ok then _cleanupChunkedOTA
    else
      modify (with_otaContext (set_currentPart (partIndex chunk))) ;;
      match int_div (int32 (partIndex chunk * 100)) (chunk_totalParts chunk) with
      | None => halt DivideByZero
      | Some progress =>
          modify (set_currentProgress progress) ;;
          _publishProgress w progress (chunk_firmwareVersion chunk) ;;
          if partIndex chunk =? chunk_totalParts chunk
          then _completeChunkedOTA w chunk
          else ret tt
      end.

Definition chunk_of (details : JsonDetails) : OTAChunkData :=
  {| chunk_firmwareVersion := FirmwareVersion_as_String details;
     base64Part := Base64Part_as_String details;
     partIndex := PartIndex_as_int details;
     chunk_totalParts := TotalParts_as_int details;
     isError := IsError_or_false details;
     errorMessage := ErrorMessage_or_empty details |}.

Definition _processOTAChunk (w : Platform) (message : Message) : M unit :=
  match message with
  | Malformed => ret tt
  | Json EventType Details =>
      if negb (is_UpdateFirmwareDevice EventType) then ret tt
      else
        match Details with
        | None => ret tt
        | Some details =>
            let chunk := chunk_of details in
            if isError chunk then
              _publishError w (errorMessage chunk) (chunk_firmwareVersion chunk) ;;
              _cleanupChunkedOTA
            else if isEmpty (base64Part chunk) || isEmpty (chunk_firmwareVersion chunk) then
              _publishError w "Chunk OTA incompleto" (chunk_firmwareVersion chunk) ;;
              _cleanupChunkedOTA
            else if partIndex chunk =? 1 then
              o <- get ;;
              if inProgress (_otaContext o) then ret tt
              else
                started <- _startChunkedOTA w chunk ;;
                if negb started then ret tt
                else _processOTAChunk_sequence w chunk
            else _processOTAChunk_sequence w chunk
        end
  end.

(** ** The single-message path *)

Definition isalnum (c : ascii) : bool :=
  let n := Z.of_N (N_of_ascii c) in
  ((48 <=? n) && (n <=? 57)) || ((65 <=? n) && (n <=? 90))
  || ((97 <=? n) && (n <=? 122)).

Definition base64_char_ok (c : ascii) : bool :=
  isalnum c || Ascii.eqb c "+" || Ascii.eqb c "/" || Ascii.eqb c "="
  || Ascii.eqb c "010" || Ascii.eqb c "013".

Fixpoint all_chars (p : ascii -> bool) (s : string) : bool :=
  match s with
  | EmptyString => true
  | String c rest => p c && all_chars p rest
  end.

Definition _validateFirmwareData (w : Platform) (base64Data : string) : M bool :=
  if isEmpty base64Data then
    _publishError w "Datos de firmware vacíos" "" ;; ret false
  else if strlen base64Data <? 100 then
    _publishError w "Datos de firmware demasiado cortos" "" ;; ret false
  else if negb (all_chars base64_char_ok base64Data) then
    _publishError w "Formato Base64 inválido" "" ;; ret false
  else ret true.

(** The [for] loop of [_performOTAUpdateESPIDF]: [written] counts the calls
    of [esp_ota_write] made so far, [fuel] bounds the iterations. *)
Fixpoint write_slices (w : Platform) (update_handle : Z) (version decodedData : string)
  (chunk_size : Z) (fuel written : nat) (i bytes_written : Z) : M bool :=
  let total_size := strlen decodedData in
  match fuel with
  | O => if i <? total_size then halt Hang else ret true
  | S fuel' =>
      if negb (i <? total_size) then ret true
      else
        let current_chunk_size := Z.min chunk_size (total_size - i) in
        if (i =? 0) && negb (_processImageHeader decodedData current_chunk_size) then
          emit (OtaAbort update_handle) ;;
          _publishError w "Encabezado de imagen inválido" version ;;
          ret false
        else
          emit (OtaWrite update_handle
                  (substring (Z.to_nat i) (Z.to_nat current_chunk_size) decodedData)) ;;
          let err := esp_ota_write w written in
          if negb (err =? ESP_OK) then
            emit (OtaAbort update_handle) ;;
            _publishError w ("Error escribiendo OTA: " ++ esp_err_to_name w err) version ;;
            ret false
          else
            let bytes_written' := uint32 (bytes_written + current_chunk_size) in
            let progress := int32 (uint32 (25 + uint32 (bytes_written' * 50) / total_size)) in
            let progress := if progress >? 75 then 75 else progress in
            when ((uint32 (bytes_written' * 100) / total_size) mod 10 =? 0)
              (_publishProgress w progress version) ;;
            write_slices w update_handle version decodedData chunk_size
              fuel' (S written) (uint32 (i + chunk_size)) bytes_written'
  end.

Definition _performOTAUpdateESPIDF (w : Platform) (base64Data version : string) : M bool :=
  if getFreeHeap w <? 50000 then
    _publishError w "Memoria insuficiente para OTA" version ;; ret false
  else
    let decodedData := base64Decode w base64Data in
    if strlen decodedData =? 0 then
      _publishError w "Error decodificando Base64" version ;; ret false
    else
      match esp_ota_get_next_update_partition w with
      | None =>
          _publishError w "No se pudo encontrar partición OTA" version ;; ret false
      | Some update_partition =>
          emit (OtaBegin update_partition) ;;
          let err := fst (esp_ota_begin w) in
          if negb (err =? ESP_OK) then
            _publishError w ("Error iniciando OTA: " ++ esp_err_to_name w err) version ;;
            ret false
          else
            let update_handle := snd (esp_ota_begin w) in
            _publishProgress w 25 version ;;
            o <- get ;;
            written <- write_slices w update_handle version decodedData (_chunkSize o)
                         (String.length decodedData) 0%nat 0 0 ;;
            if negb written then ret false
            else
              _publishProgress w 75 version ;;
              emit (OtaEnd update_handle) ;;
              let err := esp_ota_end w in
              if negb (err =? ESP_OK) then
                _publishError w ("Error finalizando OTA: " ++ esp_err_to_name w err)
                  version ;;
                ret false
              else
                emit (OtaSetBoot (Some update_partition)) ;;
                let err := esp_ota_set_boot_partition w in
                if negb (err =? ESP_OK) then
                  _publishError w
                    ("Error estableciendo partición de arranque: "
                       ++ esp_err_to_name w err) version ;;
                  ret false
                else
                  _publishProgress w 100 version ;;
                  ret true
      end.

Definition performUpdate (w : Platform) (base64Data version : string) : M bool :=
  _performOTAUpdateESPIDF w base64Data version.

Definition _processOTAMessage (w : Platform) (message : Message) : M unit :=
  match message with
  | Malformed => ret tt
  | Json EventType Details =>
      if negb (is_UpdateFirmwareDevice EventType) then ret tt
      else
        match Details with
        | None => ret tt
        | Some details =>
            let version := FirmwareVersion_or_empty details in
            let base64Data := Base64_or_empty details in
            if isEmpty version || isEmpty base64Data then ret tt
            else
              valid <- _validateFirmwareData w base64Data ;;
              if negb valid then ret tt
              else
                modify (fun o => set_status true (millis w) version (_currentProgress o) o) ;;
                _publishProgress w 10 version ;;
                updated <- performUpdate w base64Data version ;;
                if updated then
                  _publishSuccess w version ;;
                  emit (Delay 2000) ;;
                  emit Restart ;;
                  halt Rebooted
                else
                  modify (fun o => set_status false (_otaStartTime o)
                                     (_currentFirmwareVersion o) (_currentProgress o) o) ;;
                  cleanup
        end
  end.

(** ** The public entry points *)

(** [millis() - start] on [unsigned long]. *)
Definition elapsed (now start : Z) : Z := uint32 (now - start).

Definition handle (w : Platform) : M unit :=
  o <- get ;;
  when (_otaInProgress o && (elapsed (millis w) (_otaStartTime o) >? MQTT_OTA_TIMEOUT_MS))
    (_publishError w "Timeout en actualización OTA" (_currentFirmwareVersion o) ;;
     cleanup) ;;
  o <- get ;;
  when (inProgress (_otaContext o)
        && (elapsed (millis w) (startTime (_otaContext o)) >? MQTT_OTA_TIMEOUT_MS))
    (_publishError w "Timeout en OTA por chunks" (firmwareVersion (_otaContext o)) ;;
     _cleanupChunkedOTA).

Definition processMessage (w : Platform) (topic : string) (message : Message) : M unit :=
  o <- get ;;
  if negb (String.eqb topic (_otaTopic o)) then ret tt
  else if isUpdateInProgress o then ret tt
  else if getFreeHeap w <? 30000 then ret tt
  else if _chunkedOTAEnabled o then _processOTAChunk w message
  else _processOTAMessage w message.

Definition abortUpdate (w : Platform) : M unit :=
  o <- get ;;
  when (isUpdateInProgress o)
    (_publishError w "Actualización abortada por usuario" (_currentFirmwareVersion o) ;;
     _cleanupChunkedOTA ;;
     cleanup ;;
     _setState w OTA_STATE_ABORTED).

(** ** The interface as a whole

    Every public method that can write to the object.  The queries
    ([isUpdateInProgress], [getCurrentState], [getProgress], the diagnostics,
    the static helpers) read only. *)

Inductive Op : Type :=
| Op_begin (deviceName firmwareVersion : string)
| Op_setMQTTConfig (publishFunc isConnectedFunc : bool) (otaTopic : string)
| Op_setPartitionName (partitionName : string)
| Op_onProgress (callback : bool)
| Op_onError (callback : bool)
| Op_onSuccess (callback : bool)
| Op_onStateChange (callback : bool)
| Op_handle
| Op_processMessage (topic : string) (message : Message)
| Op_performUpdate (base64Data firmwareVersion : string)
| Op_enableChunkedOTA (enable : bool)
| Op_setChunkSize (chunkSize : Z)
| Op_setAutoReset (autoReset : bool)
| Op_setMaxRetries (maxRetries : Z)
| Op_enableRollbackProtection (enable : bool)
| Op_enableVersionCheck (enable : bool)
| Op_cleanup
| Op_abortUpdate.

Definition call (w : Platform) (op : Op) : M unit :=
  match op with
  | Op_begin n v => modify (begin n v)
  | Op_setMQTTConfig p c t => modify (setMQTTConfig p c t)
  | Op_setPartitionName n => modify (setPartitionName n)
  | Op_onProgress cb => modify (onProgress cb)
  | Op_onError cb => modify (onError cb)
  | Op_onSuccess cb => modify (onSuccess cb)
  | Op_onStateChange cb => modify (onStateChange cb)
  | Op_handle => handle w
  | Op_processMessage t m => processMessage w t m
  | Op_performUpdate d v => performUpdate w d v ;; ret tt
  | Op_enableChunkedOTA e => modify (enableChunkedOTA e)
  | Op_setChunkSize n => modify (setChunkSize n)
  | Op_setAutoReset a => modify (setAutoReset a)
  | Op_setMaxRetries n => modify (setMaxRetries n)
  | Op_enableRollbackProtection e => modify (enableRollbackProtection e)
  | Op_enableVersionCheck e => modify (enableVersionCheck e)
  | Op_cleanup => cleanup
  | Op_abortUpdate => abortUpdate w
  end.

(** A history of calls, each with the platform it ran on; a call that stops
    the program ends the history. *)
Fixpoint run (calls : list (Platform * Op)) : M unit :=
  match calls with
  | [] => ret tt
  | (w, op) :: rest => call w op ;; run rest
  end.

End WithLibb64.

(** ** Reading a trace *)

Definition aborted_handles (evs : list Event) : list Z :=
  flat_map (fun e => match e with OtaAbort h => [h] | _ => [] end) evs.

Definition ended_handles (evs : list Event) : list Z :=
  flat_map (fun e => match e with OtaEnd h => [h] | _ => [] end) evs.

Definition written_data (evs : list Event) : list (Z * string) :=
  flat_map (fun e => match e with OtaWrite h d => [(h, d)] | _ => [] end) evs.

Definition boot_partitions (evs : list Event) : list (option Z) :=
  flat_map (fun e => match e with OtaSetBoot p => [p] | _ => [] end) evs.

Definition begun_partitions (evs : list Event) : list Z :=
  flat_map (fun e => match e with OtaBegin p => [p] | _ => [] end) evs.

(** Progress values handed to the progress callback. *)
Definition progress_reported (evs : list Event) : list Z :=
  flat_map (fun e => match e with ProgressCallback p _ => [p] | _ => [] end) evs.

(** Progress values published on [ota/progress]. *)
Definition progress_published (evs : list Event) : list Z :=
  flat_map (fun e => match e with
                     | PublishMQTT _ (ProgressDoc _ _ p _) => [p]
                     | _ => []
                     end) evs.

Definition error_messages (evs : list Event) : list string :=
  flat_map (fun e => match e with
                     | ErrorCallback m _ => [m]
                     | PublishMQTT _ (ErrorDoc _ _ m _) => [m]
                     | _ => []
                     end) evs.

Definition success_versions (evs : list Event) : list string :=
  flat_map (fun e => match e with
                     | SuccessCallback v => [v]
                     | PublishMQTT _ (SuccessDoc _ v _) => [v]
                     | _ => []
                     end) evs.

(** State changes: the state callback and the documents on [ota/state]. *)
Definition state_changes (evs : list Event) : list Z :=
  flat_map (fun e => match e with
                     | StateCallback s => [s]
                     | PublishMQTT _ (StateDoc _ s _ _) => [s]
                     | _ => []
                     end) evs.

Definition restarts (evs : list Event) : nat :=
  List.length (filter (fun e => match e with Restart => true | _ => false end) evs).

(** The idle values of the session record. *)
Definition session_idle (c : OTAContext) : Prop :=
  inProgress c = false /\ update_handle c = 0 /\ update_partition c = None
  /\ currentPart c = 0.

(** ** A concrete device and platform for the scenarios *)

Module Scenario.

Fixpoint replicate (n : nat) (c : ascii) : string :=
  match n with
  | O => EmptyString
  | S n' => String c (replicate n' c)
  end.

Definition bytes (n : Z) : string := replicate (Z.to_nat n) "A".

(** A platform on which nothing fails. *)
Definition board (now : Z) : Platform :=
  {| getFreeHeap := 120000;
     millis := now;
     isMQTTConnected := true;
     malloc := fun _ => true;
     esp_ota_get_next_update_partition := Some 1;
     esp_ota_begin := (ESP_OK, 7);
     esp_ota_write := fun _ => ESP_OK;
     esp_ota_end := ESP_OK;
     esp_ota_set_boot_partition := ESP_OK;
     esp_err_to_name := fun _ => "ESP_FAIL" |}.

(** A constructed object after [begin], [setMQTTConfig] and the
    registration of the four callbacks. *)
Definition device : MQTTOTA :=
  onStateChange true
    (onSuccess true
       (onError true
          (onProgress true
             (setMQTTConfig true true "ota"
                (begin "sensor" "1.0.0" (MQTTOTA_ctor "A1B2C3D4E5F6")))))).

(** Part [k] of [total], carrying [data] encoded by the reference codec. *)
Definition part_details (k total : Z) (data : string) : JsonDetails :=
  {| FirmwareVersion_as_String := "2.0.0";
     Base64Part_as_String := RefB64.encode data;
     PartIndex_as_int := k;
     TotalParts_as_int := total;
     IsError_or_false := false;
     ErrorMessage_or_empty := "";
     FirmwareVersion_or_empty := "2.0.0";
     Base64_or_empty := "" |}.

Definition part (k total : Z) (data : string) : Message :=
  Json (Some "UpdateFirmwareDevice") (Some (part_details k total data)).

(** A chunk in which the sender reports a failure of its own. *)
Definition failure_details : JsonDetails :=
  {| FirmwareVersion_as_String := "2.0.0";
     Base64Part_as_String := "";
     PartIndex_as_int := 2;
     TotalParts_as_int := 3;
     IsError_or_false := true;
     ErrorMessage_or_empty := "build failed";
     FirmwareVersion_or_empty := "2.0.0";
     Base64_or_empty := "" |}.

Definition failure_notice : Message :=
  Json (Some "UpdateFirmwareDevice") (Some failure_details).

(** The three messages of a three-part update of 1200 bytes, one second apart. *)
Definition three_parts : list (Platform * Op) :=
  [ (board 1000, Op_processMessage "ota" (part 1 3 (bytes 400)));
    (board 2000, Op_processMessage "ota" (part 2 3 (bytes 400)));
    (board 3000, Op_processMessage "ota" (part 3 3 (bytes 400))) ].

(** The device after part 1 of 3 has come through [processMessage]: a live
    session on handle 7 with 400 bytes received. *)
Definition live : MQTTOTA :=
  final (processMessage (libb64 := reference_libb64) (board 1000) "ota"
           (part 1 3 (bytes 400)) device).

(** The session record as it stands when a third and last part has brought
    the total to 900 bytes, just before [_completeChunkedOTA] runs. *)
Definition nearly_done : MQTTOTA :=
  with_otaContext (fun c => set_currentPart 3 (set_receivedSize 900 c)) live.

End Scenario.

(** ** The telemetry of one emitter call, as a list of events *)

Definition error_events (w : Platform) (o : MQTTOTA) (msg version : string) : list Event :=
  events (_publishError w msg version o).

Definition progress_events (w : Platform) (o : MQTTOTA) (p : Z) (version : string)
  : list Event :=
  events (_publishProgress w p version o).

Definition success_events (w : Platform) (o : MQTTOTA) (version : string) : list Event :=
  events (_publishSuccess w version o).

Definition state_events (w : Platform) (o : MQTTOTA) (s : OTAState) : list Event :=
  events (_publishStateChange w s o).

(** What [_cleanupChunkedOTA] asks of the driver. *)
Definition abort_events (o : MQTTOTA) : list Event :=
  if inProgress (_otaContext o) && negb (update_handle (_otaContext o) =? 0)
  then [OtaAbort (update_handle (_otaContext o))]
  else [].

(** Events of the telemetry emitter that are not state changes. *)
Definition is_report (e : Event) : bool :=
  match e with
  | ProgressCallback _ _ | ErrorCallback _ _ | SuccessCallback _ => true
  | PublishMQTT _ (ProgressDoc _ _ _ _) => true
  | PublishMQTT _ (ErrorDoc _ _ _ _) => true
  | PublishMQTT _ (SuccessDoc _ _ _) => true
  | _ => false
  end.

(** A postcondition on the outcome of a method: [Q] when it returns,
    [S] when it stops the program. *)
Definition sat {A : Type} (r : Step A)
  (Q : A -> MQTTOTA -> list Event -> Prop)
  (S : Halt -> MQTTOTA -> list Event -> Prop) : Prop :=
  match r with
  | Next a o e => Q a o e
  | Stop h o e => S h o e
  end.

(** ** Acquisition of the writer handle

    A handle [h] is acquired with respect to a call either because the
    session was already in progress on [h] when the call began, or because
    the call itself made [esp_ota_begin] succeed with [h]. *)
Definition acquired (w : Platform) (o : MQTTOTA) (evs : list Event) (h : Z) : Prop :=
  (inProgress (_otaContext o) = true /\ update_handle (_otaContext o) = h)
  \/ (inProgress (_otaContext o) = false /\ begun_partitions evs <> []
      /\ esp_ota_begin w = (ESP_OK, h)).

(** The call left no session in progress, aborted the acquired handle exactly
    once, aborted nothing else, and reset the session record. *)
Definition aborted_once_then_idle (w : Platform) (o : MQTTOTA) (r : Step unit) : Prop :=
  forall h : Z,
    acquired w o (events r) h ->
    h <> 0 ->
    inProgress (_otaContext (final r)) = false ->
    aborted_handles (events r) = [h] /\ session_idle (_otaContext (final r)).

(** ** Frames

    A frame relates the object before a method, the object after it and the
    events in between; a method is framed when every run of it satisfies
    the relation. *)
Definition framed {A : Type} (I : MQTTOTA -> MQTTOTA -> list Event -> Prop) (c : M A)
  : Prop :=
  forall o : MQTTOTA, I o (final (c o)) (events (c o)).

(** The state field is as it was and no state change was announced. *)
Definition state_frame (o o' : MQTTOTA) (evs : list Event) : Prop :=
  getCurrentState o' = getCurrentState o /\ state_changes evs = [].

(** The session record and the single-message flag are as they were. *)
Definition session_frame (o o' : MQTTOTA) (evs : list Event) : Prop :=
  _otaContext o' = _otaContext o /\ _otaInProgress o' = _otaInProgress o.

Definition state_untouched {A : Type} (o : MQTTOTA) (r : Step A) : Prop :=
  state_frame o (final r) (events r).

Definition is_abortUpdate (op : Op) : bool :=
  match op with Op_abortUpdate => true | _ => false end.

Definition is_processMessage (op : Op) : bool :=
  match op with Op_processMessage _ _ => true | _ => false end.

(** What holds of the object between two calls of the interface: no
    single-message update is marked as running, and a session in progress
    has a non-zero handle. *)
Definition between_calls (o : MQTTOTA) : Prop :=
  _otaInProgress o = false
  /\ (inProgress (_otaContext o) = true -> update_handle (_otaContext o) <> 0).


(** ** Further code of MQTTOTA.cpp *)

(** *** Device identity

    [snprintf(..., "%04X%08X", (uint16_t)(chipID >> 32), (uint32_t)chipID)]:
    the [n] low hexadecimal digits of [v], most significant first, in upper
    case; for [v < 16^n] that is what [%0nX] prints. *)

Definition hex_digit (d : Z) : ascii :=
  ascii_of_N (Z.to_N (if d <? 10 then 48 + d else 55 + d)).

Fixpoint hex_digits (n : nat) (v : Z) : string :=
  match n with
  | O => EmptyString
  | S n' => String (hex_digit ((v / 16 ^ Z.of_nat n') mod 16)) (hex_digits n' v)
  end.

Definition _generateDeviceID (chipID : Z) : string :=
  hex_digits 4 ((chipID / 4294967296) mod 65536)
  ++ hex_digits 8 (chipID mod 4294967296).

(** The value of a string of hexadecimal digits. *)
Definition hex_digit_value (c : ascii) : Z :=
  let n := Z.of_N (N_of_ascii c) in
  if n <? 58 then n - 48 else n - 55.

Fixpoint hex_value_from (acc : Z) (s : string) : Z :=
  match s with
  | EmptyString => acc
  | String c rest => hex_value_from (16 * acc + hex_digit_value c) rest
  end.

Definition hex_value (s : string) : Z := hex_value_from 0 s.

Definition is_upper_hex (c : ascii) : bool :=
  let n := Z.of_N (N_of_ascii c) in
  ((48 <=? n) && (n <=? 57)) || ((65 <=? n) && (n <=? 70)).

(** *** Size of a decoded payload *)

(** [String::charAt]: the character at [i], 0 when out of range. *)
Definition charAt (s : string) (i : Z) : ascii :=
  if i <? 0 then zero
  else match String.get (Z.to_nat i) s with
       | Some c => c
       | None => zero
       end.

Definition calculateBase64DecodedSize (encoded : string) : Z :=
  let len := strlen encoded in
  let padding1 :=
    if (len >? 0) && Ascii.eqb (charAt encoded (len - 1)) "=" then 1 else 0 in
  let padding :=
    if (len >? 1) && Ascii.eqb (charAt encoded (len - 2)) "="
    then padding1 + 1 else padding1 in
  uint32 (uint32 (len * 3) / 4 - padding).

(** *** Version strings *)

Definition isdigit (c : ascii) : bool :=
  let n := Z.of_N (N_of_ascii c) in (48 <=? n) && (n <=? 57).

(** The loop of [checkFirmwareCompatibility]: [None] when it returns [false]
    from inside, otherwise the number of dots counted. *)
Fixpoint count_dots_or_reject (s : string) (dots : Z) : option Z :=
  match s with
  | EmptyString => Some dots
  | String c rest =>
      if Ascii.eqb c "." then count_dots_or_reject rest (int32 (dots + 1))
      else if negb (isdigit c) && negb (Ascii.eqb c "-") && negb (Ascii.eqb c "+")
           then None
           else count_dots_or_reject rest dots
  end.

Definition checkFirmwareCompatibility (newVersion : string) : bool :=
  if isEmpty newVersion then false
  else match count_dots_or_reject newVersion 0 with
       | None => false
       | Some dots => (dots >=? 1) && (dots <=? 2)
       end.

(** What the loop lets through, and the dots of a string. *)
Definition version_char (c : ascii) : bool :=
  Ascii.eqb c "." || isdigit c || Ascii.eqb c "-" || Ascii.eqb c "+".

Fixpoint count_char (c : ascii) (s : string) : Z :=
  match s with
  | EmptyString => 0
  | String d rest => (if Ascii.eqb d c then 1 else 0) + count_char c rest
  end.

(** *** Destructor *)

(** [MQTTOTA::~MQTTOTA] *)
Definition MQTTOTA_dtor : M unit := cleanup ;; _cleanupChunkedOTA.

(** ** Reading a trace, continued *)

(** The calls made to the flash driver, in their order. *)
Definition is_driver_call (e : Event) : bool :=
  match e with
  | OtaBegin _ | OtaWrite _ _ | OtaEnd _ | OtaSetBoot _ | OtaAbort _ => true
  | _ => false
  end.

Definition driver_calls (evs : list Event) : list Event := filter is_driver_call evs.

Definition joined (slices : list string) : string :=
  fold_right append EmptyString slices.

(** A platform whose flash driver does all it is asked: the next update
    partition is [p], [esp_ota_begin] hands out [h], and every write, the
    end and the choice of boot partition succeed. *)
Definition drivers_succeed (w : Platform) (p h : Z) : Prop :=
  esp_ota_get_next_update_partition w = Some p
  /\ esp_ota_begin w = (ESP_OK, h)
  /\ (forall n, esp_ota_write w n = ESP_OK)
  /\ esp_ota_end w = ESP_OK
  /\ esp_ota_set_boot_partition w = ESP_OK.

(** What one run of the write loop does with the driver from offset [i] on:
    it returns, having written consecutive slices of the image, each of at
    most [cs] bytes, and having aborted the handle when it returns [false]. *)
Definition loop_outcome (w : Platform) (h : Z) (data : string) (cs i : Z)
  (r : Step bool) : Prop :=
  exists b o' evs slices,
    r = Next b o' evs
    /\ driver_calls evs
       = (map (OtaWrite h) slices ++ (if b then [] else [OtaAbort h]))%list
    /\ Forall (fun s => strlen s <= cs) slices
    /\ (exists n, joined slices = substring (Z.to_nat i) n data
                  /\ (b = true -> n = Z.to_nat (strlen data - i)))
    /\ ((forall n, esp_ota_write w n = ESP_OK) ->
        (i = 0 -> 288 <= Z.min cs (strlen data)) -> b = true).

(** The ways in which [_performOTAUpdateESPIDF] uses the flash driver on an
    image [data] with chunk size [cs], with the value it returns: it asks for
    nothing; [esp_ota_begin] refuses; a slice is refused (by the header check
    or by [esp_ota_write]) and the handle is aborted; [esp_ota_end] refuses;
    [esp_ota_set_boot_partition] refuses; or the image is installed. *)
Inductive driver_protocol (w : Platform) (data : string) (cs : Z)
  : bool -> list Event -> Prop :=
| nothing_begun : driver_protocol w data cs false []
| begin_refused (p : Z) :
    esp_ota_get_next_update_partition w = Some p ->
    fst (esp_ota_begin w) <> ESP_OK ->
    driver_protocol w data cs false [OtaBegin p]
| slice_refused (p : Z) (slices : list string) (n : nat) :
    esp_ota_get_next_update_partition w = Some p ->
    fst (esp_ota_begin w) = ESP_OK ->
    Forall (fun s => strlen s <= cs) slices ->
    joined slices = substring 0 n data ->
    driver_protocol w data cs false
      (OtaBegin p :: map (OtaWrite (snd (esp_ota_begin w))) slices
         ++ [OtaAbort (snd (esp_ota_begin w))])%list
| end_refused (p : Z) (slices : list string) :
    esp_ota_get_next_update_partition w = Some p ->
    fst (esp_ota_begin w) = ESP_OK ->
    Forall (fun s => strlen s <= cs) slices ->
    joined slices = data ->
    esp_ota_end w <> ESP_OK ->
    driver_protocol w data cs false
      (OtaBegin p :: map (OtaWrite (snd (esp_ota_begin w))) slices
         ++ [OtaEnd (snd (esp_ota_begin w))])%list
| boot_refused (p : Z) (slices : list string) :
    esp_ota_get_next_update_partition w = Some p ->
    fst (esp_ota_begin w) = ESP_OK ->
    Forall (fun s => strlen s <= cs) slices ->
    joined slices = data ->
    esp_ota_end w = ESP_OK ->
    esp_ota_set_boot_partition w <> ESP_OK ->
    driver_protocol w data cs false
      (OtaBegin p :: map (OtaWrite (snd (esp_ota_begin w))) slices
         ++ [OtaEnd (snd (esp_ota_begin w)); OtaSetBoot (Some p)])%list
| installed (p : Z) (slices : list string) :
    esp_ota_get_next_update_partition w = Some p ->
    fst (esp_ota_begin w) = ESP_OK ->
    Forall (fun s => strlen s <= cs) slices ->
    joined slices = data ->
    esp_ota_end w = ESP_OK ->
    esp_ota_set_boot_partition w = ESP_OK ->
    driver_protocol w data cs true
      (OtaBegin p :: map (OtaWrite (snd (esp_ota_begin w))) slices
         ++ [OtaEnd (snd (esp_ota_begin w)); OtaSetBoot (Some p)])%list.

(** ** Further frames *)

(** Every event is a report of the telemetry emitter or a call of the flash
    driver: no delay, no restart, no state change. *)
Definition reports_and_driver_calls (o o' : MQTTOTA) (evs : list Event) : Prop :=
  forallb (fun e => is_report e || is_driver_call e) evs = true.

(** What the configuration methods set: names, identifier, topic, callbacks,
    transport, options and the policy members of the session record. *)
Definition configuration (o : MQTTOTA) :=
  ((_deviceName o, _firmwareVersion o, _deviceID o, _otaTopic o),
   (_progressCallback o, _errorCallback o, _successCallback o, _stateChangeCallback o),
   (_publishMQTT o, _isMQTTConnected o),
   (_chunkedOTAEnabled o, _autoReset o, _chunkSize o),
   (maxRetries (_otaContext o), retryCount (_otaContext o),
    partitionName (_otaContext o), rollbackEnabled (_otaContext o),
    versionCheckEnabled (_otaContext o))).

(** The configuration is as it was. *)
Definition configuration_frame (o o' : MQTTOTA) (evs : list Event) : Prop :=
  configuration o' = configuration o.

(** The calls that carry an update forward or end it, as opposed to the
    calls that configure. *)
Definition is_update_call (op : Op) : bool :=
  match op with
  | Op_handle | Op_processMessage _ _ | Op_performUpdate _ _ | Op_cleanup
  | Op_abortUpdate => true
  | _ => false
  end.

(** The ranges in which the configuration methods keep the chunk size and
    the retry policy. *)
Definition configuration_in_range (o : MQTTOTA) : Prop :=
  1 <= _chunkSize o <= MQTT_OTA_MAX_CHUNK_SIZE
  /\ 1 <= maxRetries (_otaContext o)
  /\ retryCount (_otaContext o) = 0.

(** ** Telemetry discipline *)

(** What decides whether the emitter speaks, and the identifier it signs
    with. *)
Definition telemetry_gates (o : MQTTOTA) :=
  ((_progressCallback o, _errorCallback o, _successCallback o, _stateChangeCallback o),
   (_publishMQTT o, _isMQTTConnected o), _deviceID o).

(** An event that the object [o] may produce on the platform [w]: a callback
    only when it is registered; a document only when the transport is up,
    on the topic of its kind, signed with the device identifier, and for
    progress only with a multiple of ten. *)
Definition permitted (w : Platform) (o : MQTTOTA) (e : Event) : bool :=
  match e with
  | ProgressCallback _ _ => _progressCallback o
  | ErrorCallback _ _ => _errorCallback o
  | SuccessCallback _ => _successCallback o
  | StateCallback _ => _stateChangeCallback o
  | PublishMQTT topic doc =>
      transport_up w o
      && match doc with
         | ProgressDoc device _ p _ =>
             String.eqb topic "ota/progress" && String.eqb device (_deviceID o)
             && (Z.rem p 10 =? 0)
         | ErrorDoc device _ _ _ =>
             String.eqb topic "ota/error" && String.eqb device (_deviceID o)
         | SuccessDoc device _ _ =>
             String.eqb topic "ota/success" && String.eqb device (_deviceID o)
         | StateDoc device _ _ _ =>
             String.eqb topic "ota/state" && String.eqb device (_deviceID o)
         end
  | _ => true
  end.

Definition telemetry_frame (w : Platform) (o o' : MQTTOTA) (evs : list Event) : Prop :=
  telemetry_gates o' = telemetry_gates o /\ forallb (permitted w o) evs = true.

(** ** The open session *)

(** The members of the session record that describe the session itself. *)
Definition session_record (o : MQTTOTA) :=
  let c := _otaContext o in
  ((inProgress c, firmwareVersion c, currentPart c, totalParts c),
   (startTime c, receivedSize c, update_handle c, update_partition c)).

(** The two calls written to close a session from outside the handler. *)
Definition closes_sessions (op : Op) : bool :=
  match op with
  | Op_handle | Op_abortUpdate => true
  | _ => false
  end.

(** ** Options that are stored and never read *)

(** Every member of the object except the auto-reset option and the policy
    members of the session record (retry limit and counter, partition name,
    rollback and version-check flags). *)
Definition core (o : MQTTOTA) :=
  ((_deviceName o, _firmwareVersion o, _deviceID o, _otaTopic o),
   (_progressCallback o, _errorCallback o, _successCallback o, _stateChangeCallback o),
   (_publishMQTT o, _isMQTTConnected o, _chunkedOTAEnabled o, _chunkSize o),
   (_otaInProgress o, _otaStartTime o, _currentFirmwareVersion o, _currentProgress o),
   (inProgress (_otaContext o), firmwareVersion (_otaContext o),
    currentPart (_otaContext o), totalParts (_otaContext o)),
   (startTime (_otaContext o), receivedSize (_otaContext o),
    update_handle (_otaContext o), update_partition (_otaContext o)),
   state (_otaContext o)).

(** Two outcomes that agree on the way the method ended, on the events and,
    up to the members outside [core], on the object reached; the values
    returned are related by [RA]. *)
Definition same_outcome {A : Type} (RA : A -> A -> Prop) (r1 r2 : Step A) : Prop :=
  match r1, r2 with
  | Next a1 o1 e1, Next a2 o2 e2 => RA a1 a2 /\ core o1 = core o2 /\ e1 = e2
  | Stop h1 o1 e1, Stop h2 o2 e2 => h1 = h2 /\ core o1 = core o2 /\ e1 = e2
  | _, _ => False
  end.

Definition respects {A : Type} (RA : A -> A -> Prop) (c1 c2 : M A) : Prop :=
  forall o1 o2, core o1 = core o2 -> same_outcome RA (c1 o1) (c2 o2).

(** A method that does not see the members outside [core]. *)
Definition blind {A : Type} (c : M A) : Prop := respects eq c c.

(** ** Further scenarios *)

Module Bench.

Import Scenario.

(** The [Details] of a single-message update carrying [data]. *)
Definition whole_details (data : string) : JsonDetails :=
  {| FirmwareVersion_as_String := "2.0.0";
     Base64Part_as_String := "";
     PartIndex_as_int := 0;
     TotalParts_as_int := 0;
     IsError_or_false := false;
     ErrorMessage_or_empty := "";
     FirmwareVersion_or_empty := "2.0.0";
     Base64_or_empty := RefB64.encode data |}.

Definition whole (data : string) : Message :=
  Json (Some "UpdateFirmwareDevice") (Some (whole_details data)).

(** The device of the scenarios, switched to single-message mode. *)
Definition plain_device : MQTTOTA := enableChunkedOTA false device.

(** A platform whose flash has no partition to update. *)
Definition board_without_partition (now : Z) : Platform :=
  {| getFreeHeap := 120000;
     millis := now;
     isMQTTConnected := true;
     malloc := fun _ => true;
     esp_ota_get_next_update_partition := None;
     esp_ota_begin := (ESP_OK, 7);
     esp_ota_write := fun _ => ESP_OK;
     esp_ota_end := ESP_OK;
     esp_ota_set_boot_partition := ESP_OK;
     esp_err_to_name := fun _ => "ESP_FAIL" |}.

(** The calls that make the constructed object the device of the
    scenarios. *)
Definition commissioning : list (Platform * Op) :=
  [ (board 0, Op_begin "sensor" "1.0.0");
    (board 0, Op_setMQTTConfig true true "ota");
    (board 0, Op_onProgress true);
    (board 0, Op_onError true);
    (board 0, Op_onSuccess true);
    (board 0, Op_onStateChange true) ].

(** From construction: the three parts of a chunked update, then a call of
    [handle] and a change of the chunk size; nothing cancels. *)
Definition chunked_history : list (Platform * Op) :=
  commissioning ++ three_parts
    ++ [ (board 4000, Op_handle); (board 5000, Op_setChunkSize 4096) ].

(** From construction: an update that arrives whole, as part 1 of 1. *)
Definition whole_chunked_update : list (Platform * Op) :=
  commissioning ++ [ (board 1000, Op_processMessage "ota" (part 1 1 (bytes 1200))) ].

(** From construction: a single-message update whose image is too short to
    hold a header, so that it is begun, aborted and cleaned up. *)
Definition failed_single_message_update : list (Platform * Op) :=
  commissioning
    ++ [ (board 500, Op_enableChunkedOTA false);
         (board 1000, Op_processMessage "ota" (whole (bytes 100))) ].

(** The same, followed by the first part of a chunked update. *)
Definition then_a_first_chunk : list (Platform * Op) :=
  failed_single_message_update
    ++ [ (board 2000, Op_enableChunkedOTA true);
         (board 3000, Op_processMessage "ota" (part 1 3 (bytes 400))) ].

(** From construction: a chunked update is begun and cancelled by
    [abortUpdate]; [first_again] is what arrives next. *)
Definition update_after_abort (first_again : Message) : list (Platform * Op) :=
  commissioning
    ++ [ (board 1000, Op_processMessage "ota" (part 1 3 (bytes 400)));
         (board 2000, Op_abortUpdate);
         (board 3000, Op_processMessage "ota" first_again) ].

End Bench.

(** * Properties *)

Open Scope list_scope.

(** ** The reference codec *)

Lemma string_by_triples (P : string -> Prop) :
  P EmptyString ->
  (forall a, P (String a EmptyString)) ->
  (forall a b, P (String a (String b EmptyString))) ->
  (forall a b c s, P s -> P (String a (String b (String c s)))) ->
  forall s, P s.
Proof.
  intros H0 H1 H2 H3.
  assert (K : forall s, P s /\ (forall a, P (String a s))
                        /\ (forall a b, P (String a (String b s)))).
  { induction s as [|c s [IH0 [IH1 IH2]]].
    - repeat split; auto.
    - repeat split; auto. }
  intro s. apply K.
Qed.

Lemma decode_encode_value (v : N) :
  (v < 64)%N -> RefB64.decode_value (RefB64.encode_value v) = Some v.
Proof.
  intro Hv.
  assert (K : forallb (fun n => match RefB64.decode_value (RefB64.encode_value (N.of_nat n)) with
                                | Some m => N.eqb m (N.of_nat n)
                                | None => false
                                end) (seq 0 64) = true) by (vm_compute; reflexivity).
  rewrite forallb_forall in K.
  specialize (K (N.to_nat v)).
  rewrite N2Nat.id in K.
  destruct (RefB64.decode_value (RefB64.encode_value v)) as [m|].
  - f_equal. apply N.eqb_eq. apply K. apply in_seq. lia.
  - discriminate K. apply in_seq. lia.
Qed.

Lemma decode_value_pad : RefB64.decode_value RefB64.pad = None.
Proof. reflexivity. Qed.

Ltac nlia := zify; Z.to_euclidean_division_equations; lia.

Lemma ascii_of_N_eq (a : ascii) (n : N) : n = N_of_ascii a -> ascii_of_N n = a.
Proof. intros ->. apply ascii_N_embedding. Qed.

Lemma refb64_round_trip (x : string) : RefB64.decode (RefB64.encode x) = x.
Proof.
  unfold RefB64.decode.
  induction x as [|a|a b|a b c s IH] using string_by_triples.
  - reflexivity.
  - pose proof (N_ascii_bounded a) as Ba.
    cbn [RefB64.encode RefB64.decode_from].
    remember (N_of_ascii a) as x eqn:Ex.
    rewrite !decode_encode_value, decode_value_pad by nlia.
    cbn [RefB64.decode_from].
    f_equal. apply ascii_of_N_eq. nlia.
  - pose proof (N_ascii_bounded a) as Ba.
    pose proof (N_ascii_bounded b) as Bb.
    cbn [RefB64.encode RefB64.decode_from].
    remember (N_of_ascii a) as x eqn:Ex.
    remember (N_of_ascii b) as y eqn:Ey.
    rewrite !decode_encode_value, decode_value_pad by nlia.
    cbn [RefB64.decode_from].
    f_equal; [apply ascii_of_N_eq; nlia|].
    f_equal. apply ascii_of_N_eq. nlia.
  - pose proof (N_ascii_bounded a) as Ba.
    pose proof (N_ascii_bounded b) as Bb.
    pose proof (N_ascii_bounded c) as Bc.
    cbn [RefB64.encode RefB64.decode_from].
    remember (N_of_ascii a) as x eqn:Ex.
    remember (N_of_ascii b) as y eqn:Ey.
    remember (N_of_ascii c) as z eqn:Ez.
    rewrite !decode_encode_value by nlia.
    cbn [RefB64.decode_from].
    rewrite IH.
    f_equal; [apply ascii_of_N_eq; nlia|].
    f_equal; [apply ascii_of_N_eq; nlia|].
    f_equal. apply ascii_of_N_eq. nlia.
Qed.

Lemma refb64_length (x : string) :
  Z.of_nat (String.length (RefB64.encode x)) = 4 * ((Z.of_nat (String.length x) + 2) / 3).
Proof.
  induction x as [|a|a b|a b c s IH] using string_by_triples;
    try reflexivity.
  cbn [RefB64.encode String.length].
  rewrite !Nat2Z.inj_succ, IH.
  Z.to_euclidean_division_equations; lia.
Qed.

(** ** Machine integers *)

Lemma int32_small (z : Z) : -2147483648 <= z < 2147483648 -> int32 z = z.
Proof.
  intro H. unfold int32.
  rewrite Z.mod_small by lia. lia.
Qed.

Lemma uint32_small (z : Z) : 0 <= z < 4294967296 -> uint32 z = z.
Proof. intro H. unfold uint32. apply Z.mod_small. lia. Qed.

Lemma elapsed_no_wrap (now start : Z) :
  0 <= start <= now -> now < 4294967296 -> elapsed now start = now - start.
Proof. intros H1 H2. unfold elapsed. apply uint32_small. lia. Qed.

Lemma strlen_nonneg (s : string) : 0 <= strlen s.
Proof. unfold strlen. lia. Qed.

Lemma isEmpty_strlen (s : string) : isEmpty s = (strlen s =? 0).
Proof. destruct s; reflexivity. Qed.

Arguments int32 : simpl never.
Arguments uint32 : simpl never.
Arguments elapsed : simpl never.
Arguments strlen : simpl never.


(** ** Running the monad *)

Ltac run_m :=
  unfold bind, ret, get, modify, emit, halt, when; cbn.

Lemma sat_bind {A B : Type} (c : M A) (k : A -> M B) (o : MQTTOTA)
  (Q : B -> MQTTOTA -> list Event -> Prop) (S : Halt -> MQTTOTA -> list Event -> Prop) :
  sat (c o)
    (fun a o1 e1 =>
       sat (k a o1) (fun b o2 e2 => Q b o2 (e1 ++ e2)%list)
         (fun h o2 e2 => S h o2 (e1 ++ e2)%list))
    S ->
  sat (bind c k o) Q S.
Proof.
  unfold bind, sat. destruct (c o) as [a o1 e1|h o1 e1]; [|auto].
  destruct (k a o1); auto.
Qed.

Lemma sat_outcome {A : Type} (r : Step A) (P : Step A -> Prop) :
  sat r (fun a o e => P (Next a o e)) (fun h o e => P (Stop h o e)) -> P r.
Proof. destruct r; auto. Qed.

(** *** The telemetry emitter *)

Lemma _publishError_eq (w : Platform) (msg v : string) (o : MQTTOTA) :
  _publishError w msg v o = Next tt o (error_events w o msg v).
Proof.
  unfold error_events, _publishError. run_m.
  destruct (_errorCallback o), (transport_up w o); reflexivity.
Qed.

Lemma _publishSuccess_eq (w : Platform) (v : string) (o : MQTTOTA) :
  _publishSuccess w v o = Next tt o (success_events w o v).
Proof.
  unfold success_events, _publishSuccess. run_m.
  destruct (_successCallback o), (transport_up w o); reflexivity.
Qed.

Lemma _publishProgress_eq (w : Platform) (p : Z) (v : string) (o : MQTTOTA) :
  _publishProgress w p v o
  = Next tt (set_currentProgress p o) (progress_events w o p v).
Proof.
  unfold progress_events, _publishProgress. run_m.
  destruct (_progressCallback o); cbn;
    destruct (transport_up w (set_currentProgress p o)
              && ((int_rem p 10 =? 0) || (p =? 100))); reflexivity.
Qed.

Lemma _publishStateChange_eq (w : Platform) (s : OTAState) (o : MQTTOTA) :
  _publishStateChange w s o = Next tt o (state_events w o s).
Proof.
  unfold state_events, _publishStateChange. run_m.
  destruct (_stateChangeCallback o), (transport_up w o); reflexivity.
Qed.

(** What each emitter call amounts to: the user callback when one is
    registered, then the document on its topic when the transport is up. *)
Lemma error_events_eq (w : Platform) (o : MQTTOTA) (msg v : string) :
  let v' := if isEmpty v then _firmwareVersion o else v in
  error_events w o msg v
  = (if _errorCallback o then [ErrorCallback msg v'] else [])
      ++ (if transport_up w o
          then [PublishMQTT "ota/error" (ErrorDoc (_deviceID o) v' msg (millis w))]
          else []).
Proof.
  unfold error_events, _publishError. run_m.
  destruct (_errorCallback o), (transport_up w o); reflexivity.
Qed.

Lemma success_events_eq (w : Platform) (o : MQTTOTA) (v : string) :
  success_events w o v
  = (if _successCallback o then [SuccessCallback v] else [])
      ++ (if transport_up w o
          then [PublishMQTT "ota/success" (SuccessDoc (_deviceID o) v (millis w))]
          else []).
Proof.
  unfold success_events, _publishSuccess. run_m.
  destruct (_successCallback o), (transport_up w o); reflexivity.
Qed.

Lemma progress_events_eq (w : Platform) (o : MQTTOTA) (p : Z) (v : string) :
  progress_events w o p v
  = (if _progressCallback o then [ProgressCallback p v] else [])
      ++ (if transport_up w o && ((int_rem p 10 =? 0) || (p =? 100))
          then [PublishMQTT "ota/progress" (ProgressDoc (_deviceID o) v p (millis w))]
          else []).
Proof.
  unfold progress_events, _publishProgress. run_m.
  destruct (_progressCallback o); cbn;
    destruct (transport_up w (set_currentProgress p o)
              && ((int_rem p 10 =? 0) || (p =? 100))) eqn:E;
    unfold transport_up in *; cbn in E; rewrite E; reflexivity.
Qed.

Lemma state_events_eq (w : Platform) (o : MQTTOTA) (s : OTAState) :
  state_events w o s
  = (if _stateChangeCallback o then [StateCallback (OTAState_code s)] else [])
      ++ (if transport_up w o
          then [PublishMQTT "ota/state"
                  (StateDoc (_deviceID o) (OTAState_code s) (_getStateName s) (millis w))]
          else []).
Proof.
  unfold state_events, _publishStateChange. run_m.
  destruct (_stateChangeCallback o), (transport_up w o); reflexivity.
Qed.

Lemma error_events_report w o msg v : forallb is_report (error_events w o msg v) = true.
Proof.
  unfold error_events, _publishError. run_m.
  destruct (_errorCallback o), (transport_up w o); reflexivity.
Qed.

Lemma success_events_report w o v : forallb is_report (success_events w o v) = true.
Proof.
  unfold success_events, _publishSuccess. run_m.
  destruct (_successCallback o), (transport_up w o); reflexivity.
Qed.

Lemma progress_events_report w o p v : forallb is_report (progress_events w o p v) = true.
Proof.
  unfold progress_events, _publishProgress. run_m.
  destruct (_progressCallback o); cbn;
    destruct (transport_up w (set_currentProgress p o)
              && ((int_rem p 10 =? 0) || (p =? 100))); reflexivity.
Qed.

(** Reports carry no driver call and no state change. *)
Lemma flat_map_reports {B : Type} (f : Event -> list B) (evs : list Event) :
  (forall e, is_report e = true -> f e = []) ->
  forallb is_report evs = true -> flat_map f evs = [].
Proof.
  intros Hf. induction evs as [|e evs IH]; cbn; [reflexivity|].
  intro H. apply andb_prop in H. destruct H as [He Hr].
  rewrite (Hf e He), (IH Hr). reflexivity.
Qed.

Lemma reports_aborted evs : forallb is_report evs = true -> aborted_handles evs = [].
Proof.
  apply flat_map_reports. intros e He.
  destruct e as [| | | |t d| | | | | | |]; try reflexivity; try discriminate.
Qed.

Lemma reports_written evs : forallb is_report evs = true -> written_data evs = [].
Proof.
  apply flat_map_reports. intros e He.
  destruct e as [| | | |t d| | | | | | |]; try reflexivity; try discriminate.
Qed.

Lemma reports_ended evs : forallb is_report evs = true -> ended_handles evs = [].
Proof.
  apply flat_map_reports. intros e He.
  destruct e as [| | | |t d| | | | | | |]; try reflexivity; try discriminate.
Qed.

Lemma reports_boot evs : forallb is_report evs = true -> boot_partitions evs = [].
Proof.
  apply flat_map_reports. intros e He.
  destruct e as [| | | |t d| | | | | | |]; try reflexivity; try discriminate.
Qed.

Lemma reports_begun evs : forallb is_report evs = true -> begun_partitions evs = [].
Proof.
  apply flat_map_reports. intros e He.
  destruct e as [| | | |t d| | | | | | |]; try reflexivity; try discriminate.
Qed.

Lemma reports_state_changes evs : forallb is_report evs = true -> state_changes evs = [].
Proof.
  apply flat_map_reports. intros e He.
  destruct e as [| | | |t d| | | | | | |]; try reflexivity; try discriminate.
  destruct d; try reflexivity; discriminate.
Qed.

Lemma aborted_handles_app a b :
  aborted_handles (a ++ b) = aborted_handles a ++ aborted_handles b.
Proof. apply flat_map_app. Qed.

Lemma written_data_app a b : written_data (a ++ b) = written_data a ++ written_data b.
Proof. apply flat_map_app. Qed.

Lemma ended_handles_app a b : ended_handles (a ++ b) = ended_handles a ++ ended_handles b.
Proof. apply flat_map_app. Qed.

Lemma boot_partitions_app a b :
  boot_partitions (a ++ b) = boot_partitions a ++ boot_partitions b.
Proof. apply flat_map_app. Qed.

Lemma begun_partitions_app a b :
  begun_partitions (a ++ b) = begun_partitions a ++ begun_partitions b.
Proof. apply flat_map_app. Qed.

Lemma state_changes_app a b : state_changes (a ++ b) = state_changes a ++ state_changes b.
Proof. apply flat_map_app. Qed.

Create Rewrite HintDb trace.

#[export] Hint Rewrite aborted_handles_app written_data_app ended_handles_app
  boot_partitions_app begun_partitions_app state_changes_app : trace.
#[export] Hint Rewrite app_nil_r : trace.
#[export] Hint Rewrite
  (fun w o m v => reports_aborted _ (error_events_report w o m v))
  (fun w o p v => reports_aborted _ (progress_events_report w o p v))
  (fun w o v => reports_aborted _ (success_events_report w o v))
  (fun w o m v => reports_written _ (error_events_report w o m v))
  (fun w o p v => reports_written _ (progress_events_report w o p v))
  (fun w o v => reports_written _ (success_events_report w o v))
  (fun w o m v => reports_ended _ (error_events_report w o m v))
  (fun w o p v => reports_ended _ (progress_events_report w o p v))
  (fun w o v => reports_ended _ (success_events_report w o v))
  (fun w o m v => reports_boot _ (error_events_report w o m v))
  (fun w o p v => reports_boot _ (progress_events_report w o p v))
  (fun w o v => reports_boot _ (success_events_report w o v))
  (fun w o m v => reports_begun _ (error_events_report w o m v))
  (fun w o p v => reports_begun _ (progress_events_report w o p v))
  (fun w o v => reports_begun _ (success_events_report w o v))
  (fun w o m v => reports_state_changes _ (error_events_report w o m v))
  (fun w o p v => reports_state_changes _ (progress_events_report w o p v))
  (fun w o v => reports_state_changes _ (success_events_report w o v)) : trace.

Arguments error_events : simpl never.
Arguments progress_events : simpl never.
Arguments success_events : simpl never.
Arguments state_events : simpl never.

(** Projections of an updated object; [cbn] with this list never touches
    arithmetic or strings. *)
Ltac proj :=
  cbn [_deviceName _firmwareVersion _deviceID _otaTopic _otaContext
       _progressCallback _errorCallback _successCallback _stateChangeCallback
       _publishMQTT _isMQTTConnected _chunkedOTAEnabled _autoReset _chunkSize
       _otaInProgress _otaStartTime _currentFirmwareVersion _currentProgress
       inProgress firmwareVersion currentPart totalParts startTime receivedSize
       update_handle update_partition state retryCount maxRetries partitionName
       rollbackEnabled versionCheckEnabled
       with_otaContext set_currentProgress set_status set_identity set_callbacks
       set_options set_update_partition set_update_handle set_currentPart
       set_receivedSize set_state set_policy open_session close_session
       isUpdateInProgress getCurrentState
       chunk_firmwareVersion base64Part partIndex chunk_totalParts isError
       errorMessage chunk_of final events returned fst snd].

Ltac proj_hyps :=
  cbn [_deviceName _firmwareVersion _deviceID _otaTopic _otaContext
       _progressCallback _errorCallback _successCallback _stateChangeCallback
       _publishMQTT _isMQTTConnected _chunkedOTAEnabled _autoReset _chunkSize
       _otaInProgress _otaStartTime _currentFirmwareVersion _currentProgress
       inProgress firmwareVersion currentPart totalParts startTime receivedSize
       update_handle update_partition state retryCount maxRetries partitionName
       rollbackEnabled versionCheckEnabled
       with_otaContext set_currentProgress set_status set_identity set_callbacks
       set_options set_update_partition set_update_handle set_currentPart
       set_receivedSize set_state set_policy open_session close_session
       isUpdateInProgress getCurrentState
       chunk_firmwareVersion base64Part partIndex chunk_totalParts isError
       errorMessage chunk_of final events returned fst snd] in *.


(** Known truth values of conditions are used before a case split. *)
Ltac use_hyps :=
  repeat match goal with
         | H : ?x = true |- context [?x] => rewrite H
         | H : ?x = false |- context [?x] => rewrite H
         | H : ?x = (_, _) |- context [?x] => rewrite H
         end.

Lemma _cleanupChunkedOTA_eq (o : MQTTOTA) :
  _cleanupChunkedOTA o = Next tt (with_otaContext close_session o) (abort_events o).
Proof.
  unfold _cleanupChunkedOTA, abort_events. run_m.
  destruct (inProgress (_otaContext o) && negb (update_handle (_otaContext o) =? 0));
    reflexivity.
Qed.

(** One step of symbolic execution of a method under [sat]. *)
Ltac wp_step :=
  lazymatch goal with
  | |- sat (bind _ _ _) _ _ => apply sat_bind
  | |- sat (ret _ _) _ _ => unfold ret at 1; unfold sat at 1
  | |- sat (get _) _ _ => unfold get at 1; unfold sat at 1
  | |- sat (modify _ _) _ _ => unfold modify at 1; unfold sat at 1
  | |- sat (emit _ _) _ _ => unfold emit at 1; unfold sat at 1
  | |- sat (halt _ _) _ _ => unfold halt at 1; unfold sat at 1
  | |- sat (when _ _ _) _ _ => unfold when at 1
  | |- sat (cleanup _) _ _ => unfold cleanup at 1
  | |- sat (_cleanupChunkedOTA _) _ _ => rewrite _cleanupChunkedOTA_eq; unfold sat at 1
  | |- sat (_setState _ _ _) _ _ => unfold _setState at 1
  | |- sat (_startChunkedOTA _ _ _) _ _ => unfold _startChunkedOTA at 1
  | |- sat (_processChunkData _ _ _) _ _ => unfold _processChunkData at 1
  | |- sat (_completeChunkedOTA _ _ _) _ _ => unfold _completeChunkedOTA at 1
  | |- sat (_processOTAChunk_sequence _ _ _) _ _ => unfold _processOTAChunk_sequence at 1
  | |- sat (_processOTAChunk _ _ _) _ _ => unfold _processOTAChunk at 1
  | |- sat (handle _ _) _ _ => unfold handle at 1
  | |- sat (abortUpdate _ _) _ _ => unfold abortUpdate at 1
  | |- sat (processMessage _ _ _ _) _ _ => unfold processMessage at 1
  | |- sat (_publishError _ _ _ _) _ _ => rewrite _publishError_eq; unfold sat at 1
  | |- sat (_publishProgress _ _ _ _) _ _ => rewrite _publishProgress_eq; unfold sat at 1
  | |- sat (_publishSuccess _ _ _) _ _ => rewrite _publishSuccess_eq; unfold sat at 1
  | |- sat (_publishStateChange _ _ _) _ _ =>
      rewrite _publishStateChange_eq; unfold sat at 1
  | |- sat ((if ?b then _ else _) _) _ _ =>
      first [ progress (use_hyps; cbn [andb orb negb]) | destruct b eqn:? ]
  | |- sat ((match ?x with _ => _ end) _) _ _ => destruct x eqn:?
  | |- sat ((let _ := _ in _) _) _ _ => cbv zeta
  | |- sat ((fun _ => _) _ _) _ _ => cbv beta
  end; cbv beta iota; proj.

Ltac wp := repeat wp_step.

(** Clean-up of an event list built by [sat_bind]. *)
(** Branch conditions, taken apart into their atoms where that is forced. *)
Ltac bool_facts :=
  repeat match goal with
         | H : negb _ = true |- _ => apply negb_true_iff in H
         | H : negb _ = false |- _ => apply negb_false_iff in H
         | H : _ && _ = true |- _ =>
             let H1 := fresh H in apply andb_prop in H; destruct H as [H H1]
         | H : _ || _ = false |- _ =>
             let H1 := fresh H in apply orb_false_elim in H; destruct H as [H H1]
         end.

Ltac tidy :=
  bool_facts; unfold abort_events; proj; use_hyps; cbn [andb orb negb];
  cbn [app]; rewrite ?app_nil_r; cbn [app].

Lemma OTAState_eqb_eq (a b : OTAState) : OTAState_eqb a b = true <-> a = b.
Proof.
  split.
  - destruct a, b; intro H; try reflexivity; discriminate H.
  - intros ->. destruct b; reflexivity.
Qed.

Ltac trace_leaf :=
  bool_facts; unfold abort_events; proj; use_hyps; cbn [andb orb negb];
  autorewrite with trace;
  cbn [aborted_handles ended_handles written_data boot_partitions begun_partitions
       state_changes flat_map app];
  intros;
  try discriminate;
  try congruence;
  try (repeat split; congruence).

Lemma isEmpty_false (s : string) : s <> "" -> isEmpty s = false.
Proof. destruct s; [congruence|reflexivity]. Qed.

Lemma strlen_eqb_false (s : string) : s <> "" -> (strlen s =? 0) = false.
Proof. intro H. rewrite <- isEmpty_strlen. apply isEmpty_false. exact H. Qed.

Section Session.

Context {libb64 : Libb64}.

(** *** The periodic handler *)

(** C7.  With no single-message update running: when a chunked session is in
    progress on an acquired handle and the time elapsed since its start
    exceeds [MQTT_OTA_TIMEOUT_MS] (420000 ms), [handle] emits the timeout
    error, aborts the handle and resets the session record; when no chunked
    session is in progress, or the deadline is not exceeded, [handle] returns
    the object unchanged and produces no event. *)
Theorem handle_timeout_or_nothing (w : Platform) (o : MQTTOTA) :
  _otaInProgress o = false ->
  (inProgress (_otaContext o) = true ->
   update_handle (_otaContext o) <> 0 ->
   elapsed (millis w) (startTime (_otaContext o)) > MQTT_OTA_TIMEOUT_MS ->
   handle w o
   = Next tt (with_otaContext close_session o)
       (error_events w o "Timeout en OTA por chunks" (firmwareVersion (_otaContext o))
          ++ [OtaAbort (update_handle (_otaContext o))])
     /\ session_idle (_otaContext (with_otaContext close_session o)))
  /\ (inProgress (_otaContext o) = false
      \/ elapsed (millis w) (startTime (_otaContext o)) <= MQTT_OTA_TIMEOUT_MS ->
      handle w o = Next tt o []).
Proof.
  intros Hmono. split.
  - intros Hin Hnz Ht.
    apply Z.eqb_neq in Hnz. apply Z.gtb_gt in Ht.
    split; [|repeat split].
    apply sat_outcome with (P := fun r => r = _).
    wp. tidy. reflexivity.
  - intros Hcase.
    assert (Hc : inProgress (_otaContext o)
                 && (elapsed (millis w) (startTime (_otaContext o))
                     >? MQTT_OTA_TIMEOUT_MS) = false).
    { destruct Hcase as [-> | Hle]; [reflexivity|].
      apply andb_false_intro2. rewrite Z.gtb_ltb. apply Z.ltb_ge. exact Hle. }
    apply sat_outcome with (P := fun r => r = _).
    wp. reflexivity.
Qed.

(** *** Cancellation *)

(** C6.  [abortUpdate] on a chunked session in progress with an acquired
    handle emits the error, aborts that handle, resets the session record
    and the single-message status, and leaves the state field at
    [OTA_STATE_ABORTED] (announcing the change when the field was not already
    there); with no update in progress it returns the object unchanged and
    produces no event. *)
Theorem abortUpdate_cancels_or_nothing (w : Platform) (o : MQTTOTA) :
  (inProgress (_otaContext o) = true ->
   update_handle (_otaContext o) <> 0 ->
   let r := abortUpdate w o in
   returned r = true
   /\ getCurrentState (final r) = OTA_STATE_ABORTED
   /\ session_idle (_otaContext (final r))
   /\ isUpdateInProgress (final r) = false
   /\ events r
      = error_events w o "Actualización abortada por usuario" (_currentFirmwareVersion o)
          ++ [OtaAbort (update_handle (_otaContext o))]
          ++ (if OTAState_eqb (state (_otaContext o)) OTA_STATE_ABORTED then []
              else state_events w (final r) OTA_STATE_ABORTED))
  /\ (isUpdateInProgress o = false -> abortUpdate w o = Next tt o []).
Proof.
  split.
  - intros Hin Hnz r. subst r.
    apply Z.eqb_neq in Hnz.
    assert (Hup : isUpdateInProgress o = true).
    { unfold isUpdateInProgress. rewrite Hin. apply orb_true_r. }
    apply sat_outcome
      with (P := fun r =>
                   returned r = true
                   /\ getCurrentState (final r) = OTA_STATE_ABORTED
                   /\ session_idle (_otaContext (final r))
                   /\ isUpdateInProgress (final r) = false
                   /\ events r
                      = error_events w o "Actualización abortada por usuario"
                          (_currentFirmwareVersion o)
                          ++ [OtaAbort (update_handle (_otaContext o))]
                          ++ (if OTAState_eqb (state (_otaContext o)) OTA_STATE_ABORTED
                              then []
                              else state_events w (final r) OTA_STATE_ABORTED)).
    wp; tidy; repeat split.
    apply OTAState_eqb_eq. assumption.
  - intros Hidle.
    apply sat_outcome with (P := fun r => r = _).
    wp. reflexivity.
Qed.

(** *** Completion *)

(** C5, as the code has it.  At completion of a session in progress on an
    acquired handle, a [receivedSize] below 1000 is refused as too small:
    neither [esp_ota_end] nor [esp_ota_set_boot_partition] is called, the
    handle is aborted and the session record is reset. *)
Theorem complete_rejects_below_1000 (w : Platform) (chunk : OTAChunkData) (o : MQTTOTA) :
  inProgress (_otaContext o) = true ->
  update_handle (_otaContext o) <> 0 ->
  0 <= receivedSize (_otaContext o) < 1000 ->
  let r := _completeChunkedOTA w chunk o in
  r = Next tt (with_otaContext close_session o)
        (error_events w o "Firmware demasiado pequeño" (chunk_firmwareVersion chunk)
           ++ [OtaAbort (update_handle (_otaContext o))])
  /\ ended_handles (events r) = []
  /\ boot_partitions (events r) = []
  /\ session_idle (_otaContext (final r)).
Proof.
  intros Hin Hnz Hsz r.
  apply Z.eqb_neq in Hnz.
  assert (Hlt : (receivedSize (_otaContext o) <? 1000) = true) by (apply Z.ltb_lt; lia).
  assert (E : r = Next tt (with_otaContext close_session o)
                    (error_events w o "Firmware demasiado pequeño"
                       (chunk_firmwareVersion chunk)
                       ++ [OtaAbort (update_handle (_otaContext o))])).
  { subst r. apply sat_outcome with (P := fun r => r = _).
    wp. tidy. reflexivity. }
  rewrite E. proj.
  autorewrite with trace. repeat split.
Qed.

(** The guard seen from the update handler: the last chunk of a live session
    that leaves fewer than 1000 bytes received is written, then the session
    is refused without any call of [esp_ota_end] or
    [esp_ota_set_boot_partition]. *)
Lemma last_chunk_below_1000_is_refused (w : Platform) (EventType : option string)
  (details : JsonDetails) (o : MQTTOTA) :
  let chunk := chunk_of details in
  let r := _processOTAChunk w (Json EventType (Some details)) o in
  is_UpdateFirmwareDevice EventType = true ->
  inProgress (_otaContext o) = true ->
  update_handle (_otaContext o) <> 0 ->
  isError chunk = false ->
  base64Part chunk <> "" ->
  chunk_firmwareVersion chunk <> "" ->
  base64Decode w (base64Part chunk) <> "" ->
  esp_ota_write w 0%nat = ESP_OK ->
  partIndex chunk <> 1 ->
  partIndex chunk = int32 (currentPart (_otaContext o) + 1) ->
  partIndex chunk = chunk_totalParts chunk ->
  chunk_totalParts chunk <> 0 ->
  uint32 (receivedSize (_otaContext o) + strlen (base64Decode w (base64Part chunk)))
  < 1000 ->
  returned r = true
  /\ ended_handles (events r) = []
  /\ boot_partitions (events r) = []
  /\ aborted_handles (events r) = [update_handle (_otaContext o)]
  /\ session_idle (_otaContext (final r)).
Proof.
  intros chunk r Hev Hin Hnz Herr Hpart Hver Hdec Hwr Hk1 Hseq Hlast Htot Hsz.
  subst chunk r. proj_hyps.
  apply Z.eqb_neq in Hnz, Hk1, Htot. apply Z.eqb_eq in Hseq, Hlast.
  apply Z.ltb_lt in Hsz.
  apply isEmpty_false in Hpart, Hver. apply strlen_eqb_false in Hdec.
  assert (Hw : (esp_ota_write w 0 =? ESP_OK) = true) by (rewrite Hwr; reflexivity).
  apply sat_outcome
    with (P := fun r => returned r = true
                        /\ ended_handles (events r) = []
                        /\ boot_partitions (events r) = []
                        /\ aborted_handles (events r) = [update_handle (_otaContext o)]
                        /\ session_idle (_otaContext (final r))).
  wp; trace_leaf.
  unfold int_div in *. rewrite Htot in *. discriminate.
Qed.

(** *** Abort exactly once *)

Lemma bind_get {A : Type} (k : MQTTOTA -> M A) (o : MQTTOTA) : bind get k o = k o o.
Proof. unfold bind, get. destruct (k o o); reflexivity. Qed.

Lemma processMessage_eq (w : Platform) (topic : string) (m : Message) (o : MQTTOTA) :
  processMessage w topic m o
  = if negb (String.eqb topic (_otaTopic o)) then Next tt o []
    else if isUpdateInProgress o then Next tt o []
    else if getFreeHeap w <? 30000 then Next tt o []
    else if _chunkedOTAEnabled o then _processOTAChunk w m o
    else _processOTAMessage w m o.
Proof.
  unfold processMessage. rewrite bind_get.
  destruct (negb (String.eqb topic (_otaTopic o))); [reflexivity|].
  destruct (isUpdateInProgress o); [reflexivity|].
  destruct (getFreeHeap w <? 30000); [reflexivity|].
  destruct (_chunkedOTAEnabled o); reflexivity.
Qed.

Lemma _processOTAChunk_aborts_once (w : Platform) (m : Message) (o : MQTTOTA) :
  aborted_once_then_idle w o (_processOTAChunk w m o).
Proof.
  intros h [[Hin Hh] | [Hin [Hbeg Hbegin]]] Hnz.
  - apply Z.eqb_neq in Hnz. rewrite <- Hh in *. clear Hh.
    apply sat_outcome
      with (P := fun r => inProgress (_otaContext (final r)) = false ->
                          aborted_handles (events r) = [update_handle (_otaContext o)]
                          /\ session_idle (_otaContext (final r))).
    wp; trace_leaf.
  - apply Z.eqb_neq in Hnz. revert Hbeg.
    apply sat_outcome
      with (P := fun r => begun_partitions (events r) <> [] ->
                          inProgress (_otaContext (final r)) = false ->
                          aborted_handles (events r) = [h]
                          /\ session_idle (_otaContext (final r))).
    wp; trace_leaf.
Qed.

Lemma idle_call_acquires_nothing (w : Platform) (o : MQTTOTA) :
  aborted_once_then_idle w o (Next tt o []).
Proof.
  intros h [[Hin Hh] | [Hin [Hbeg Hbegin]]] Hnz Hfin.
  - cbn in Hfin. congruence.
  - cbn in Hbeg. congruence.
Qed.

Lemma processMessage_aborts_once (w : Platform) (topic : string) (m : Message)
  (o : MQTTOTA) :
  _chunkedOTAEnabled o = true ->
  aborted_once_then_idle w o (processMessage w topic m o).
Proof.
  intro Hchunked. rewrite processMessage_eq, Hchunked.
  destruct (negb (String.eqb topic (_otaTopic o)));
    [apply idle_call_acquires_nothing|].
  destruct (isUpdateInProgress o); [apply idle_call_acquires_nothing|].
  destruct (getFreeHeap w <? 30000); [apply idle_call_acquires_nothing|].
  apply _processOTAChunk_aborts_once.
Qed.

Lemma handle_aborts_once (w : Platform) (o : MQTTOTA) :
  aborted_once_then_idle w o (handle w o).
Proof.
  intros h [[Hin Hh] | [Hin [Hbeg Hbegin]]] Hnz.
  - apply Z.eqb_neq in Hnz. rewrite <- Hh in *. clear Hh.
    apply sat_outcome
      with (P := fun r => inProgress (_otaContext (final r)) = false ->
                          aborted_handles (events r) = [update_handle (_otaContext o)]
                          /\ session_idle (_otaContext (final r))).
    wp; trace_leaf.
  - revert Hbeg.
    apply sat_outcome
      with (P := fun r => begun_partitions (events r) <> [] ->
                          inProgress (_otaContext (final r)) = false ->
                          aborted_handles (events r) = [h]
                          /\ session_idle (_otaContext (final r))).
    wp; trace_leaf.
Qed.

Lemma state_events_no_driver_call (w : Platform) (o : MQTTOTA) (s : OTAState) :
  aborted_handles (state_events w o s) = [] /\ begun_partitions (state_events w o s) = [].
Proof.
  unfold state_events, _publishStateChange. run_m.
  destruct (_stateChangeCallback o), (transport_up w o); split; reflexivity.
Qed.

Lemma abortUpdate_aborts_once (w : Platform) (o : MQTTOTA) :
  aborted_once_then_idle w o (abortUpdate w o).
Proof.
  intros h [[Hin Hh] | [Hin [Hbeg Hbegin]]] Hnz.
  - apply Z.eqb_neq in Hnz. rewrite <- Hh in *. clear Hh.
    apply sat_outcome
      with (P := fun r => inProgress (_otaContext (final r)) = false ->
                          aborted_handles (events r) = [update_handle (_otaContext o)]
                          /\ session_idle (_otaContext (final r))).
    wp; trace_leaf.
    all: rewrite (proj1 (state_events_no_driver_call _ _ _)); repeat split.
  - revert Hbeg.
    apply sat_outcome
      with (P := fun r => begun_partitions (events r) <> [] ->
                          inProgress (_otaContext (final r)) = false ->
                          aborted_handles (events r) = [h]
                          /\ session_idle (_otaContext (final r))).
    wp; trace_leaf.
    all: rewrite (proj2 (state_events_no_driver_call _ _ _)) in *; congruence.
Qed.

(** C3.  Whichever way a chunked session stops being in progress (a chunk
    handed to the update handler, a message through [processMessage] in
    chunked mode, the periodic handler, [abortUpdate]): if its writer handle
    was acquired, the call aborts that handle exactly once, aborts no other,
    and leaves the session record at its idle values.  A failure path that
    runs the clean-up twice is included: the second run finds no session. *)
Theorem session_end_aborts_exactly_once (w : Platform) (o : MQTTOTA) :
  (forall m, aborted_once_then_idle w o (_processOTAChunk w m o))
  /\ (forall topic m, _chunkedOTAEnabled o = true ->
                      aborted_once_then_idle w o (processMessage w topic m o))
  /\ aborted_once_then_idle w o (handle w o)
  /\ aborted_once_then_idle w o (abortUpdate w o).
Proof.
  split; [|split; [|split]].
  - intro m. apply _processOTAChunk_aborts_once.
  - intros topic m H. apply processMessage_aborts_once. exact H.
  - apply handle_aborts_once.
  - apply abortUpdate_aborts_once.
Qed.

(** *** Sequencing *)

(** A chunk of a live session that is out of sequence, part 1 aside, is fatal. *)
Lemma out_of_sequence_is_fatal (w : Platform) (EventType : option string)
  (details : JsonDetails) (o : MQTTOTA) :
  let chunk := chunk_of details in
  is_UpdateFirmwareDevice EventType = true ->
  inProgress (_otaContext o) = true ->
  update_handle (_otaContext o) <> 0 ->
  isError chunk = false ->
  base64Part chunk <> "" ->
  chunk_firmwareVersion chunk <> "" ->
  partIndex chunk <> 1 ->
  partIndex chunk <> int32 (currentPart (_otaContext o) + 1) ->
  _processOTAChunk w (Json EventType (Some details)) o
  = Next tt (with_otaContext close_session o)
      (error_events w o "Chunk fuera de secuencia" (chunk_firmwareVersion chunk)
         ++ [OtaAbort (update_handle (_otaContext o))]).
Proof.
  intros chunk Hev Hin Hnz Herr Hpart Hver Hk1 Hseq. subst chunk. proj_hyps.
  apply Z.eqb_neq in Hnz, Hk1, Hseq.
  apply isEmpty_false in Hpart, Hver.
  apply sat_outcome with (P := fun r => r = _).
  wp; tidy; reflexivity.
Qed.

(** A chunk of a live session that is next in sequence, part 1 aside, has its
    bytes handed to the flash writer, whatever follows. *)
Lemma next_in_sequence_is_written (w : Platform) (EventType : option string)
  (details : JsonDetails) (o : MQTTOTA) :
  let chunk := chunk_of details in
  is_UpdateFirmwareDevice EventType = true ->
  inProgress (_otaContext o) = true ->
  update_handle (_otaContext o) <> 0 ->
  isError chunk = false ->
  base64Part chunk <> "" ->
  chunk_firmwareVersion chunk <> "" ->
  base64Decode w (base64Part chunk) <> "" ->
  partIndex chunk <> 1 ->
  partIndex chunk = int32 (currentPart (_otaContext o) + 1) ->
  written_data (events (_processOTAChunk w (Json EventType (Some details)) o))
  = [(update_handle (_otaContext o), base64Decode w (base64Part chunk))].
Proof.
  intros chunk Hev Hin Hnz Herr Hpart Hver Hdec Hk1 Hseq. subst chunk. proj_hyps.
  apply Z.eqb_neq in Hnz, Hk1. apply Z.eqb_eq in Hseq.
  apply isEmpty_false in Hpart, Hver. apply strlen_eqb_false in Hdec.
  apply sat_outcome with (P := fun r => written_data (events r) = _).
  wp; trace_leaf.
Qed.

(** A chunk that is accepted and is not the last one advances the session;
    nothing compares its [TotalParts] with the session's. *)
Lemma next_in_sequence_advances (w : Platform) (EventType : option string)
  (details : JsonDetails) (o : MQTTOTA) :
  let chunk := chunk_of details in
  let r := _processOTAChunk w (Json EventType (Some details)) o in
  is_UpdateFirmwareDevice EventType = true ->
  inProgress (_otaContext o) = true ->
  update_handle (_otaContext o) <> 0 ->
  isError chunk = false ->
  base64Part chunk <> "" ->
  chunk_firmwareVersion chunk <> "" ->
  base64Decode w (base64Part chunk) <> "" ->
  esp_ota_write w 0%nat = ESP_OK ->
  partIndex chunk <> 1 ->
  partIndex chunk = int32 (currentPart (_otaContext o) + 1) ->
  chunk_totalParts chunk <> 0 ->
  partIndex chunk <> chunk_totalParts chunk ->
  returned r = true
  /\ inProgress (_otaContext (final r)) = true
  /\ currentPart (_otaContext (final r)) = partIndex chunk
  /\ totalParts (_otaContext (final r)) = totalParts (_otaContext o)
  /\ receivedSize (_otaContext (final r))
     = uint32 (receivedSize (_otaContext o)
               + strlen (base64Decode w (base64Part chunk)))
  /\ aborted_handles (events r) = [].
Proof.
  intros chunk r Hev Hin Hnz Herr Hpart Hver Hdec Hwr Hk1 Hseq Htot Hlast.
  subst chunk r. proj_hyps.
  apply Z.eqb_neq in Hnz, Hk1, Htot, Hlast. apply Z.eqb_eq in Hseq.
  apply isEmpty_false in Hpart, Hver. apply strlen_eqb_false in Hdec.
  assert (Hw : (esp_ota_write w 0 =? ESP_OK) = true) by (rewrite Hwr; reflexivity).
  apply sat_outcome
    with (P := fun r => returned r = true
                        /\ inProgress (_otaContext (final r)) = true
                        /\ currentPart (_otaContext (final r)) = PartIndex_as_int details
                        /\ totalParts (_otaContext (final r)) = totalParts (_otaContext o)
                        /\ receivedSize (_otaContext (final r))
                           = uint32 (receivedSize (_otaContext o)
                                     + strlen (base64Decode w
                                                 (Base64Part_as_String details)))
                        /\ aborted_handles (events r) = []).
  wp; trace_leaf.
  unfold int_div in *. rewrite Htot in *. discriminate.
Qed.

(** At the update handler.  For a live session on an acquired handle and a
    well-formed, decodable chunk handed to [_processOTAChunk]: part 1 is
    dropped without any effect; any other part is accepted (its bytes go to
    the flash writer) if and only if its index is [currentPart + 1]; any
    other index is fatal (error, abort, reset).  The chunk's [TotalParts] is
    not part of the rule. *)
Theorem sequencing_rule (w : Platform) (EventType : option string)
  (details : JsonDetails) (o : MQTTOTA) :
  let chunk := chunk_of details in
  let r := _processOTAChunk w (Json EventType (Some details)) o in
  is_UpdateFirmwareDevice EventType = true ->
  inProgress (_otaContext o) = true ->
  update_handle (_otaContext o) <> 0 ->
  isError chunk = false ->
  base64Part chunk <> "" ->
  chunk_firmwareVersion chunk <> "" ->
  base64Decode w (base64Part chunk) <> "" ->
  (partIndex chunk = 1 -> r = Next tt o [])
  /\ (partIndex chunk <> 1 ->
      (written_data (events r)
       = [(update_handle (_otaContext o), base64Decode w (base64Part chunk))]
       <-> partIndex chunk = int32 (currentPart (_otaContext o) + 1)))
  /\ (partIndex chunk <> 1 ->
      partIndex chunk <> int32 (currentPart (_otaContext o) + 1) ->
      r = Next tt (with_otaContext close_session o)
            (error_events w o "Chunk fuera de secuencia" (chunk_firmwareVersion chunk)
               ++ [OtaAbort (update_handle (_otaContext o))])).
Proof.
  intros chunk r Hev Hin Hnz Herr Hpart Hver Hdec.
  split; [|split].
  - intro Hk1. subst chunk r. proj_hyps.
    apply Z.eqb_eq in Hk1. apply isEmpty_false in Hpart, Hver.
    apply sat_outcome with (P := fun r => r = _).
    wp; reflexivity.
  - intro Hk1. split.
    + intro Hw.
      destruct (Z.eq_dec (partIndex chunk) (int32 (currentPart (_otaContext o) + 1)))
        as [E|N]; [exact E|].
      exfalso. subst r.
      unfold chunk in *.
      rewrite (out_of_sequence_is_fatal w EventType details o Hev Hin Hnz Herr
                 Hpart Hver Hk1 N) in Hw.
      cbn [events] in Hw. autorewrite with trace in Hw.
      cbn [written_data flat_map app] in Hw. discriminate Hw.
    + intro Hseq. subst r.
      apply (next_in_sequence_is_written w EventType details o); assumption.
  - intros Hk1 Hseq. subst r.
    apply (out_of_sequence_is_fatal w EventType details o); assumption.
Qed.

(** *** Rejection while a session is in progress *)

(** At the update handler.  While a chunked session is in progress, a
    well-formed part 1 handed to [_processOTAChunk] is dropped with no
    effect: the object, and with it the handle, the partition, [currentPart]
    and [receivedSize], is unchanged and no event is produced.  A chunk with
    [IsError] set, or with an empty payload or version, is not dropped in
    that way: it ends the live session (the error is emitted, the acquired
    handle is aborted and the record is reset). *)
Theorem in_session_rejection (w : Platform) (o : MQTTOTA) :
  inProgress (_otaContext o) = true ->
  (forall EventType details,
     IsError_or_false details = false ->
     Base64Part_as_String details <> "" ->
     FirmwareVersion_as_String details <> "" ->
     PartIndex_as_int details = 1 ->
     _processOTAChunk w (Json EventType (Some details)) o = Next tt o [])
  /\ (forall EventType details,
        is_UpdateFirmwareDevice EventType = true ->
        update_handle (_otaContext o) <> 0 ->
        IsError_or_false details = true
        \/ Base64Part_as_String details = ""
        \/ FirmwareVersion_as_String details = "" ->
        let r := _processOTAChunk w (Json EventType (Some details)) o in
        returned r = true
        /\ aborted_handles (events r) = [update_handle (_otaContext o)]
        /\ final r = with_otaContext close_session o).
Proof.
  intro Hin. split.
  - intros EventType details Herr Hpart Hver Hk1.
    apply Z.eqb_eq in Hk1. apply isEmpty_false in Hpart, Hver.
    apply sat_outcome with (P := fun r => r = _).
    wp; reflexivity.
  - intros EventType details Hev Hnz Hcase r. subst r.
    apply Z.eqb_neq in Hnz.
    apply sat_outcome
      with (P := fun r => returned r = true
                          /\ aborted_handles (events r) = [update_handle (_otaContext o)]
                          /\ final r = with_otaContext close_session o).
    destruct Hcase as [Herr | [Hpart | Hver]].
    + wp; trace_leaf.
    + assert (He : isEmpty (Base64Part_as_String details) = true)
        by (rewrite Hpart; reflexivity).
      wp; trace_leaf.
    + assert (He : isEmpty (FirmwareVersion_as_String details) = true)
        by (rewrite Hver; reflexivity).
      wp; trace_leaf.
Qed.

End Session.

(** ** Frames *)

Section Frame.

Variable I : MQTTOTA -> MQTTOTA -> list Event -> Prop.

Hypothesis I_refl : forall o, I o o [].
Hypothesis I_trans :
  forall o o1 o2 e1 e2, I o o1 e1 -> I o1 o2 e2 -> I o o2 (e1 ++ e2).
Hypothesis I_reports :
  forall o evs, forallb is_report evs = true -> I o o evs.
Hypothesis I_progress : forall o p, I o (set_currentProgress p o) [].

Lemma framed_bind {A B : Type} (c : M A) (k : A -> M B) :
  framed I c -> (forall a, framed I (k a)) -> framed I (bind c k).
Proof.
  intros Hc Hk o. unfold bind.
  pose proof (Hc o) as H1.
  destruct (c o) as [a o1 e1|h o1 e1]; cbn [final events] in *; [|exact H1].
  pose proof (Hk a o1) as H2.
  destruct (k a o1) as [b o2 e2|h o2 e2]; cbn [final events] in *;
    apply (I_trans o o1 o2); assumption.
Qed.

Lemma framed_ret {A : Type} (a : A) : framed I (ret a).
Proof. intro o. apply I_refl. Qed.

Lemma framed_get : framed I get.
Proof. intro o. apply I_refl. Qed.

Lemma framed_halt {A : Type} (h : Halt) : framed I (@halt A h).
Proof. intro o. apply I_refl. Qed.

Lemma framed_modify (f : MQTTOTA -> MQTTOTA) :
  (forall o, I o (f o) []) -> framed I (modify f).
Proof. intros Hf o. apply Hf. Qed.

Lemma framed_emit (e : Event) : (forall o, I o o [e]) -> framed I (emit e).
Proof. intros He o. apply He. Qed.

Lemma framed_when (b : bool) (c : M unit) : framed I c -> framed I (when b c).
Proof. intro Hc. destruct b; [exact Hc|apply framed_ret]. Qed.

Lemma framed_publishError w msg v : framed I (_publishError w msg v).
Proof.
  intro o. rewrite _publishError_eq. cbn [final events].
  apply I_reports, error_events_report.
Qed.

Lemma framed_publishSuccess w v : framed I (_publishSuccess w v).
Proof.
  intro o. rewrite _publishSuccess_eq. cbn [final events].
  apply I_reports, success_events_report.
Qed.

Lemma framed_publishProgress w p v : framed I (_publishProgress w p v).
Proof.
  intro o. rewrite _publishProgress_eq. cbn [final events].
  rewrite <- (app_nil_l (progress_events w o p v)).
  apply (I_trans o (set_currentProgress p o)); [apply I_progress|].
  apply I_reports, progress_events_report.
Qed.

(** A framed method under [sat]. *)
Lemma sat_framed {A : Type} (c : M A) (o : MQTTOTA)
  (Q : A -> MQTTOTA -> list Event -> Prop) (S : Halt -> MQTTOTA -> list Event -> Prop) :
  framed I c ->
  (forall a o' e, I o o' e -> Q a o' e) ->
  (forall h o' e, I o o' e -> S h o' e) ->
  sat (c o) Q S.
Proof.
  intros Hc HQ HS. pose proof (Hc o) as H.
  destruct (c o); cbn [sat final events] in *; auto.
Qed.

End Frame.

(** Structural proof that a method is framed: [R], [T], [P], [G] are the
    four laws of the frame. *)
Ltac frame_with R T P G :=
  repeat first
    [ apply (framed_ret _ R) | apply (framed_get _ R) | apply (framed_halt _ R)
    | apply (framed_publishError _ P)
    | apply (framed_publishSuccess _ P)
    | apply (framed_publishProgress _ T P G)
    | apply (framed_when _ R)
    | apply (framed_bind _ T); [|intro]
    | apply framed_modify; intro; split; reflexivity
    | apply framed_emit; intro; split; reflexivity
    | progress cbv beta zeta
    | match goal with
      | |- framed _ (if ?b then _ else _) => destruct b
      | |- framed _ (match ?x with _ => _ end) => destruct x
      end ].

(** *** The two frames *)

Lemma state_frame_refl o : state_frame o o [].
Proof. split; reflexivity. Qed.

Lemma state_frame_trans o o1 o2 e1 e2 :
  state_frame o o1 e1 -> state_frame o1 o2 e2 -> state_frame o o2 (e1 ++ e2).
Proof.
  intros [H1 H2] [H3 H4]. split; [congruence|].
  rewrite state_changes_app, H2, H4. reflexivity.
Qed.

Lemma state_frame_reports o evs : forallb is_report evs = true -> state_frame o o evs.
Proof. intro H. split; [reflexivity|apply reports_state_changes, H]. Qed.

Lemma state_frame_progress o p : state_frame o (set_currentProgress p o) [].
Proof. split; reflexivity. Qed.

Lemma session_frame_refl o : session_frame o o [].
Proof. split; reflexivity. Qed.

Lemma session_frame_trans o o1 o2 e1 e2 :
  session_frame o o1 e1 -> session_frame o1 o2 e2 -> session_frame o o2 (e1 ++ e2).
Proof. intros [H1 H2] [H3 H4]. split; congruence. Qed.

Lemma session_frame_reports o evs :
  forallb is_report evs = true -> session_frame o o evs.
Proof. intro H. split; reflexivity. Qed.

Lemma session_frame_progress o p : session_frame o (set_currentProgress p o) [].
Proof. split; reflexivity. Qed.

Ltac state_framed :=
  frame_with state_frame_refl state_frame_trans state_frame_reports
    state_frame_progress.

Ltac session_framed :=
  frame_with session_frame_refl session_frame_trans session_frame_reports
    session_frame_progress.

(** ** The state field *)

Section StateField.

Context {libb64 : Libb64}.

Lemma cleanup_state : framed state_frame cleanup.
Proof. unfold cleanup. state_framed. Qed.

Lemma _cleanupChunkedOTA_state : framed state_frame _cleanupChunkedOTA.
Proof. unfold _cleanupChunkedOTA. state_framed. Qed.

Lemma _startChunkedOTA_state w chunk : framed state_frame (_startChunkedOTA w chunk).
Proof. unfold _startChunkedOTA. state_framed. Qed.

Lemma _processChunkData_state w chunk : framed state_frame (_processChunkData w chunk).
Proof. unfold _processChunkData. state_framed; apply _cleanupChunkedOTA_state. Qed.

Lemma _completeChunkedOTA_state w chunk :
  framed state_frame (_completeChunkedOTA w chunk).
Proof. unfold _completeChunkedOTA. state_framed; apply _cleanupChunkedOTA_state. Qed.

Lemma _processOTAChunk_sequence_state w chunk :
  framed state_frame (_processOTAChunk_sequence w chunk).
Proof.
  unfold _processOTAChunk_sequence.
  state_framed; first [ apply _cleanupChunkedOTA_state | apply _processChunkData_state
                      | apply _completeChunkedOTA_state ].
Qed.

Lemma _processOTAChunk_state w m : framed state_frame (_processOTAChunk w m).
Proof.
  unfold _processOTAChunk.
  state_framed; first [ apply _cleanupChunkedOTA_state | apply _startChunkedOTA_state
                      | apply _processOTAChunk_sequence_state ].
Qed.

Lemma _validateFirmwareData_state w d : framed state_frame (_validateFirmwareData w d).
Proof. unfold _validateFirmwareData. state_framed. Qed.

Lemma write_slices_state w h v d cs fuel :
  forall written i bw, framed state_frame (write_slices w h v d cs fuel written i bw).
Proof.
  induction fuel as [|fuel IH]; intros written i bw; cbn [write_slices].
  - state_framed.
  - state_framed. apply IH.
Qed.

Lemma performUpdate_state w d v : framed state_frame (performUpdate w d v).
Proof.
  unfold performUpdate, _performOTAUpdateESPIDF.
  state_framed; apply write_slices_state.
Qed.

Lemma _processOTAMessage_state w m : framed state_frame (_processOTAMessage w m).
Proof.
  unfold _processOTAMessage.
  state_framed; first [ apply _validateFirmwareData_state | apply performUpdate_state
                      | apply cleanup_state ].
Qed.

Lemma handle_state w : framed state_frame (handle w).
Proof.
  unfold handle.
  state_framed; first [ apply cleanup_state | apply _cleanupChunkedOTA_state ].
Qed.

Lemma processMessage_state w topic m : framed state_frame (processMessage w topic m).
Proof.
  unfold processMessage.
  state_framed; first [ apply _processOTAChunk_state | apply _processOTAMessage_state ].
Qed.

Lemma call_state_frame w op : is_abortUpdate op = false -> framed state_frame (call w op).
Proof.
  destruct op; intro H; try discriminate H; cbn [call];
    first [ apply handle_state | apply processMessage_state | apply cleanup_state
          | apply framed_modify; intro; split; reflexivity
          | idtac ].
  apply (framed_bind _ state_frame_trans);
    [apply performUpdate_state|intro; apply (framed_ret _ state_frame_refl)].
Qed.

Lemma abortUpdate_state (w : Platform) (o : MQTTOTA) :
  returned (abortUpdate w o) = true
  /\ getCurrentState (final (abortUpdate w o))
     = if isUpdateInProgress o then OTA_STATE_ABORTED else getCurrentState o.
Proof.
  apply sat_outcome
    with (P := fun r => returned r = true
                        /\ getCurrentState (final r)
                           = if isUpdateInProgress o then OTA_STATE_ABORTED
                             else getCurrentState o).
  wp; tidy; split; try reflexivity.
  apply OTAState_eqb_eq. assumption.
Qed.

Lemma call_state (w : Platform) (op : Op) (o : MQTTOTA) :
  getCurrentState (final (call w op o)) = getCurrentState o
  \/ (op = Op_abortUpdate
      /\ getCurrentState (final (call w op o)) = OTA_STATE_ABORTED).
Proof.
  destruct (is_abortUpdate op) eqn:E.
  - destruct op; try discriminate E. cbn [call].
    destruct (abortUpdate_state w o) as [_ H]. rewrite H.
    destruct (isUpdateInProgress o); [right; split; reflexivity|left; reflexivity].
  - left. apply (call_state_frame w op E o).
Qed.

Lemma run_state_frame (calls : list (Platform * Op)) :
  forallb (fun c => negb (is_abortUpdate (snd c))) calls = true ->
  framed state_frame (run calls).
Proof.
  induction calls as [|[w op] calls IH]; cbn [run forallb snd]; intro H.
  - apply (framed_ret _ state_frame_refl).
  - apply andb_prop in H. destruct H as [H1 H2].
    apply (framed_bind _ state_frame_trans); [|intro; apply IH; exact H2].
    apply call_state_frame. apply negb_true_iff. exact H1.
Qed.

Lemma run_state (calls : list (Platform * Op)) :
  forall o,
    getCurrentState (final (run calls o)) = getCurrentState o
    \/ getCurrentState (final (run calls o)) = OTA_STATE_ABORTED.
Proof.
  induction calls as [|[w op] calls IH]; intros o; cbn [run].
  - left. reflexivity.
  - unfold bind.
    pose proof (call_state w op o) as Hc.
    destruct (call w op o) as [a o1 e1|h o1 e1]; cbn [final] in *.
    + specialize (IH o1).
      destruct (run calls o1); cbn [final] in *;
        destruct IH as [IH|IH], Hc as [Hc|[_ Hc]];
        first [ left; congruence | right; congruence ].
    + destruct Hc as [Hc|[_ Hc]]; [left|right]; exact Hc.
Qed.


End StateField.

(** ** Between two calls *)

Section BetweenCalls.

Context {libb64 : Libb64}.

Lemma _validateFirmwareData_session w d :
  framed session_frame (_validateFirmwareData w d).
Proof. unfold _validateFirmwareData. session_framed. Qed.

Lemma write_slices_session w h v d cs fuel :
  forall written i bw, framed session_frame (write_slices w h v d cs fuel written i bw).
Proof.
  induction fuel as [|fuel IH]; intros written i bw; cbn [write_slices].
  - session_framed.
  - session_framed. apply IH.
Qed.

Lemma performUpdate_session w d v : framed session_frame (performUpdate w d v).
Proof.
  unfold performUpdate, _performOTAUpdateESPIDF.
  session_framed; apply write_slices_session.
Qed.

Ltac between_leaf :=
  tidy; unfold between_calls in *; proj; intros;
  try discriminate;
  try (split; [reflexivity|]);
  try (split; [assumption|]);
  try (intros; discriminate);
  try assumption;
  try (intros _; apply Z.eqb_neq; assumption).

Lemma _processOTAChunk_between_calls (w : Platform) (m : Message) (o : MQTTOTA) :
  between_calls o ->
  returned (_processOTAChunk w m o) = true ->
  between_calls (final (_processOTAChunk w m o)).
Proof.
  intros [Hmono Hlive].
  apply sat_outcome
    with (P := fun r => returned r = true -> between_calls (final r)).
  wp; between_leaf.
  all: intro Hp; first [ congruence | apply Hlive; first [assumption|reflexivity] ].
Qed.

Lemma _processOTAMessage_between_calls (w : Platform) (m : Message) (o : MQTTOTA) :
  between_calls o ->
  returned (_processOTAMessage w m o) = true ->
  between_calls (final (_processOTAMessage w m o)).
Proof.
  intros [Hmono Hlive].
  apply sat_outcome
    with (P := fun r => returned r = true -> between_calls (final r)).
  unfold _processOTAMessage. wp; try (intros _; split; assumption).
  eapply (sat_framed session_frame); [apply _validateFirmwareData_session| |].
  - intros valid o1 e1 [Hc1 Hf1]. cbv beta.
    destruct valid; cbn [negb]; wp.
    + eapply (sat_framed session_frame); [apply performUpdate_session| |].
      * intros updated o2 e2 [Hc2 Hf2]. cbv beta. proj_hyps.
        destruct updated; wp.
        -- intro Hr. discriminate Hr.
        -- intros _. split; [reflexivity|]. proj.
           rewrite Hc2, Hc1. exact Hlive.
      * intros h o2 e2 _ Hr. discriminate Hr.
    + intros _. split; [congruence|]. rewrite Hc1. exact Hlive.
  - intros h o1 e1 _ Hr. discriminate Hr.
Qed.

Lemma call_between_calls (w : Platform) (op : Op) (o : MQTTOTA) :
  between_calls o ->
  returned (call w op o) = true ->
  between_calls (final (call w op o)).
Proof.
  intros Hb. pose proof Hb as [Hmono Hlive].
  destruct op; cbn [call];
    try (intros _; split; [exact Hmono|exact Hlive]).
  - (* handle *)
    apply sat_outcome
      with (P := fun r => returned r = true -> between_calls (final r)).
    wp; between_leaf.
    all: intro Hp; first [ congruence | apply Hlive; first [assumption|reflexivity] ].
  - (* processMessage *)
    rewrite processMessage_eq.
    destruct (negb (String.eqb topic (_otaTopic o))); [intros _; exact Hb|].
    destruct (isUpdateInProgress o); [intros _; exact Hb|].
    destruct (getFreeHeap w <? 30000); [intros _; exact Hb|].
    destruct (_chunkedOTAEnabled o).
    + apply _processOTAChunk_between_calls. exact Hb.
    + apply _processOTAMessage_between_calls. exact Hb.
  - (* performUpdate *)
    apply sat_outcome
      with (P := fun r => returned r = true -> between_calls (final r)).
    apply sat_bind.
    eapply (sat_framed session_frame); [apply performUpdate_session| |].
    + intros a o1 e1 [Hc1 Hf1]. wp. intros _. split; [congruence|].
      rewrite Hc1. exact Hlive.
    + intros h o1 e1 _ Hr. discriminate Hr.
  - (* cleanup *)
    intros _. split; [reflexivity|exact Hlive].
  - (* abortUpdate *)
    apply sat_outcome
      with (P := fun r => returned r = true -> between_calls (final r)).
    wp; between_leaf.
Qed.

Lemma ctor_between_calls (deviceID : string) : between_calls (MQTTOTA_ctor deviceID).
Proof. split; [reflexivity|intro H; discriminate H]. Qed.

(** Every object reached from construction by calls that returned is
    between calls: the standing assumptions of the theorems on [handle] and
    [abortUpdate] hold of it. *)
Lemma run_between_calls (calls : list (Platform * Op)) :
  forall o,
    between_calls o ->
    returned (run calls o) = true ->
    between_calls (final (run calls o)).
Proof.
  induction calls as [|[w op] calls IH]; intros o Hb; cbn [run].
  - intros _. exact Hb.
  - unfold bind.
    pose proof (call_between_calls w op o Hb) as Hc.
    destruct (call w op o) as [a o1 e1|h o1 e1]; cbn [final returned] in *.
    + specialize (IH o1 (Hc eq_refl)).
      destruct (run calls o1); cbn [final returned] in *; exact IH.
    + intro Hr. discriminate Hr.
Qed.

(** While an update is in progress every message is dropped at the guard of
    [processMessage]: no history of messages moves the object or produces an
    event, so no part after the first is ever handed to the update handler. *)
Lemma messages_dropped_while_in_progress (calls : list (Platform * Op)) (o : MQTTOTA) :
  isUpdateInProgress o = true ->
  forallb (fun c => is_processMessage (snd c)) calls = true ->
  run calls o = Next tt o [].
Proof.
  intro Hup. induction calls as [|[w op] calls IH]; cbn [run forallb snd]; intro H.
  - reflexivity.
  - apply andb_prop in H. destruct H as [H1 H2].
    destruct op; try discriminate H1. cbn [call].
    unfold bind. rewrite processMessage_eq, Hup.
    destruct (negb (String.eqb topic (_otaTopic o))); rewrite (IH H2); reflexivity.
Qed.

(** Hence the only chunked update that [processMessage] ever finalises is
    the one that arrives whole, as part 1 of 1. *)
Lemma only_single_part_updates_are_finalised (w : Platform) (topic : string)
  (m : Message) (o : MQTTOTA) :
  _chunkedOTAEnabled o = true ->
  ended_handles (events (processMessage w topic m o)) <> [] ->
  exists EventType details,
    m = Json EventType (Some details)
    /\ PartIndex_as_int details = 1
    /\ TotalParts_as_int details = 1.
Proof.
  intro Hchunked. rewrite processMessage_eq, Hchunked.
  destruct (negb (String.eqb topic (_otaTopic o))); [intro H; now elim H|].
  destruct (isUpdateInProgress o) eqn:Hup; [intro H; now elim H|].
  destruct (getFreeHeap w <? 30000); [intro H; now elim H|].
  apply orb_false_elim in Hup. destruct Hup as [_ Hin].
  destruct m as [|EventType [details|]];
    [intro H; now elim H | | unfold _processOTAChunk;
                             destruct (negb (is_UpdateFirmwareDevice EventType));
                             intro H; now elim H].
  intro Hend. exists EventType, details. split; [reflexivity|].
  revert Hend.
  apply sat_outcome
    with (P := fun r => ended_handles (events r) <> [] ->
                        PartIndex_as_int details = 1 /\ TotalParts_as_int details = 1).
  wp; trace_leaf.
  all: repeat match goal with
              | H : context [if ?b then _ else _] |- _ => destruct b
              end;
       cbn [ended_handles flat_map app] in *;
       try congruence.
  all: repeat match goal with
              | H : (_ =? _) = true |- _ => apply Z.eqb_eq in H
              end;
       split; congruence.
Qed.

End BetweenCalls.

(** ** Base64 wrappers *)

Section Base64.

Context {libb64 : Libb64}.

Hypothesis decode_encode : forall x, base64_decode_block (base64_encode x) = x.
Hypothesis encode_length :
  forall x, strlen (base64_encode x) = 4 * ((strlen x + 2) / 3).

Lemma base64_encode_empty : base64_encode "" = "".
Proof.
  pose proof (encode_length "") as H. unfold strlen in H. cbn in H.
  destruct (base64_encode ""); [reflexivity|discriminate H].
Qed.

(** The size the decoder computes for the encoding of [n] bytes. *)
Lemma maxDecodedSize_of_encoding (x : string) :
  strlen x <= 500000000 ->
  int32 (Z.quot (int32 (strlen (base64_encode x) * 3)) 4 + 2)
  = 3 * ((strlen x + 2) / 3) + 2.
Proof.
  intro Hn. pose proof (strlen_nonneg x) as H0.
  rewrite encode_length.
  assert (Hq : 0 <= (strlen x + 2) / 3 <= 166666667)
    by (Z.to_euclidean_division_equations; lia).
  rewrite (int32_small (4 * ((strlen x + 2) / 3) * 3)) by lia.
  rewrite Z.quot_div_nonneg by lia.
  replace (4 * ((strlen x + 2) / 3) * 3) with (3 * ((strlen x + 2) / 3) * 4) by lia.
  rewrite Z.div_mul by lia.
  apply int32_small. lia.
Qed.

Lemma base64Decode_accepts (w : Platform) (x : string) :
  (forall n, malloc w n = true) ->
  strlen x <= 49998 ->
  base64Decode w (base64_encode x) = x.
Proof.
  intros Hm Hn. pose proof (strlen_nonneg x) as H0.
  unfold base64Decode.
  rewrite maxDecodedSize_of_encoding by lia.
  assert (Hle : (3 * ((strlen x + 2) / 3) + 2 >? 50000) = false).
  { rewrite Z.gtb_ltb. apply Z.ltb_ge. Z.to_euclidean_division_equations; lia. }
  rewrite Hle, Hm, decode_encode. cbn [negb].
  destruct x as [|c x']; [reflexivity|].
  assert (Hpos : (strlen (String c x') >? 0) = true).
  { apply Z.gtb_gt. unfold strlen. cbn [String.length]. lia. }
  rewrite Hpos. reflexivity.
Qed.

Lemma base64Decode_refuses (w : Platform) (x : string) :
  49999 <= strlen x <= 500000000 ->
  base64Decode w (base64_encode x) = "".
Proof.
  intros Hn. unfold base64Decode.
  rewrite maxDecodedSize_of_encoding by lia.
  assert (Hgt : (3 * ((strlen x + 2) / 3) + 2 >? 50000) = true).
  { apply Z.gtb_gt. Z.to_euclidean_division_equations; lia. }
  rewrite Hgt. reflexivity.
Qed.

Lemma base64Encode_encodes (w : Platform) (x : string) :
  (forall n, malloc w n = true) ->
  base64Encode w x = base64_encode x.
Proof.
  intro Hm. unfold base64Encode. destruct x as [|c x'].
  - cbn [isEmpty]. symmetry. apply base64_encode_empty.
  - cbn [isEmpty]. rewrite Hm. reflexivity.
Qed.

(** C8, as the code has it.  With a codec that inverts its own encoding
    and emits four characters per three bytes (padded, no line breaks), and
    allocations that succeed: decoding the encoding of [x] gives [x] for every
    [x] of length at most 49,998. *)
Theorem base64_round_trip_up_to_49998 (w w' : Platform) (x : string) :
  (forall n, malloc w n = true) ->
  (forall n, malloc w' n = true) ->
  strlen x <= 49998 ->
  base64Decode w' (base64Encode w x) = x.
Proof.
  intros Hm Hm' Hn.
  rewrite base64Encode_encodes by exact Hm.
  apply base64Decode_accepts; assumption.
Qed.

(** Past that length the size ceiling refuses the encoding. *)
Lemma base64_ceiling_refuses_from_49999 (w w' : Platform) (x : string) :
  (forall n, malloc w n = true) ->
  49999 <= strlen x <= 500000000 ->
  base64Decode w' (base64Encode w x) = "".
Proof.
  intros Hm Hn.
  rewrite base64Encode_encodes by exact Hm.
  apply base64Decode_refuses. exact Hn.
Qed.

End Base64.

(** ** Configuration *)

(** C9, as the code has it.  [_chunkSize] is 1024 after construction;
    [setChunkSize] stores a requested size in (0, 65536] and replaces any
    other request, zero or above 65536, by the default 1024. *)
Theorem setChunkSize_stores_or_defaults :
  (forall deviceID, _chunkSize (MQTTOTA_ctor deviceID) = 1024)
  /\ (forall s o, 0 < s <= 65536 -> _chunkSize (setChunkSize s o) = s)
  /\ (forall s o, s <= 0 \/ 65536 < s -> _chunkSize (setChunkSize s o) = 1024).
Proof.
  split; [|split].
  - reflexivity.
  - intros s o [H1 H2]. unfold setChunkSize. cbn [_chunkSize set_options].
    assert (E1 : (s >? 0) = true) by (apply Z.gtb_gt; lia).
    assert (E2 : (s <=? MQTT_OTA_MAX_CHUNK_SIZE) = true)
      by (apply Z.leb_le; unfold MQTT_OTA_MAX_CHUNK_SIZE; lia).
    rewrite E1, E2. reflexivity.
  - intros s o H. unfold setChunkSize. cbn [_chunkSize set_options].
    destruct H as [H|H].
    + assert (E1 : (s >? 0) = false) by (rewrite Z.gtb_ltb; apply Z.ltb_ge; lia).
      rewrite E1. reflexivity.
    + assert (E2 : (s <=? MQTT_OTA_MAX_CHUNK_SIZE) = false)
        by (apply Z.leb_gt; unfold MQTT_OTA_MAX_CHUNK_SIZE; lia).
      rewrite E2, andb_false_r. reflexivity.
Qed.

(** ** Scenarios on the concrete device *)

Section Scenarios.

Import Scenario.

Lemma strlen_replicate (n : nat) (c : ascii) : strlen (replicate n c) = Z.of_nat n.
Proof.
  unfold strlen. f_equal.
  induction n as [|n IH]; cbn [replicate String.length]; [reflexivity|].
  rewrite IH. reflexivity.
Qed.

Lemma strlen_bytes (n : Z) : 0 <= n -> strlen (bytes n) = n.
Proof. intro H. unfold bytes. rewrite strlen_replicate. lia. Qed.

Lemma board_allocates (now n : Z) : malloc (board now) n = true.
Proof. reflexivity. Qed.

(** C1: the three-part update delivered through [processMessage].  Part 1
    opens the session and is written; parts 2 and 3 are dropped by the
    in-progress guard of [processMessage]: the session stays at part 1 with
    400 bytes, nothing is finalised, no success is reported, no restart is
    requested, and the progress callback has seen 0 and 33 only. *)
Theorem three_parts_through_processMessage_stall :
  let r := run (libb64 := reference_libb64) three_parts device in
  returned r = true
  /\ inProgress (_otaContext (final r)) = true
  /\ currentPart (_otaContext (final r)) = 1
  /\ receivedSize (_otaContext (final r)) = 400
  /\ written_data (events r) = [(7, bytes 400)]
  /\ ended_handles (events r) = []
  /\ boot_partitions (events r) = []
  /\ success_versions (events r) = []
  /\ restarts (events r) = 0%nat
  /\ progress_reported (events r) = [0; 33]
  /\ progress_published (events r) = [0].
Proof. vm_compute. repeat split. Qed.

(** The same three chunks handed to the update handler one after the other
    complete the update: the handler is not what stalls. *)
Lemma three_parts_to_the_handler_complete :
  let r := (_processOTAChunk (libb64 := reference_libb64) (board 1000)
              (part 1 3 (bytes 400)) ;;
            _processOTAChunk (libb64 := reference_libb64) (board 2000)
              (part 2 3 (bytes 400)) ;;
            _processOTAChunk (libb64 := reference_libb64) (board 3000)
              (part 3 3 (bytes 400))) device in
  returned r = false
  /\ receivedSize (_otaContext (final r)) = 1200
  /\ ended_handles (events r) = [7]
  /\ boot_partitions (events r) = [Some 1]
  /\ success_versions (events r) = ["2.0.0"; "2.0.0"]%string
  /\ restarts (events r) = 1%nat
  /\ aborted_handles (events r) = []
  /\ progress_reported (events r) = [0; 33; 66; 100; 90; 95; 100]
  /\ progress_published (events r) = [0; 100; 90; 100].
Proof. vm_compute. repeat split. Qed.

(** Against C5 as stated: a single-part update of exactly 1000 bytes, below
    1024, is finalised, made bootable and followed by a restart. *)
Lemma firmware_of_1000_bytes_is_finalised :
  let r := processMessage (libb64 := reference_libb64) (board 1000) "ota"
             (part 1 1 (bytes 1000)) device in
  receivedSize (_otaContext (final r)) = 1000
  /\ ended_handles (events r) = [7]
  /\ boot_partitions (events r) = [Some 1]
  /\ error_messages (events r) = []
  /\ aborted_handles (events r) = []
  /\ restarts (events r) = 1%nat.
Proof. vm_compute. repeat split. Qed.

(** Against C8 as stated: the encoding of 50,000 bytes is refused by the size
    ceiling of the decoder, which returns the empty string. *)
Lemma base64_round_trip_fails_at_50000 :
  strlen (bytes 50000) = 50000
  /\ base64Decode (libb64 := reference_libb64) (board 0)
       (base64Encode (libb64 := reference_libb64) (board 0) (bytes 50000))
     <> bytes 50000.
Proof.
  assert (L : strlen (bytes 50000) = 50000) by (apply strlen_bytes; lia).
  split; [exact L|].
  rewrite (base64_ceiling_refuses_from_49999 (libb64 := reference_libb64)
             refb64_length (board 0) (board 0) (bytes 50000)
             (board_allocates 0)) by lia.
  intro H. rewrite <- H in L. discriminate L.
Qed.

(** Against C9 as stated: a request above the maximum is not capped at 65536. *)
Lemma setChunkSize_above_maximum_is_not_capped :
  _chunkSize (setChunkSize 65537 device) <> 65536.
Proof. vm_compute. discriminate. Qed.

(** *** The theorems at concrete inputs *)

Lemma session_end_aborts_exactly_once_witness :
  let r := _processOTAChunk (libb64 := reference_libb64) (board 1000)
             (part 1 3 (bytes 100)) device in
  aborted_handles (events r) = [7] /\ session_idle (_otaContext (final r)).
Proof.
  intro r.
  destruct (session_end_aborts_exactly_once (libb64 := reference_libb64)
              (board 1000) device) as [H _].
  apply (H (part 1 3 (bytes 100)) 7).
  - right. split; [reflexivity|]. split; [vm_compute; discriminate|reflexivity].
  - lia.
  - vm_compute. reflexivity.
Defined.

Lemma complete_rejects_below_1000_witness :
  let r := _completeChunkedOTA (board 3000) (chunk_of (part_details 3 3 (bytes 100)))
             nearly_done in
  receivedSize (_otaContext nearly_done) = 900
  /\ ended_handles (events r) = []
  /\ boot_partitions (events r) = []
  /\ session_idle (_otaContext (final r)).
Proof.
  intro r. split; [reflexivity|].
  assert (Hnz : update_handle (_otaContext nearly_done) <> 0) by (vm_compute; lia).
  assert (Hsz : 0 <= receivedSize (_otaContext nearly_done) < 1000) by (cbn; lia).
  apply (complete_rejects_below_1000 (board 3000)
           (chunk_of (part_details 3 3 (bytes 100))) nearly_done eq_refl Hnz Hsz).
Defined.

Lemma abortUpdate_cancels_or_nothing_witness :
  getCurrentState (final (abortUpdate (board 2000) live)) = OTA_STATE_ABORTED
  /\ session_idle (_otaContext (final (abortUpdate (board 2000) live)))
  /\ abortUpdate (board 2000) device = Next tt device [].
Proof.
  destruct (abortUpdate_cancels_or_nothing (board 2000) live) as [H _].
  destruct (abortUpdate_cancels_or_nothing (board 2000) device) as [_ H'].
  assert (Hnz : update_handle (_otaContext live) <> 0) by (vm_compute; lia).
  destruct (H eq_refl Hnz) as [_ [H1 [H2 _]]].
  split; [exact H1|]. split; [exact H2|].
  apply H'. reflexivity.
Defined.

Lemma handle_timeout_or_nothing_witness :
  aborted_handles (events (handle (board 421001) live)) = [7]
  /\ handle (board 421000) live = Next tt live [].
Proof.
  destruct (handle_timeout_or_nothing (board 421001) live eq_refl) as [H _].
  destruct (handle_timeout_or_nothing (board 421000) live eq_refl) as [_ H'].
  assert (Hnz : update_handle (_otaContext live) <> 0) by (vm_compute; lia).
  assert (Ht : elapsed (millis (board 421001)) (startTime (_otaContext live))
               > MQTT_OTA_TIMEOUT_MS) by (vm_compute; reflexivity).
  destruct (H eq_refl Hnz Ht) as [E _].
  split.
  - rewrite E. vm_compute. reflexivity.
  - apply H'. right. vm_compute. discriminate.
Defined.

Lemma base64_round_trip_up_to_49998_witness :
  base64Decode (libb64 := reference_libb64) (board 0)
    (base64Encode (libb64 := reference_libb64) (board 0) "firmware image")
  = "firmware image"%string.
Proof.
  apply (base64_round_trip_up_to_49998 (libb64 := reference_libb64)
           refb64_round_trip refb64_length (board 0) (board 0)
           "firmware image" (board_allocates 0) (board_allocates 0)).
  vm_compute. discriminate.
Defined.

Lemma setChunkSize_stores_or_defaults_witness :
  _chunkSize (setChunkSize 4096 device) = 4096
  /\ _chunkSize (setChunkSize 65537 device) = 1024.
Proof.
  destruct setChunkSize_stores_or_defaults as [_ [H1 H2]].
  split; [apply H1; lia|apply H2; right; lia].
Defined.

End Scenarios.

(** ** Device identity *)

Lemma hex_digit_cases (d : Z) :
  0 <= d < 16 ->
  d = 0 \/ d = 1 \/ d = 2 \/ d = 3 \/ d = 4 \/ d = 5 \/ d = 6 \/ d = 7 \/ d = 8
  \/ d = 9 \/ d = 10 \/ d = 11 \/ d = 12 \/ d = 13 \/ d = 14 \/ d = 15.
Proof. lia. Qed.

Lemma hex_digit_value_digit (d : Z) : 0 <= d < 16 -> hex_digit_value (hex_digit d) = d.
Proof.
  intro H. apply hex_digit_cases in H.
  repeat (destruct H as [H|H]; [subst d; reflexivity|]).
  subst d; reflexivity.
Qed.

Lemma is_upper_hex_digit (d : Z) : 0 <= d < 16 -> is_upper_hex (hex_digit d) = true.
Proof.
  intro H. apply hex_digit_cases in H.
  repeat (destruct H as [H|H]; [subst d; reflexivity|]).
  subst d; reflexivity.
Qed.

Lemma strlen_append (a b : string) : strlen (a ++ b) = strlen a + strlen b.
Proof.
  unfold strlen. induction a as [|c a IH]; cbn [append String.length].
  - lia.
  - rewrite !Nat2Z.inj_succ. lia.
Qed.

Lemma all_chars_append (p : ascii -> bool) (a b : string) :
  all_chars p (a ++ b) = all_chars p a && all_chars p b.
Proof.
  induction a as [|c a IH]; cbn [append all_chars].
  - reflexivity.
  - rewrite IH. apply andb_assoc.
Qed.

Lemma append_empty_r (s : string) : (s ++ "")%string = s.
Proof. induction s as [|c s IH]; cbn [append]; [reflexivity|now rewrite IH]. Qed.

Lemma strlen_hex_digits (n : nat) (v : Z) : strlen (hex_digits n v) = Z.of_nat n.
Proof.
  unfold strlen. induction n as [|n IH]; cbn [hex_digits String.length].
  - reflexivity.
  - rewrite !Nat2Z.inj_succ, IH. reflexivity.
Qed.

Lemma hex_digits_upper (n : nat) (v : Z) : all_chars is_upper_hex (hex_digits n v) = true.
Proof.
  induction n as [|n IH]; cbn [hex_digits all_chars].
  - reflexivity.
  - rewrite IH, is_upper_hex_digit; [reflexivity|].
    apply Z.mod_pos_bound. lia.
Qed.

Lemma hex_value_from_digits (n : nat) (v : Z) :
  forall acc s,
    hex_value_from acc (hex_digits n v ++ s)
    = hex_value_from (acc * 16 ^ Z.of_nat n + v mod 16 ^ Z.of_nat n) s.
Proof.
  induction n as [|n IH]; intros acc s.
  - cbn [hex_digits append Z.of_nat]. f_equal. rewrite Z.pow_0_r, Z.mod_1_r. lia.
  - cbn [hex_digits append hex_value_from]. rewrite IH.
    f_equal.
    rewrite hex_digit_value_digit by (apply Z.mod_pos_bound; lia).
    rewrite Nat2Z.inj_succ, Z.pow_succ_r by lia.
    assert (Hp : 0 < 16 ^ Z.of_nat n) by (apply Z.pow_pos_nonneg; lia).
    rewrite (Z.mul_comm 16 (16 ^ Z.of_nat n)).
    rewrite (Z.rem_mul_r v (16 ^ Z.of_nat n) 16) by lia.
    ring.
Qed.

Lemma hex_value_generateDeviceID (chipID : Z) :
  hex_value (_generateDeviceID chipID) = chipID mod 281474976710656.
Proof.
  unfold hex_value, _generateDeviceID.
  rewrite hex_value_from_digits.
  rewrite <- (append_empty_r (hex_digits 8 _)).
  rewrite hex_value_from_digits. cbn [hex_value_from].
  change (16 ^ Z.of_nat 4) with 65536.
  change (16 ^ Z.of_nat 8) with 4294967296.
  rewrite (Z.mod_small (_ mod 65536) 65536) by (apply Z.mod_pos_bound; lia).
  rewrite (Z.mod_small (_ mod 4294967296) 4294967296) by (apply Z.mod_pos_bound; lia).
  change 281474976710656 with (4294967296 * 65536).
  rewrite (Z.rem_mul_r chipID 4294967296 65536) by lia.
  ring.
Qed.

(** X1.  The device identifier is always twelve upper-case hexadecimal
    digits, and read back as a number it is the chip identifier modulo 2^48:
    the four digits of bits 32..47 followed by the eight digits of bits
    0..31. *)
Theorem _generateDeviceID_is_the_low_48_bits_in_hex (chipID : Z) :
  strlen (_generateDeviceID chipID) = 12
  /\ all_chars is_upper_hex (_generateDeviceID chipID) = true
  /\ hex_value (_generateDeviceID chipID) = chipID mod 281474976710656.
Proof.
  split; [|split].
  - unfold _generateDeviceID. rewrite strlen_append, !strlen_hex_digits. reflexivity.
  - unfold _generateDeviceID. rewrite all_chars_append, !hex_digits_upper. reflexivity.
  - apply hex_value_generateDeviceID.
Qed.

Lemma hex_digit_injective (d e : Z) :
  0 <= d < 16 -> 0 <= e < 16 -> hex_digit d = hex_digit e -> d = e.
Proof.
  intros Hd He H.
  rewrite <- (hex_digit_value_digit d Hd), <- (hex_digit_value_digit e He), H.
  reflexivity.
Qed.

(** X2.  Two chips get the same device identifier exactly when their
    identifiers agree on the low 48 bits; bits 48..63 are not part of it. *)
Theorem _generateDeviceID_collides_iff_low_48_bits_agree (a b : Z) :
  _generateDeviceID a = _generateDeviceID b
  <-> a mod 281474976710656 = b mod 281474976710656.
Proof.
  split.
  - intro H. rewrite <- !hex_value_generateDeviceID, H. reflexivity.
  - intro H. unfold _generateDeviceID.
    assert (Hlo : a mod 4294967296 = b mod 4294967296).
    { change 281474976710656 with (4294967296 * 65536) in H.
      rewrite !(Z.rem_mul_r _ 4294967296 65536) in H by lia.
      pose proof (Z.mod_pos_bound a 4294967296).
      pose proof (Z.mod_pos_bound b 4294967296).
      pose proof (Z.mod_pos_bound (a / 4294967296) 65536).
      pose proof (Z.mod_pos_bound (b / 4294967296) 65536).
      lia. }
    assert (Hhi : (a / 4294967296) mod 65536 = (b / 4294967296) mod 65536).
    { change 281474976710656 with (4294967296 * 65536) in H.
      rewrite !(Z.rem_mul_r _ 4294967296 65536) in H by lia.
      lia. }
    rewrite Hlo, Hhi. reflexivity.
Qed.

(** ** Size of a decoded payload *)

Lemma encode_value_not_pad (v : N) :
  (v < 64)%N -> Ascii.eqb (RefB64.encode_value v) "=" = false.
Proof.
  intro Hv. apply Ascii.eqb_neq. intro H.
  pose proof (decode_encode_value v Hv) as K.
  rewrite H in K. discriminate K.
Qed.

Lemma charAt_skip4 (e1 e2 e3 e4 : ascii) (s : string) (k : Z) :
  0 <= k ->
  charAt (String e1 (String e2 (String e3 (String e4 s)))) (k + 4) = charAt s k.
Proof.
  intro Hk. unfold charAt.
  replace (k + 4 <? 0) with false by (symmetry; apply Z.ltb_ge; lia).
  replace (k <? 0) with false by (symmetry; apply Z.ltb_ge; lia).
  replace (Z.to_nat (k + 4)) with (S (S (S (S (Z.to_nat k))))) by lia.
  reflexivity.
Qed.

Lemma strlen_String (c : ascii) (s : string) : strlen (String c s) = strlen s + 1.
Proof. unfold strlen. cbn [String.length]. lia. Qed.

Lemma padding_of_four (e1 e2 e3 e4 : ascii) :
  let E := String e1 (String e2 (String e3 (String e4 EmptyString))) in
  ((strlen E >? 0) && Ascii.eqb (charAt E (strlen E - 1)) "=") = Ascii.eqb e4 "="
  /\ ((strlen E >? 1) && Ascii.eqb (charAt E (strlen E - 2)) "=") = Ascii.eqb e3 "=".
Proof. split; reflexivity. Qed.

Lemma refb64_padding (x : string) :
  ((strlen (RefB64.encode x) >? 0)
   && Ascii.eqb (charAt (RefB64.encode x) (strlen (RefB64.encode x) - 1)) "=")
  = negb (strlen x mod 3 =? 0)
  /\ ((strlen (RefB64.encode x) >? 1)
      && Ascii.eqb (charAt (RefB64.encode x) (strlen (RefB64.encode x) - 2)) "=")
     = (strlen x mod 3 =? 1).
Proof.
  induction x as [|a|a b|a b c s [IH1 IH2]] using string_by_triples.
  - split; reflexivity.
  - split; reflexivity.
  - pose proof (N_ascii_bounded b) as Bb.
    split; [reflexivity|].
    cbn [RefB64.encode].
    rewrite (proj2 (padding_of_four _ _ _ _)).
    apply encode_value_not_pad. nlia.
  - pose proof (N_ascii_bounded b) as Bb.
    pose proof (N_ascii_bounded c) as Bc.
    replace (strlen (String a (String b (String c s))) mod 3) with (strlen s mod 3)
      by (rewrite !strlen_String;
          replace (strlen s + 1 + 1 + 1) with (strlen s + 1 * 3) by lia;
          rewrite Z.mod_add by lia; reflexivity).
    destruct s as [|d s].
    + cbn [RefB64.encode].
      rewrite (proj1 (padding_of_four _ _ _ _)), (proj2 (padding_of_four _ _ _ _)).
      rewrite !encode_value_not_pad by nlia. split; reflexivity.
    + rewrite <- IH1, <- IH2.
      remember (String d s) as t eqn:Et.
      assert (Hlen : 4 <= strlen (RefB64.encode t)).
      { unfold strlen. rewrite refb64_length.
        assert (1 <= Z.of_nat (String.length t))
          by (subst t; cbn [String.length]; lia).
        Z.to_euclidean_division_equations; lia. }
      cbn [RefB64.encode]. rewrite !strlen_String.
      remember (RefB64.encode t) as E eqn:EE.
      replace (strlen E + 1 + 1 + 1 + 1 - 1) with ((strlen E - 1) + 4) by lia.
      replace (strlen E + 1 + 1 + 1 + 1 - 2) with ((strlen E - 2) + 4) by lia.
      rewrite !charAt_skip4 by lia.
      replace (strlen E + 1 + 1 + 1 + 1 >? 0) with true by (symmetry; apply Z.gtb_lt; lia).
      replace (strlen E + 1 + 1 + 1 + 1 >? 1) with true by (symmetry; apply Z.gtb_lt; lia).
      replace (strlen E >? 0) with true by (symmetry; apply Z.gtb_lt; lia).
      replace (strlen E >? 1) with true by (symmetry; apply Z.gtb_lt; lia).
      split; reflexivity.
Qed.

(** X3.  On a padded base64 text as the reference encoder writes it,
    [calculateBase64DecodedSize] is exact: for every byte string of fewer
    than 2^30 bytes it gives the length of the string that was encoded. *)
Theorem calculateBase64DecodedSize_of_an_encoding (x : string) :
  strlen x < 1073741824 ->
  calculateBase64DecodedSize (RefB64.encode x) = strlen x.
Proof.
  intro Hx. unfold calculateBase64DecodedSize. cbv zeta.
  destruct (refb64_padding x) as [-> ->].
  pose proof (strlen_nonneg x) as Hn.
  assert (Hlen : strlen (RefB64.encode x) = 4 * ((strlen x + 2) / 3))
    by (unfold strlen; apply refb64_length).
  rewrite Hlen.
  rewrite (uint32_small (4 * ((strlen x + 2) / 3) * 3))
    by (Z.to_euclidean_division_equations; lia).
  destruct (strlen x mod 3 =? 0) eqn:H0; destruct (strlen x mod 3 =? 1) eqn:H1;
    cbn [negb];
    repeat match goal with
           | H : (_ =? _) = true |- _ => apply Z.eqb_eq in H
           | H : (_ =? _) = false |- _ => apply Z.eqb_neq in H
           end;
    rewrite uint32_small; Z.to_euclidean_division_equations; lia.
Qed.

(** ** Version strings *)

Lemma count_char_nonneg (c : ascii) (s : string) : 0 <= count_char c s.
Proof.
  induction s as [|d s IH]; cbn [count_char]; [lia|].
  destruct (Ascii.eqb d c); lia.
Qed.

Lemma count_char_le (c : ascii) (s : string) : count_char c s <= strlen s.
Proof.
  induction s as [|d s IH]; cbn [count_char].
  - unfold strlen. cbn. lia.
  - rewrite strlen_String. destruct (Ascii.eqb d c); lia.
Qed.

Lemma count_dots_or_reject_eq (s : string) :
  forall dots,
    0 <= dots ->
    dots + strlen s < 2147483648 ->
    count_dots_or_reject s dots
    = if all_chars version_char s then Some (dots + count_char "." s) else None.
Proof.
  induction s as [|c s IH]; intros dots H0 H1.
  - cbn [count_dots_or_reject all_chars count_char]. f_equal. lia.
  - rewrite strlen_String in H1. pose proof (strlen_nonneg s) as Hs.
    cbn [count_dots_or_reject all_chars count_char]. unfold version_char at 1.
    destruct (Ascii.eqb c ".") eqn:Hdot.
    + cbn [orb andb]. rewrite int32_small by lia. rewrite IH by lia.
      destruct (all_chars version_char s); [f_equal; lia|reflexivity].
    + cbn [orb].
      destruct (isdigit c), (Ascii.eqb c "-"), (Ascii.eqb c "+"); cbn [negb andb orb];
        try reflexivity;
        rewrite IH by lia;
        (destruct (all_chars version_char s); [f_equal; lia|reflexivity]).
Qed.

(** X4.  [checkFirmwareCompatibility] accepts a version string exactly when
    it is not empty, consists only of digits, dots, [-] and [+], and has one
    or two dots; where the dots stand and whether any digit occurs is not
    looked at. *)
Theorem checkFirmwareCompatibility_accepts_exactly (newVersion : string) :
  strlen newVersion < 2147483648 ->
  checkFirmwareCompatibility newVersion
  = negb (isEmpty newVersion)
    && all_chars version_char newVersion
    && (1 <=? count_char "." newVersion)
    && (count_char "." newVersion <=? 2).
Proof.
  intro H. unfold checkFirmwareCompatibility.
  destruct (isEmpty newVersion); [reflexivity|]. cbn [negb andb].
  rewrite count_dots_or_reject_eq by (pose proof (strlen_nonneg newVersion); lia).
  destruct (all_chars version_char newVersion); [|reflexivity].
  cbn [andb]. rewrite Z.add_0_l.
  rewrite Z.geb_leb. reflexivity.
Qed.

(** ** The decoder's ceiling *)

Section Decoder.

Context {libb64 : Libb64}.

(** X5.  [base64Decode] is the library decoder on every text of fewer than
    66666 characters for which the buffer can be allocated, and the empty
    string on every longer text, whatever the text holds and whatever the
    library would make of it. *)
Theorem base64Decode_is_the_library_below_66666_characters (w : Platform)
  (encoded : string) :
  strlen encoded <= 715827882 ->
  base64Decode w encoded
  = if (66666 <=? strlen encoded) || negb (malloc w (strlen encoded * 3 / 4 + 2))
    then ""%string
    else base64_decode_block encoded.
Proof.
  intro H. pose proof (strlen_nonneg encoded) as H0.
  unfold base64Decode. cbv zeta.
  rewrite (int32_small (strlen encoded * 3)) by lia.
  rewrite Z.quot_div_nonneg by lia.
  rewrite int32_small by (Z.to_euclidean_division_equations; lia).
  destruct (66666 <=? strlen encoded) eqn:Hc.
  - apply Z.leb_le in Hc. cbn [orb].
    replace (strlen encoded * 3 / 4 + 2 >? 50000) with true; [reflexivity|].
    symmetry. apply Z.gtb_lt. Z.to_euclidean_division_equations; lia.
  - apply Z.leb_gt in Hc. cbn [orb].
    replace (strlen encoded * 3 / 4 + 2 >? 50000) with false.
    + destruct (malloc w (strlen encoded * 3 / 4 + 2)); cbn [negb]; [|reflexivity].
      destruct (base64_decode_block encoded); reflexivity.
    + symmetry. rewrite Z.gtb_ltb. apply Z.ltb_ge.
      Z.to_euclidean_division_equations; lia.
Qed.

End Decoder.

(** ** Validation of a payload *)

Lemma base64_char_ok_encode_value (v : N) :
  (v < 64)%N -> base64_char_ok (RefB64.encode_value v) = true.
Proof.
  intro Hv.
  assert (K : forallb (fun n => base64_char_ok (RefB64.encode_value (N.of_nat n)))
                (seq 0 64) = true) by (vm_compute; reflexivity).
  rewrite forallb_forall in K.
  specialize (K (N.to_nat v)). rewrite N2Nat.id in K.
  apply K, in_seq. lia.
Qed.

Lemma refb64_chars_ok (x : string) : all_chars base64_char_ok (RefB64.encode x) = true.
Proof.
  induction x as [|a|a b|a b c s IH] using string_by_triples.
  - reflexivity.
  - pose proof (N_ascii_bounded a) as Ba.
    cbn [RefB64.encode all_chars].
    rewrite !base64_char_ok_encode_value by nlia. reflexivity.
  - pose proof (N_ascii_bounded a) as Ba.
    pose proof (N_ascii_bounded b) as Bb.
    cbn [RefB64.encode all_chars].
    rewrite !base64_char_ok_encode_value by nlia. reflexivity.
  - pose proof (N_ascii_bounded a) as Ba.
    pose proof (N_ascii_bounded b) as Bb.
    pose proof (N_ascii_bounded c) as Bc.
    cbn [RefB64.encode all_chars].
    rewrite !base64_char_ok_encode_value by nlia. rewrite IH. reflexivity.
Qed.

(** X6.  The payload check of the single-message path passes the base64
    text of every byte string of 73 bytes or more, silently and without
    touching the object; the text of a shorter byte string is refused (as
    empty or as too short), which publishes an error and nothing else. *)
Theorem _validateFirmwareData_passes_encodings_from_73_bytes (w : Platform)
  (x : string) (o : MQTTOTA) :
  _validateFirmwareData w (RefB64.encode x) o
  = if 73 <=? strlen x then Next true o []
    else Next false o
           (error_events w o
              (if isEmpty x then "Datos de firmware vacíos"
               else "Datos de firmware demasiado cortos") "").
Proof.
  pose proof (strlen_nonneg x) as H0.
  assert (Hlen : strlen (RefB64.encode x) = 4 * ((strlen x + 2) / 3))
    by (unfold strlen; apply refb64_length).
  unfold _validateFirmwareData.
  rewrite (isEmpty_strlen (RefB64.encode x)), Hlen, refb64_chars_ok.
  rewrite (isEmpty_strlen x).
  destruct (73 <=? strlen x) eqn:Hc.
  - apply Z.leb_le in Hc.
    replace (4 * ((strlen x + 2) / 3) =? 0) with false
      by (symmetry; apply Z.eqb_neq; Z.to_euclidean_division_equations; lia).
    replace (4 * ((strlen x + 2) / 3) <? 100) with false
      by (symmetry; apply Z.ltb_ge; Z.to_euclidean_division_equations; lia).
    reflexivity.
  - apply Z.leb_gt in Hc.
    destruct (strlen x =? 0) eqn:Hz.
    + apply Z.eqb_eq in Hz. rewrite Hz.
      change (4 * ((0 + 2) / 3) =? 0) with true. cbv iota.
      unfold bind. rewrite _publishError_eq. unfold ret. rewrite app_nil_r. reflexivity.
    + apply Z.eqb_neq in Hz.
      replace (4 * ((strlen x + 2) / 3) =? 0) with false
        by (symmetry; apply Z.eqb_neq; Z.to_euclidean_division_equations; lia).
      replace (4 * ((strlen x + 2) / 3) <? 100) with true
        by (symmetry; apply Z.ltb_lt; Z.to_euclidean_division_equations; lia).
      unfold bind. rewrite _publishError_eq. unfold ret. rewrite app_nil_r. reflexivity.
Qed.

(** ** The write loop of the single-message path *)

Lemma substring_none (n : nat) (s : string) : substring n 0 s = ""%string.
Proof.
  revert n. induction s as [|c s IH]; intros [|n]; cbn [substring]; auto.
Qed.

Lemma substring_past_end (s : string) :
  forall n m, (String.length s <= n)%nat -> substring n m s = ""%string.
Proof.
  induction s as [|c s IH]; intros n m H.
  - destruct n, m; reflexivity.
  - destruct n as [|n]; cbn [String.length] in H; [lia|].
    cbn [substring]. apply IH. lia.
Qed.

Lemma substring_append (s : string) :
  forall n a b,
    (substring n a s ++ substring (n + a) b s)%string = substring n (a + b) s.
Proof.
  induction s as [|c s IH]; intros n a b.
  - destruct n, a, b; reflexivity.
  - destruct n as [|n].
    + destruct a as [|a].
      * cbn [substring plus append]. reflexivity.
      * cbn [substring plus append]. f_equal. apply (IH 0%nat a b).
    + cbn [substring plus]. apply IH.
Qed.

Lemma substring_whole (s : string) : substring 0 (String.length s) s = s.
Proof.
  induction s as [|c s IH]; cbn [String.length substring]; [reflexivity|].
  now rewrite IH.
Qed.

Lemma strlen_substring (s : string) :
  forall n m, strlen (substring n m s) <= Z.of_nat m.
Proof.
  unfold strlen.
  induction s as [|c s IH]; intros n m.
  - destruct n, m; cbn; lia.
  - destruct n as [|n].
    + destruct m as [|m]; cbn [substring String.length]; [lia|].
      specialize (IH 0%nat m). lia.
    + cbn [substring]. apply IH.
Qed.

Lemma driver_calls_app (a b : list Event) :
  driver_calls (a ++ b) = driver_calls a ++ driver_calls b.
Proof. apply filter_app. Qed.

Lemma driver_calls_cons (e : Event) (evs : list Event) :
  driver_calls (e :: evs) = (if is_driver_call e then [e] else []) ++ driver_calls evs.
Proof. unfold driver_calls. cbn [filter]. destruct (is_driver_call e); reflexivity. Qed.

Lemma driver_calls_reports (evs : list Event) :
  forallb is_report evs = true -> driver_calls evs = [].
Proof.
  induction evs as [|e evs IH]; cbn [forallb]; intro H; [reflexivity|].
  apply andb_prop in H. destruct H as [He H].
  rewrite driver_calls_cons, (IH H).
  destruct e; try discriminate He; reflexivity.
Qed.

Lemma header_check_passes (data : string) (n : Z) :
  288 <= n -> _processImageHeader data n = true.
Proof.
  intro H. unfold _processImageHeader, sizeof_esp_image_header_t,
    sizeof_esp_image_segment_header_t, sizeof_esp_app_desc_t.
  apply negb_true_iff, Z.ltb_ge. lia.
Qed.

Lemma header_check_fails (data : string) (n : Z) :
  n < 288 -> _processImageHeader data n = false.
Proof.
  intro H. unfold _processImageHeader, sizeof_esp_image_header_t,
    sizeof_esp_image_segment_header_t, sizeof_esp_app_desc_t.
  apply negb_false_iff, Z.ltb_lt. lia.
Qed.

Lemma write_slices_outcome (w : Platform) (h : Z) (v data : string) (cs : Z) :
  1 <= cs ->
  strlen data + cs <= 4294967296 ->
  forall fuel written i bw o,
    0 <= i ->
    (i < strlen data -> strlen data - i <= Z.of_nat fuel * cs) ->
    loop_outcome w h data cs i (write_slices w h v data cs fuel written i bw o).
Proof.
  intros Hcs Hbound.
  assert (Hdone : forall i o, 0 <= i -> ~ i < strlen data ->
                              loop_outcome w h data cs i (Next true o [])).
  { intros i o Hi Hge. exists true, o, [], []. split; [reflexivity|].
    split; [reflexivity|]. split; [constructor|]. split; [|auto].
    exists 0%nat. split; [now rewrite substring_none|]. intros _. lia. }
  induction fuel as [|fuel IH]; intros written i bw o Hi Hfuel; cbn [write_slices].
  - destruct (i <? strlen data) eqn:Hlt.
    + apply Z.ltb_lt in Hlt. specialize (Hfuel Hlt). cbn in Hfuel. lia.
    + apply Z.ltb_ge in Hlt. apply Hdone; lia.
  - destruct (i <? strlen data) eqn:Hlt; cbn [negb];
      [apply Z.ltb_lt in Hlt | apply Z.ltb_ge in Hlt; apply Hdone; lia].
    specialize (Hfuel Hlt).
    set (cur := Z.min cs (strlen data - i)).
    destruct ((i =? 0) && negb (_processImageHeader data cur)) eqn:Hhdr.
    + (* the header check fails *)
      apply andb_prop in Hhdr. destruct Hhdr as [Hz Hbad].
      apply Z.eqb_eq in Hz. apply negb_true_iff in Hbad.
      unfold bind, emit, ret. rewrite _publishError_eq.
      eexists false, _, _, []. split; [reflexivity|]. cbn [app].
      rewrite app_nil_r, driver_calls_cons, driver_calls_reports
        by apply error_events_report.
      split; [reflexivity|]. split; [constructor|]. split.
      * exists 0%nat. rewrite substring_none. split; [reflexivity|discriminate].
      * intros _ Hmin. subst i. specialize (Hmin eq_refl).
        rewrite header_check_passes in Hbad; [discriminate|].
        subst cur. rewrite Z.sub_0_r. exact Hmin.
    + clear Hhdr.
      set (slice := substring (Z.to_nat i) (Z.to_nat cur) data).
      assert (Hslice : strlen slice <= cs).
      { pose proof (strlen_substring data (Z.to_nat i) (Z.to_nat cur)).
        subst slice cur. lia. }
      destruct (esp_ota_write w written =? ESP_OK) eqn:Herr; cbn [negb].
      * (* the write succeeds *)
        rewrite (uint32_small (i + cs)) by lia.
        match goal with
        | |- loop_outcome _ _ _ _ _ (bind _ (fun _ => bind (when ?c ?p) ?k) _) =>
            assert (Hstep : exists o1 e1,
                       bind (when c p) k o
                       = bind (fun o => Next tt o1 e1) k o
                       /\ forallb is_report e1 = true)
        end.
        { match goal with |- context [when ?c _] => destruct c end.
          - eexists _, _. unfold when, bind. rewrite _publishProgress_eq.
            split; [reflexivity|apply progress_events_report].
          - exists o, []. split; reflexivity. }
        destruct Hstep as (o1 & e1 & Hstep & Hrep).
        unfold bind at 1. unfold emit at 1. cbv beta iota.
        rewrite Hstep. unfold bind at 1. cbv beta iota.
        match goal with
        | |- context [write_slices w h v data cs fuel ?n ?j ?b ?o] =>
            destruct (IH n j b o) as (b' & o' & evs & slices & Heq & Hdrv & Hall
                                      & [n' [Himg Hn']] & Hok);
            [lia | intro; nia |]; rewrite Heq
        end.
        eexists b', o', _, (slice :: slices). split; [reflexivity|]. cbn [app].
        rewrite driver_calls_cons, driver_calls_app, (driver_calls_reports e1 Hrep), Hdrv.
        split; [reflexivity|].
        split; [constructor; assumption|].
        split.
        -- cbn [joined fold_right]. fold (joined slices). rewrite Himg.
           destruct (Z.le_gt_cases cs (strlen data - i)) as [Hfull|Hlast].
           ++ exists (Z.to_nat cs + n')%nat. split.
              ** subst slice cur. rewrite Z.min_l by lia.
                 replace (Z.to_nat (i + cs)) with (Z.to_nat i + Z.to_nat cs)%nat by lia.
                 apply substring_append.
              ** intro Hb. rewrite (Hn' Hb). lia.
           ++ exists (Z.to_nat cur). split.
              ** rewrite (substring_past_end data (Z.to_nat (i + cs)))
                   by (unfold strlen in *; lia).
                 apply append_empty_r.
              ** intros _. subst cur. rewrite Z.min_r by lia. reflexivity.
        -- intros Hw Hmin. apply Hok; [exact Hw|]. intro Hz. lia.
      * (* the write fails *)
        unfold bind, emit, ret. rewrite _publishError_eq.
        eexists false, _, _, [slice]. split; [reflexivity|]. cbn [app].
        rewrite app_nil_r, !driver_calls_cons, driver_calls_reports
          by apply error_events_report.
        split; [reflexivity|].
        split; [repeat constructor; assumption|].
        split.
        -- exists (Z.to_nat cur). split; [|discriminate].
           cbn [joined fold_right]. apply append_empty_r.
        -- intros Hw _. rewrite Hw in Herr. discriminate Herr.
Qed.

(** ** The single-message update *)

Lemma driver_calls_error_events w o m v : driver_calls (error_events w o m v) = [].
Proof. apply driver_calls_reports, error_events_report. Qed.

Lemma driver_calls_progress_events w o p v : driver_calls (progress_events w o p v) = [].
Proof. apply driver_calls_reports, progress_events_report. Qed.

Lemma driver_calls_success_events w o v : driver_calls (success_events w o v) = [].
Proof. apply driver_calls_reports, success_events_report. Qed.

Lemma driver_calls_nil : driver_calls [] = [].
Proof. reflexivity. Qed.

Create Rewrite HintDb driver.

#[export] Hint Rewrite driver_calls_app driver_calls_cons driver_calls_error_events
  driver_calls_progress_events driver_calls_success_events driver_calls_nil
  app_nil_r app_nil_l : driver.

Ltac driver_leaf :=
  autorewrite with driver; cbn [is_driver_call app]; autorewrite with driver.

(** Structural proof that a method is framed, with the proof of the leaves
    given by [leaf]. *)
Ltac frame_by R T P G leaf :=
  repeat first
    [ apply (framed_ret _ R) | apply (framed_get _ R) | apply (framed_halt _ R)
    | apply (framed_publishError _ P)
    | apply (framed_publishSuccess _ P)
    | apply (framed_publishProgress _ T P G)
    | apply (framed_when _ R)
    | apply (framed_bind _ T); [|intro]
    | apply framed_modify; intro; solve [leaf]
    | apply framed_emit; intro; solve [leaf]
    | progress cbv beta zeta
    | match goal with
      | |- framed _ (if ?b then _ else _) => destruct b
      | |- framed _ (match ?x with _ => _ end) => destruct x
      end ].

Lemma reports_and_driver_calls_refl o : reports_and_driver_calls o o [].
Proof. reflexivity. Qed.

Lemma reports_and_driver_calls_trans o o1 o2 e1 e2 :
  reports_and_driver_calls o o1 e1 -> reports_and_driver_calls o1 o2 e2 ->
  reports_and_driver_calls o o2 (e1 ++ e2).
Proof.
  unfold reports_and_driver_calls. intros H1 H2.
  rewrite forallb_app, H1, H2. reflexivity.
Qed.

Lemma reports_and_driver_calls_reports o evs :
  forallb is_report evs = true -> reports_and_driver_calls o o evs.
Proof.
  unfold reports_and_driver_calls. intro H.
  rewrite forallb_forall in *. intros e He. rewrite (H e He). reflexivity.
Qed.

Lemma reports_and_driver_calls_progress o p :
  reports_and_driver_calls o (set_currentProgress p o) [].
Proof. reflexivity. Qed.

Ltac quiet_framed :=
  frame_by reports_and_driver_calls_refl reports_and_driver_calls_trans
    reports_and_driver_calls_reports reports_and_driver_calls_progress
    ltac:(reflexivity).

Lemma write_slices_quiet w h v d cs fuel :
  forall written i bw,
    framed reports_and_driver_calls (write_slices w h v d cs fuel written i bw).
Proof.
  induction fuel as [|fuel IH]; intros written i bw; cbn [write_slices].
  - quiet_framed.
  - quiet_framed. apply IH.
Qed.

Lemma no_restart_among_reports_and_driver_calls (evs : list Event) :
  forallb (fun e => is_report e || is_driver_call e) evs = true -> restarts evs = 0%nat.
Proof.
  unfold restarts.
  induction evs as [|e evs IH]; cbn [forallb filter]; intro H; [reflexivity|].
  apply andb_prop in H. destruct H as [He H].
  destruct e; try discriminate He; apply (IH H).
Qed.

Section SingleMessage.

Context {libb64 : Libb64}.

Lemma performUpdate_outcome (w : Platform) (d v : string) (o : MQTTOTA) :
  1 <= _chunkSize o ->
  strlen (base64Decode w d) + _chunkSize o <= 4294967296 ->
  exists b o' evs,
    performUpdate w d v o = Next b o' evs
    /\ driver_protocol w (base64Decode w d) (_chunkSize o) b (driver_calls evs)
    /\ (b = true -> getProgress o' = 100)
    /\ (50000 <= getFreeHeap w ->
        (forall n, esp_ota_write w n = ESP_OK) ->
        288 <= Z.min (_chunkSize o) (strlen (base64Decode w d)) ->
        esp_ota_get_next_update_partition w <> None ->
        fst (esp_ota_begin w) = ESP_OK ->
        esp_ota_end w = ESP_OK ->
        esp_ota_set_boot_partition w = ESP_OK ->
        b = true).
Proof.
  intros Hcs Hbound.
  apply sat_outcome
    with (P := fun r =>
                 exists b o' evs,
                   r = Next b o' evs
                   /\ driver_protocol w (base64Decode w d) (_chunkSize o) b
                        (driver_calls evs)
                   /\ (b = true -> getProgress o' = 100)
                   /\ (50000 <= getFreeHeap w ->
                       (forall n, esp_ota_write w n = ESP_OK) ->
                       288 <= Z.min (_chunkSize o) (strlen (base64Decode w d)) ->
                       esp_ota_get_next_update_partition w <> None ->
                       fst (esp_ota_begin w) = ESP_OK ->
                       esp_ota_end w = ESP_OK ->
                       esp_ota_set_boot_partition w = ESP_OK ->
                       b = true)).
  unfold performUpdate, _performOTAUpdateESPIDF.
  wp.
  4: { destruct (write_slices_outcome w (snd (esp_ota_begin w)) v (base64Decode w d)
                   (_chunkSize o) Hcs Hbound (String.length (base64Decode w d))
                   0%nat 0 0 (set_currentProgress 25 o))
         as (b & o1 & evs & slices & Heq & Hdrv & Hall & [n [Himg Hn]] & Hok);
       [lia | unfold strlen; nia |].
       rewrite Heq. unfold sat at 1.
       assert (Hwhole : b = true -> joined slices = base64Decode w d).
       { intro Hb. rewrite Himg, (Hn Hb). unfold strlen.
         rewrite Z.sub_0_r, Nat2Z.id. apply substring_whole. }
       bool_facts.
       match goal with H : (_ =? ESP_OK) = true |- _ => apply Z.eqb_eq in H end.
       destruct b; cbn [negb]; wp;
         (eexists _, _, _; split; [reflexivity|]; driver_leaf; rewrite Hdrv);
         bool_facts;
         repeat match goal with
                | H : (_ =? ESP_OK) = true |- _ => apply Z.eqb_eq in H
                | H : (_ =? ESP_OK) = false |- _ => apply Z.eqb_neq in H
                end;
         cbn [app]; rewrite <- ?app_assoc; cbn [app].
       - split; [apply end_refused; auto|]. split; [discriminate|]. intros; congruence.
       - split; [apply boot_refused; auto|]. split; [discriminate|]. intros; congruence.
       - split; [apply installed; auto|]. split; [reflexivity|]. reflexivity.
       - split; [apply (slice_refused _ _ _ _ _ n); auto|]. split; [discriminate|].
         intros _ Hw Hmin _ _ _ _. apply Hok; auto. }
  all: eexists _, _, _; split; [reflexivity|]; driver_leaf; bool_facts.
  all: repeat match goal with
              | H : (_ =? ESP_OK) = false |- _ => apply Z.eqb_neq in H
              | H : (_ <? _) = true |- _ => apply Z.ltb_lt in H
              | H : (_ =? _) = true |- _ => apply Z.eqb_eq in H
              end.
  - split; [constructor|]. split; [discriminate|]. intros; lia.
  - split; [constructor|]. split; [discriminate|]. intros; lia.
  - split; [apply begin_refused; auto|]. split; [discriminate|]. intros; congruence.
  - split; [constructor|]. split; [discriminate|]. intros; congruence.
Qed.

Lemma performUpdate_quiet w d v : framed reports_and_driver_calls (performUpdate w d v).
Proof.
  unfold performUpdate, _performOTAUpdateESPIDF.
  quiet_framed; apply write_slices_quiet.
Qed.

(** X7.  On every platform [performUpdate] returns, and what it asks of the
    flash driver has one of six shapes: nothing at all; a refused
    [esp_ota_begin]; consecutive slices of the decoded image followed by one
    [esp_ota_abort]; the whole image followed by a refused [esp_ota_end]; by
    [esp_ota_end] and a refused [esp_ota_set_boot_partition]; or by both
    accepted, which is the only case in which it returns [true].  A handle
    that was handed out is thus ended or aborted exactly once, and the boot
    partition is set only after the whole image was written.  The session
    record of the chunked path is not touched. *)
Theorem performUpdate_follows_the_driver_protocol (w : Platform) (d v : string)
  (o : MQTTOTA) :
  1 <= _chunkSize o ->
  strlen (base64Decode w d) + _chunkSize o <= 4294967296 ->
  exists b o' evs,
    performUpdate w d v o = Next b o' evs
    /\ driver_protocol w (base64Decode w d) (_chunkSize o) b (driver_calls evs)
    /\ _otaContext o' = _otaContext o
    /\ _otaInProgress o' = _otaInProgress o.
Proof.
  intros Hcs Hbound.
  destruct (performUpdate_outcome w d v o Hcs Hbound)
    as (b & o' & evs & Heq & Hproto & _).
  exists b, o', evs. split; [exact Heq|]. split; [exact Hproto|].
  pose proof (performUpdate_session w d v o) as [Hc Hf].
  rewrite Heq in Hc, Hf. exact (conj Hc Hf).
Qed.

(** X8.  With at least 50000 bytes of free heap, a driver that accepts
    every call, and both the chunk size and the decoded image at least 288
    bytes long, [performUpdate] returns [true] after exactly these driver
    calls: [esp_ota_begin] on the next update partition, writes of slices of
    at most the chunk size whose concatenation is the decoded image,
    [esp_ota_end], [esp_ota_set_boot_partition] on that partition; the
    progress stands at 100. *)
Theorem performUpdate_installs_the_decoded_image (w : Platform) (d v : string)
  (o : MQTTOTA) (p h : Z) :
  50000 <= getFreeHeap w ->
  drivers_succeed w p h ->
  288 <= _chunkSize o ->
  288 <= strlen (base64Decode w d) ->
  strlen (base64Decode w d) + _chunkSize o <= 4294967296 ->
  exists o' evs slices,
    performUpdate w d v o = Next true o' evs
    /\ driver_calls evs
       = OtaBegin p :: map (OtaWrite h) slices ++ [OtaEnd h; OtaSetBoot (Some p)]
    /\ joined slices = base64Decode w d
    /\ Forall (fun s => strlen s <= _chunkSize o) slices
    /\ getProgress o' = 100.
Proof.
  intros Hheap (Hp & Hb & Hw & He & Hs) Hcs Hdata Hbound.
  destruct (performUpdate_outcome w d v o ltac:(lia) Hbound)
    as (b & o' & evs & Heq & Hproto & Hprog & Hok).
  assert (Hbt : b = true).
  { apply Hok; auto; try lia; try congruence. rewrite Hb. reflexivity. }
  subst b. inversion Hproto as [| | | | |p' slices Hp' Hb' Hall Hj He' Hs' Htrue Hcalls].
  exists o', evs, slices. split; [exact Heq|].
  rewrite Hb in Hcalls. cbn [snd] in Hcalls.
  assert (p' = p) by congruence. subst p'.
  split; [symmetry; exact Hcalls|]. split; [exact Hj|]. split; [exact Hall|].
  apply Hprog. reflexivity.
Qed.

(** X9.  When the chunk size or the decoded image is shorter than 288 bytes,
    the header check refuses the first slice: after [esp_ota_begin] and the
    progress report of 25, [performUpdate] aborts the handle, reports an
    invalid image header and returns [false] without having written a byte. *)
Theorem performUpdate_refuses_a_first_slice_below_288_bytes (w : Platform)
  (d v : string) (o : MQTTOTA) (p h : Z) :
  50000 <= getFreeHeap w ->
  base64Decode w d <> ""%string ->
  esp_ota_get_next_update_partition w = Some p ->
  esp_ota_begin w = (ESP_OK, h) ->
  Z.min (_chunkSize o) (strlen (base64Decode w d)) < 288 ->
  performUpdate w d v o
  = Next false (set_currentProgress 25 o)
      (OtaBegin p :: progress_events w o 25 v
         ++ OtaAbort h
            :: error_events w (set_currentProgress 25 o)
                 "Encabezado de imagen inválido" v).
Proof.
  intros Hheap Hdata Hp Hb Hmin.
  unfold performUpdate, _performOTAUpdateESPIDF.
  replace (getFreeHeap w <? 50000) with false by (symmetry; apply Z.ltb_ge; lia).
  rewrite (strlen_eqb_false _ Hdata), Hp, Hb. cbn [fst snd negb Z.eqb ESP_OK].
  change (ESP_OK =? ESP_OK) with true. cbn [negb].
  remember (base64Decode w d) as data eqn:Edata.
  destruct data as [|c data]; [congruence|].
  assert (Hpos : 0 < strlen (String c data))
    by (rewrite strlen_String; pose proof (strlen_nonneg data); lia).
  unfold bind at 1 2 3. unfold emit at 1. rewrite _publishProgress_eq.
  unfold get at 1. cbv beta iota. proj.
  cbn [String.length write_slices].
  replace (0 <? strlen (String c data)) with true by (symmetry; apply Z.ltb_lt; lia).
  rewrite Z.sub_0_r, header_check_fails by exact Hmin.
  cbn [negb andb Z.eqb].
  unfold bind, emit, ret. rewrite _publishError_eq.
  cbn [app negb]. rewrite !app_nil_r. reflexivity.
Qed.

Lemma _validateFirmwareData_accepts (w : Platform) (payload : string) (o : MQTTOTA) :
  100 <= strlen payload ->
  all_chars base64_char_ok payload = true ->
  _validateFirmwareData w payload o = Next true o [].
Proof.
  intros Hlen Hok. unfold _validateFirmwareData.
  rewrite isEmpty_strlen, Hok.
  replace (strlen payload =? 0) with false by (symmetry; apply Z.eqb_neq; lia).
  replace (strlen payload <? 100) with false by (symmetry; apply Z.ltb_ge; lia).
  reflexivity.
Qed.

Lemma restarts_app (a b : list Event) : restarts (a ++ b) = (restarts a + restarts b)%nat.
Proof. unfold restarts. rewrite filter_app, length_app. reflexivity. Qed.

Lemma restarts_reports (evs : list Event) : forallb is_report evs = true -> restarts evs = 0%nat.
Proof.
  unfold restarts.
  induction evs as [|e evs IH]; cbn [forallb filter]; intro H; [reflexivity|].
  apply andb_prop in H. destruct H as [He H].
  destruct e; try discriminate He; apply (IH H).
Qed.

(** X10.  In single-message mode, a message on the OTA topic that carries a
    version and a payload of at least 100 base64 characters is installed in
    full when nothing fails: the driver gets [esp_ota_begin], the slices of
    the decoded payload in order, [esp_ota_end] and
    [esp_ota_set_boot_partition]; then success is reported, and after a
    delay of 2000 ms the device restarts -- the call does not return, and the
    restart does not depend on the auto-reset option. *)
Theorem single_message_update_installs_and_restarts (w : Platform) (topic : string)
  (EventType : option string) (details : JsonDetails) (o : MQTTOTA) (p h : Z) :
  topic = _otaTopic o ->
  isUpdateInProgress o = false ->
  _chunkedOTAEnabled o = false ->
  50000 <= getFreeHeap w ->
  is_UpdateFirmwareDevice EventType = true ->
  FirmwareVersion_or_empty details <> ""%string ->
  100 <= strlen (Base64_or_empty details) ->
  all_chars base64_char_ok (Base64_or_empty details) = true ->
  drivers_succeed w p h ->
  288 <= _chunkSize o ->
  288 <= strlen (base64Decode w (Base64_or_empty details)) ->
  strlen (base64Decode w (Base64_or_empty details)) + _chunkSize o <= 4294967296 ->
  exists o' evs pre slices,
    processMessage w topic (Json EventType (Some details)) o = Stop Rebooted o' evs
    /\ driver_calls evs
       = OtaBegin p :: map (OtaWrite h) slices ++ [OtaEnd h; OtaSetBoot (Some p)]
    /\ joined slices = base64Decode w (Base64_or_empty details)
    /\ evs = pre ++ success_events w o' (FirmwareVersion_or_empty details)
                  ++ [Delay 2000; Restart]
    /\ restarts pre = 0%nat
    /\ _otaInProgress o' = true
    /\ getProgress o' = 100.
Proof.
  intros Htopic Hidle Hmode Hheap Hevent Hversion Hlen Hchars Hdrv Hcs Hdata Hbound.
  rewrite processMessage_eq, Htopic, String.eqb_refl, Hidle, Hmode. cbn [negb].
  replace (getFreeHeap w <? 30000) with false by (symmetry; apply Z.ltb_ge; lia).
  unfold _processOTAMessage. rewrite Hevent. cbn [negb].
  rewrite (isEmpty_false _ Hversion), (isEmpty_strlen (Base64_or_empty details)).
  replace (strlen (Base64_or_empty details) =? 0) with false
    by (symmetry; apply Z.eqb_neq; lia).
  cbn [orb].
  unfold bind at 1. rewrite (_validateFirmwareData_accepts _ _ _ Hlen Hchars).
  cbn [negb]. unfold bind at 1. unfold modify at 1.
  unfold bind at 1. rewrite _publishProgress_eq.
  set (o1 := set_currentProgress 10 _).
  assert (Hcs1 : _chunkSize o1 = _chunkSize o) by reflexivity.
  destruct (performUpdate_outcome w (Base64_or_empty details)
              (FirmwareVersion_or_empty details) o1)
    as (b & o' & evs & Heq & Hproto & Hprog & Hok);
    [rewrite Hcs1; lia | rewrite Hcs1; exact Hbound |].
  pose proof (performUpdate_session w (Base64_or_empty details)
                (FirmwareVersion_or_empty details) o1) as [_ Hflag].
  rewrite Heq in Hflag. cbn [final] in Hflag.
  destruct Hdrv as (Hp & Hb & Hw & He & Hs).
  assert (Hbt : b = true).
  { apply Hok; auto; try congruence; [rewrite Hcs1; lia | rewrite Hb; reflexivity]. }
  subst b.
  rewrite Hcs1 in Hproto.
  inversion Hproto as [| | | | |p' slices Hp' Hb' Hall Hj He' Hs' Htrue Hcalls].
  assert (p' = p) by congruence. subst p'.
  rewrite Hb in Hcalls. cbn [snd] in Hcalls.
  unfold bind at 1. rewrite Heq. cbv iota beta.
  unfold bind, emit, halt. rewrite _publishSuccess_eq. cbn [app].
  eexists o', _, (progress_events w _ 10 (FirmwareVersion_or_empty details) ++ evs), slices.
  split; [reflexivity|].
  split.
  { autorewrite with driver. cbn [is_driver_call app]. autorewrite with driver.
    symmetry. exact Hcalls. }
  split; [exact Hj|].
  split; [rewrite <- !app_assoc; reflexivity|].
  split.
  { rewrite restarts_app, (restarts_reports _ (progress_events_report _ _ _ _)).
    pose proof (performUpdate_quiet w (Base64_or_empty details)
                  (FirmwareVersion_or_empty details) o1) as Hq.
    rewrite Heq in Hq. cbn [events] in Hq.
    apply no_restart_among_reports_and_driver_calls, Hq. }
  split; [|apply Hprog; reflexivity].
  rewrite Hflag. reflexivity.
Qed.

Lemma _validateFirmwareData_outcome (w : Platform) (payload : string) (o : MQTTOTA) :
  exists b evs,
    _validateFirmwareData w payload o = Next b o evs /\ forallb is_report evs = true.
Proof.
  unfold _validateFirmwareData.
  destruct (isEmpty payload); [|destruct (strlen payload <? 100);
                                [|destruct (negb (all_chars base64_char_ok payload))]].
  4: { exists true, []. split; reflexivity. }
  all: unfold bind, ret; rewrite _publishError_eq; eexists false, _;
    (split; [reflexivity|]); rewrite app_nil_r; apply error_events_report.
Qed.

(** X11.  In single-message mode a message handed to an idle object ends in
    one of two ways.  Either the update was installed and the device
    restarts (the call does not return); or the call returns with no update
    marked in progress, without a restart, with the session record of the
    chunked path untouched, and with the object either exactly as it was or
    with its status members (progress, start time, current version) reset.
    It never loops for ever. *)
Theorem single_message_mode_restarts_or_leaves_no_update_in_progress (w : Platform)
  (topic : string) (EventType : option string) (details : JsonDetails) (o : MQTTOTA) :
  _chunkedOTAEnabled o = false ->
  isUpdateInProgress o = false ->
  1 <= _chunkSize o ->
  strlen (base64Decode w (Base64_or_empty details)) + _chunkSize o <= 4294967296 ->
  let r := processMessage w topic (Json EventType (Some details)) o in
  (exists o' evs,
      r = Stop Rebooted o' evs
      /\ restarts evs = 1%nat
      /\ boot_partitions evs = [esp_ota_get_next_update_partition w])
  \/ (exists o' evs,
         r = Next tt o' evs
         /\ isUpdateInProgress o' = false
         /\ restarts evs = 0%nat
         /\ _otaContext o' = _otaContext o
         /\ (o' = o
             \/ (getProgress o' = 0 /\ _otaStartTime o' = 0
                 /\ _currentFirmwareVersion o' = ""%string))).
Proof.
  intros Hmode Hidle Hcs Hbound r. subst r.
  pattern (processMessage w topic (Json EventType (Some details)) o).
  match goal with |- ?P _ => set (Q := P) end.
  assert (Hsame : Q (Next tt o [])).
  { right. exists o, []. repeat split; auto. }
  rewrite processMessage_eq, Hidle, Hmode.
  destruct (negb (String.eqb topic (_otaTopic o))); [exact Hsame|].
  destruct (getFreeHeap w <? 30000); [exact Hsame|].
  unfold _processOTAMessage.
  destruct (negb (is_UpdateFirmwareDevice EventType)); [exact Hsame|].
  destruct (isEmpty (FirmwareVersion_or_empty details) || isEmpty (Base64_or_empty details));
    [exact Hsame|].
  clear Hsame.
  destruct (_validateFirmwareData_outcome w (Base64_or_empty details) o)
    as (valid & e0 & Hval & Hrep0).
  unfold bind at 1. rewrite Hval.
  destruct valid; cbn [negb].
  2: { right. exists o, (e0 ++ []). unfold ret. split; [reflexivity|].
       rewrite app_nil_r, (restarts_reports _ Hrep0). repeat split; auto. }
  unfold bind at 1. unfold modify at 1.
  unfold bind at 1. rewrite _publishProgress_eq.
  set (o1 := set_currentProgress 10 _).
  assert (Hcs1 : _chunkSize o1 = _chunkSize o) by reflexivity.
  destruct (performUpdate_outcome w (Base64_or_empty details)
              (FirmwareVersion_or_empty details) o1)
    as (b & o' & evs & Heq & Hproto & Hprog & _);
    [rewrite Hcs1; lia | rewrite Hcs1; exact Hbound |].
  pose proof (performUpdate_session w (Base64_or_empty details)
                (FirmwareVersion_or_empty details) o1) as [Hctx Hflag].
  pose proof (performUpdate_quiet w (Base64_or_empty details)
                (FirmwareVersion_or_empty details) o1) as Hq.
  rewrite Heq in Hctx, Hflag, Hq. cbn [final events] in Hctx, Hflag, Hq.
  apply no_restart_among_reports_and_driver_calls in Hq.
  unfold bind at 1. rewrite Heq. cbv iota beta.
  destruct b.
  - left. unfold bind, emit, halt. rewrite _publishSuccess_eq. cbn [app].
    eexists _, _. split; [reflexivity|].
    rewrite !restarts_app, (restarts_reports _ Hrep0),
      (restarts_reports _ (progress_events_report _ _ _ _)), Hq,
      (restarts_reports _ (success_events_report _ _ _)).
    split; [reflexivity|].
    autorewrite with trace.
    rewrite (reports_boot _ Hrep0).
    cbn [boot_partitions flat_map app].
    inversion Hproto as [| | | | |p slices Hp Hb Hall Hj He Hs Htrue Hcalls].
    rewrite Hp.
    assert (K : forall l, boot_partitions l = boot_partitions (driver_calls l)).
    { clear. induction l as [|e l IH]; [reflexivity|].
      rewrite driver_calls_cons.
      change (e :: l) with ([e] ++ l).
      rewrite !boot_partitions_app, <- IH.
      destruct e; reflexivity. }
    rewrite (K evs), <- Hcalls. cbn [app].
    match goal with
    | |- context [OtaBegin p :: ?l] => change (OtaBegin p :: l) with ([OtaBegin p] ++ l)
    end.
    rewrite !boot_partitions_app.
    assert (Kw : boot_partitions (map (OtaWrite (snd (esp_ota_begin w))) slices) = []).
    { clear. induction slices as [|x l IH]; [reflexivity|exact IH]. }
    rewrite Kw. reflexivity.
  - right. unfold bind, modify, cleanup. cbn [app].
    eexists _, _. split; [reflexivity|].
    split; [unfold isUpdateInProgress; proj; rewrite Hctx; subst o1; proj;
            unfold isUpdateInProgress in Hidle; apply orb_false_elim in Hidle;
            apply Hidle|].
    split.
    { rewrite !restarts_app, (restarts_reports _ Hrep0),
        (restarts_reports _ (progress_events_report _ _ _ _)), Hq. reflexivity. }
    split; [proj; rewrite Hctx; reflexivity|].
    right. repeat split.
Qed.

End SingleMessage.

(** ** Reading the course of an update *)

Lemma progress_reported_app (a b : list Event) :
  progress_reported (a ++ b) = progress_reported a ++ progress_reported b.
Proof. apply flat_map_app. Qed.

Lemma progress_reported_progress_events w o p v :
  progress_reported (progress_events w o p v) = if _progressCallback o then [p] else [].
Proof.
  rewrite progress_events_eq.
  destruct (_progressCallback o), (transport_up w o && ((int_rem p 10 =? 0) || (p =? 100)));
    reflexivity.
Qed.

Lemma progress_reported_error_events w o m v : progress_reported (error_events w o m v) = [].
Proof.
  rewrite error_events_eq. cbv zeta.
  destruct (_errorCallback o), (transport_up w o); reflexivity.
Qed.

Lemma progress_reported_success_events w o v : progress_reported (success_events w o v) = [].
Proof.
  rewrite success_events_eq.
  destruct (_successCallback o), (transport_up w o); reflexivity.
Qed.

Lemma restarts_error_events w o m v : restarts (error_events w o m v) = 0%nat.
Proof. apply restarts_reports, error_events_report. Qed.

Lemma restarts_progress_events w o p v : restarts (progress_events w o p v) = 0%nat.
Proof. apply restarts_reports, progress_events_report. Qed.

Lemma restarts_success_events w o v : restarts (success_events w o v) = 0%nat.
Proof. apply restarts_reports, success_events_report. Qed.

Lemma restarts_cons (e : Event) (evs : list Event) :
  restarts (e :: evs) = (restarts [e] + restarts evs)%nat.
Proof. apply (restarts_app [e] evs). Qed.

Lemma progress_reported_cons (e : Event) (evs : list Event) :
  progress_reported (e :: evs) = progress_reported [e] ++ progress_reported evs.
Proof. apply (progress_reported_app [e] evs). Qed.

Lemma restarts_nil : restarts [] = 0%nat.
Proof. reflexivity. Qed.

Lemma progress_reported_nil : progress_reported [] = [].
Proof. reflexivity. Qed.


(** The events of a leaf, read as driver calls, restarts and progress. *)
Ltac course_leaf :=
  driver_leaf;
  repeat first
    [ rewrite restarts_app | rewrite progress_reported_app
    | rewrite restarts_error_events | rewrite restarts_progress_events
    | rewrite restarts_success_events | rewrite progress_reported_progress_events
    | rewrite progress_reported_error_events | rewrite progress_reported_success_events
    | rewrite restarts_nil | rewrite progress_reported_nil
    | match goal with
      | |- context [restarts (?e :: ?l)] =>
          lazymatch l with
          | [] => change (restarts [e]) with 0%nat || change (restarts [e]) with 1%nat
          | _ => rewrite (restarts_cons e l)
          end
      | |- context [progress_reported (?e :: ?l)] =>
          lazymatch l with
          | [] => change (progress_reported [e]) with (@nil Z)
          | _ => rewrite (progress_reported_cons e l)
          end
      end ];
  proj; use_hyps; cbn [app Nat.add].

(** ** Messages through [processMessage] *)

Section Messages.

Context {libb64 : Libb64}.

(** X12.  In either mode, a message on another topic, a message that
    arrives while less than 30000 bytes of heap are free, a message that is
    not valid JSON, one whose [EventType] is missing or is not
    [UpdateFirmwareDevice], and one without [Details] are dropped without a
    trace: the object is unchanged and nothing is reported, not even an
    error. *)
Theorem unusable_messages_are_dropped_without_a_trace (w : Platform) (topic : string)
  (m : Message) (o : MQTTOTA) :
  topic <> _otaTopic o
  \/ getFreeHeap w < 30000
  \/ m = Malformed
  \/ (exists EventType Details,
        m = Json EventType Details
        /\ (is_UpdateFirmwareDevice EventType = false \/ Details = None)) ->
  processMessage w topic m o = Next tt o [].
Proof.
  intro H. rewrite processMessage_eq.
  destruct (String.eqb topic (_otaTopic o)) eqn:Htopic; cbn [negb]; [|reflexivity].
  destruct (isUpdateInProgress o); [reflexivity|].
  destruct (getFreeHeap w <? 30000) eqn:Hheap; [reflexivity|].
  apply String.eqb_eq in Htopic. apply Z.ltb_ge in Hheap.
  destruct H as [H|[H|[H|(EventType & Details & Hm & H)]]]; [congruence|lia| |].
  - subst m. destruct (_chunkedOTAEnabled o); reflexivity.
  - subst m. unfold _processOTAChunk, _processOTAMessage.
    destruct H as [H|H].
    + rewrite H. destruct (_chunkedOTAEnabled o); reflexivity.
    + subst Details.
      destruct (negb (is_UpdateFirmwareDevice EventType)), (_chunkedOTAEnabled o);
        reflexivity.
Qed.

(** X13.  In chunked mode, an update that arrives whole -- part 1 of 1, at
    least 1000 bytes once decoded -- is installed by the one message when
    nothing fails and the driver hands out a non-zero handle:
    [esp_ota_begin], one write of the decoded payload, [esp_ota_end],
    [esp_ota_set_boot_partition], then the restart; the call does not
    return.  The progress callback sees 0, 100, 90, 95, 100 in this order. *)
Theorem chunked_update_in_one_part_installs_and_restarts (w : Platform) (topic : string)
  (EventType : option string) (details : JsonDetails) (o : MQTTOTA) (p h : Z) :
  topic = _otaTopic o ->
  isUpdateInProgress o = false ->
  _chunkedOTAEnabled o = true ->
  30000 <= getFreeHeap w ->
  is_UpdateFirmwareDevice EventType = true ->
  IsError_or_false details = false ->
  FirmwareVersion_as_String details <> ""%string ->
  Base64Part_as_String details <> ""%string ->
  PartIndex_as_int details = 1 ->
  TotalParts_as_int details = 1 ->
  drivers_succeed w p h ->
  h <> 0 ->
  1000 <= strlen (base64Decode w (Base64Part_as_String details)) < 4294967296 ->
  exists o' evs,
    processMessage w topic (Json EventType (Some details)) o = Stop Rebooted o' evs
    /\ driver_calls evs
       = [OtaBegin p; OtaWrite h (base64Decode w (Base64Part_as_String details));
          OtaEnd h; OtaSetBoot (Some p)]
    /\ restarts evs = 1%nat
    /\ progress_reported evs = if _progressCallback o then [0; 100; 90; 95; 100] else [].
Proof.
  intros Htopic Hidle Hmode Hheap Hevent Herr Hversion Hpayload Hk Hn
    (Hp & Hb & Hw & He & Hs) Hh Hsize.
  rewrite processMessage_eq, Htopic, String.eqb_refl, Hidle, Hmode. cbn [negb].
  replace (getFreeHeap w <? 30000) with false by (symmetry; apply Z.ltb_ge; lia).
  apply orb_false_elim in Hidle. destruct Hidle as [Hflag Hsession].
  apply isEmpty_false in Hversion. apply isEmpty_false in Hpayload.
  apply Z.eqb_neq in Hh.
  assert (Hok : (ESP_OK =? ESP_OK) = true) by reflexivity.
  assert (Hk1 : (PartIndex_as_int details =? 1) = true) by (rewrite Hk; reflexivity).
  assert (Hseq : (PartIndex_as_int details =? int32 (0 + 1)) = true)
    by (rewrite Hk; reflexivity).
  assert (Hlast : (PartIndex_as_int details =? TotalParts_as_int details) = true)
    by (rewrite Hk, Hn; reflexivity).
  assert (Hdiv : int_div (int32 (PartIndex_as_int details * 100))
                   (TotalParts_as_int details) = Some 100)
    by (rewrite Hk, Hn; reflexivity).
  assert (Hdec : (strlen (base64Decode w (Base64Part_as_String details)) =? 0) = false)
    by (apply Z.eqb_neq; lia).
  assert (Hhdr : _processImageHeader (base64Decode w (Base64Part_as_String details))
                   (strlen (base64Decode w (Base64Part_as_String details))) = true)
    by (apply header_check_passes; lia).
  assert (Hw0 : (esp_ota_write w 0 =? ESP_OK) = true) by (rewrite Hw; reflexivity).
  assert (Hrecv : (uint32 (0 + strlen (base64Decode w (Base64Part_as_String details)))
                   <? 1000) = false)
    by (rewrite uint32_small by lia; apply Z.ltb_ge; lia).
  assert (He' : (esp_ota_end w =? ESP_OK) = true) by (rewrite He; reflexivity).
  assert (Hs' : (esp_ota_set_boot_partition w =? ESP_OK) = true)
    by (rewrite Hs; reflexivity).
  revert Hp.
  apply sat_outcome
    with (P := fun r =>
                 esp_ota_get_next_update_partition w = Some p ->
                 exists o' evs,
                   r = Stop Rebooted o' evs
                   /\ driver_calls evs
                      = [OtaBegin p;
                         OtaWrite h (base64Decode w (Base64Part_as_String details));
                         OtaEnd h; OtaSetBoot (Some p)]
                   /\ restarts evs = 1%nat
                   /\ progress_reported evs
                      = if _progressCallback o then [0; 100; 90; 95; 100] else []).
  wp;
    repeat match goal with
           | H : int_div _ _ = Some ?z |- _ =>
               is_var z; rewrite Hdiv in H; injection H as <-
           | H : int_div _ _ = None |- _ => rewrite Hdiv in H; discriminate H
           | H : Some _ = Some _ |- _ => injection H as <-
           | |- Some _ = Some _ -> _ => intro
           | |- None = Some _ -> _ => intro
           | H : None = Some _ |- _ => discriminate H
           end.
  eexists _, _. split; [reflexivity|].
  course_leaf.
  split; [reflexivity|]. split; [reflexivity|].
  destruct (_progressCallback o); reflexivity.
Qed.

(** X14.  A first chunk whose payload decodes to fewer than 288 bytes is
    refused after the session was opened and before anything is written:
    the driver sees [esp_ota_begin] and one [esp_ota_abort] of the handle it
    handed out, the call returns, and the session record is back at its
    idle values, so the next first chunk is accepted again. *)
Theorem first_chunk_below_288_bytes_is_refused_unwritten (w : Platform) (topic : string)
  (EventType : option string) (details : JsonDetails) (o : MQTTOTA) (p h : Z) :
  topic = _otaTopic o ->
  isUpdateInProgress o = false ->
  _chunkedOTAEnabled o = true ->
  30000 <= getFreeHeap w ->
  is_UpdateFirmwareDevice EventType = true ->
  IsError_or_false details = false ->
  FirmwareVersion_as_String details <> ""%string ->
  Base64Part_as_String details <> ""%string ->
  PartIndex_as_int details = 1 ->
  esp_ota_get_next_update_partition w = Some p ->
  esp_ota_begin w = (ESP_OK, h) ->
  h <> 0 ->
  0 < strlen (base64Decode w (Base64Part_as_String details)) < 288 ->
  exists o' evs,
    processMessage w topic (Json EventType (Some details)) o = Next tt o' evs
    /\ driver_calls evs = [OtaBegin p; OtaAbort h]
    /\ restarts evs = 0%nat
    /\ session_idle (_otaContext o')
    /\ isUpdateInProgress o' = false.
Proof.
  intros Htopic Hidle Hmode Hheap Hevent Herr Hversion Hpayload Hk Hp Hb Hh Hsize.
  rewrite processMessage_eq, Htopic, String.eqb_refl, Hidle, Hmode. cbn [negb].
  replace (getFreeHeap w <? 30000) with false by (symmetry; apply Z.ltb_ge; lia).
  apply orb_false_elim in Hidle. destruct Hidle as [Hflag Hsession].
  apply isEmpty_false in Hversion. apply isEmpty_false in Hpayload.
  apply Z.eqb_neq in Hh.
  assert (Hok : (ESP_OK =? ESP_OK) = true) by reflexivity.
  assert (Hk1 : (PartIndex_as_int details =? 1) = true) by (rewrite Hk; reflexivity).
  assert (Hseq : (PartIndex_as_int details =? int32 (0 + 1)) = true)
    by (rewrite Hk; reflexivity).
  assert (Hdec : (strlen (base64Decode w (Base64Part_as_String details)) =? 0) = false)
    by (apply Z.eqb_neq; lia).
  assert (Hhdr : _processImageHeader (base64Decode w (Base64Part_as_String details))
                   (strlen (base64Decode w (Base64Part_as_String details))) = false)
    by (apply header_check_fails; lia).
  revert Hp.
  apply sat_outcome
    with (P := fun r =>
                 esp_ota_get_next_update_partition w = Some p ->
                 exists o' evs,
                   r = Next tt o' evs
                   /\ driver_calls evs = [OtaBegin p; OtaAbort h]
                   /\ restarts evs = 0%nat
                   /\ session_idle (_otaContext o')
                   /\ isUpdateInProgress o' = false).
  wp;
    repeat match goal with
           | H : Some _ = Some _ |- _ => injection H as <-
           | |- Some _ = Some _ -> _ => intro
           | |- None = Some _ -> _ => intro
           | H : None = Some _ |- _ => discriminate H
           end.
  eexists _, _. split; [reflexivity|].
  unfold abort_events. proj. use_hyps. cbn [negb andb].
  course_leaf.
  split; [reflexivity|]. split; [reflexivity|].
  split; [repeat split|]. unfold isUpdateInProgress. proj. rewrite Hflag. reflexivity.
Qed.

(** X15.  When no update partition is found, or [esp_ota_begin] refuses,
    the first chunk opens no session: the call returns with no update in
    progress, the driver has seen at most the refused [esp_ota_begin] and no
    abort, and the only member written is the partition pointer of the
    session record. *)
Theorem first_chunk_opens_no_session_when_the_driver_refuses (w : Platform)
  (topic : string) (EventType : option string) (details : JsonDetails) (o : MQTTOTA) :
  topic = _otaTopic o ->
  isUpdateInProgress o = false ->
  _chunkedOTAEnabled o = true ->
  30000 <= getFreeHeap w ->
  is_UpdateFirmwareDevice EventType = true ->
  IsError_or_false details = false ->
  FirmwareVersion_as_String details <> ""%string ->
  Base64Part_as_String details <> ""%string ->
  PartIndex_as_int details = 1 ->
  esp_ota_get_next_update_partition w = None \/ fst (esp_ota_begin w) <> ESP_OK ->
  exists evs,
    processMessage w topic (Json EventType (Some details)) o
    = Next tt (with_otaContext
                 (set_update_partition (esp_ota_get_next_update_partition w)) o) evs
    /\ driver_calls evs
       = match esp_ota_get_next_update_partition w with
         | Some p => [OtaBegin p]
         | None => []
         end
    /\ restarts evs = 0%nat.
Proof.
  intros Htopic Hidle Hmode Hheap Hevent Herr Hversion Hpayload Hk Hrefused.
  rewrite processMessage_eq, Htopic, String.eqb_refl, Hidle, Hmode. cbn [negb].
  replace (getFreeHeap w <? 30000) with false by (symmetry; apply Z.ltb_ge; lia).
  apply orb_false_elim in Hidle. destruct Hidle as [Hflag Hsession].
  apply isEmpty_false in Hversion. apply isEmpty_false in Hpayload.
  assert (Hk1 : (PartIndex_as_int details =? 1) = true) by (rewrite Hk; reflexivity).
  unfold _processOTAChunk. rewrite Hevent. cbn [negb]. proj.
  rewrite Herr, Hpayload, Hversion, Hk1. cbn [orb].
  rewrite bind_get, Hsession.
  unfold _startChunkedOTA.
  destruct (esp_ota_get_next_update_partition w) as [p|] eqn:Hp.
  - destruct Hrefused as [Hnone|Hbegin]; [discriminate Hnone|].
    apply Z.eqb_neq in Hbegin. rewrite Hbegin. cbn [negb].
    unfold bind, modify, emit, ret. rewrite _publishError_eq. cbn [negb app].
    eexists. split; [reflexivity|].
    course_leaf. split; reflexivity.
  - unfold bind, modify, ret. rewrite _publishError_eq. cbn [negb app].
    eexists. split; [reflexivity|].
    course_leaf. split; reflexivity.
Qed.

(** ** Later chunks at the update handler *)

(** X16.  A later chunk that is next in sequence and not the last one costs
    the driver exactly one write, of the decoded payload on the handle of
    the session, and the handler returns with the session advanced: the
    part counter is the chunk's index, the byte count has grown by the
    decoded length (on [size_t]), and the progress kept and handed to the
    progress callback is the chunk's index times 100 divided by the chunk's
    own total. *)
Theorem chunk_in_sequence_is_written_once_and_counted (w : Platform)
  (EventType : option string) (details : JsonDetails) (o : MQTTOTA) :
  is_UpdateFirmwareDevice EventType = true ->
  inProgress (_otaContext o) = true ->
  update_handle (_otaContext o) <> 0 ->
  IsError_or_false details = false ->
  FirmwareVersion_as_String details <> ""%string ->
  Base64Part_as_String details <> ""%string ->
  base64Decode w (Base64Part_as_String details) <> ""%string ->
  esp_ota_write w 0%nat = ESP_OK ->
  PartIndex_as_int details <> 1 ->
  PartIndex_as_int details = int32 (currentPart (_otaContext o) + 1) ->
  TotalParts_as_int details <> 0 ->
  PartIndex_as_int details <> TotalParts_as_int details ->
  exists o' evs,
    _processOTAChunk w (Json EventType (Some details)) o = Next tt o' evs
    /\ driver_calls evs
       = [OtaWrite (update_handle (_otaContext o))
            (base64Decode w (Base64Part_as_String details))]
    /\ inProgress (_otaContext o') = true
    /\ update_handle (_otaContext o') = update_handle (_otaContext o)
    /\ currentPart (_otaContext o') = PartIndex_as_int details
    /\ receivedSize (_otaContext o')
       = uint32 (receivedSize (_otaContext o)
                 + strlen (base64Decode w (Base64Part_as_String details)))
    /\ getProgress o'
       = int32 (Z.quot (int32 (PartIndex_as_int details * 100))
                  (TotalParts_as_int details))
    /\ progress_reported evs = if _progressCallback o then [getProgress o'] else [].
Proof.
  intros Hevent Hin Hnz Herr Hversion Hpayload Hdec Hw Hk1 Hseq Htot Hlast.
  apply Z.eqb_neq in Hnz, Hk1, Hlast. apply Z.eqb_eq in Hseq.
  apply isEmpty_false in Hversion, Hpayload. apply strlen_eqb_false in Hdec.
  assert (Hw0 : (esp_ota_write w 0 =? ESP_OK) = true) by (rewrite Hw; reflexivity).
  assert (Hdiv : int_div (int32 (PartIndex_as_int details * 100))
                   (TotalParts_as_int details)
                 = Some (int32 (Z.quot (int32 (PartIndex_as_int details * 100))
                                  (TotalParts_as_int details)))).
  { unfold int_div. apply Z.eqb_neq in Htot. rewrite Htot. reflexivity. }
  apply sat_outcome
    with (P := fun r =>
                 exists o' evs,
                   r = Next tt o' evs
                   /\ driver_calls evs
                      = [OtaWrite (update_handle (_otaContext o))
                           (base64Decode w (Base64Part_as_String details))]
                   /\ inProgress (_otaContext o') = true
                   /\ update_handle (_otaContext o') = update_handle (_otaContext o)
                   /\ currentPart (_otaContext o') = PartIndex_as_int details
                   /\ receivedSize (_otaContext o')
                      = uint32 (receivedSize (_otaContext o)
                                + strlen (base64Decode w (Base64Part_as_String details)))
                   /\ getProgress o'
                      = int32 (Z.quot (int32 (PartIndex_as_int details * 100))
                                 (TotalParts_as_int details))
                   /\ progress_reported evs
                      = if _progressCallback o then [getProgress o'] else []).
  wp;
    repeat match goal with
           | H : Some ?z = Some _ |- _ => is_var z; injection H as ->
           | H : None = Some _ |- _ => discriminate H
           end.
  eexists _, _. split; [reflexivity|].
  course_leaf. unfold getProgress. proj.
  do 6 (split; [reflexivity|]).
  destruct (_progressCallback o); reflexivity.
Qed.

(** X17.  The last chunk of a live session, next in sequence and bringing
    the byte count to at least 1000, completes the update when the driver
    accepts every call: one write of the decoded payload, [esp_ota_end] on
    the handle of the session, [esp_ota_set_boot_partition] on the partition
    the session was opened on, then the restart; the handler does not
    return. *)
Theorem last_chunk_in_sequence_completes_the_update (w : Platform)
  (EventType : option string) (details : JsonDetails) (o : MQTTOTA) :
  is_UpdateFirmwareDevice EventType = true ->
  inProgress (_otaContext o) = true ->
  update_handle (_otaContext o) <> 0 ->
  IsError_or_false details = false ->
  FirmwareVersion_as_String details <> ""%string ->
  Base64Part_as_String details <> ""%string ->
  base64Decode w (Base64Part_as_String details) <> ""%string ->
  PartIndex_as_int details <> 1 ->
  PartIndex_as_int details = int32 (currentPart (_otaContext o) + 1) ->
  TotalParts_as_int details <> 0 ->
  PartIndex_as_int details = TotalParts_as_int details ->
  1000 <= uint32 (receivedSize (_otaContext o)
                  + strlen (base64Decode w (Base64Part_as_String details))) ->
  esp_ota_write w 0%nat = ESP_OK ->
  esp_ota_end w = ESP_OK ->
  esp_ota_set_boot_partition w = ESP_OK ->
  exists o' evs,
    _processOTAChunk w (Json EventType (Some details)) o = Stop Rebooted o' evs
    /\ driver_calls evs
       = [OtaWrite (update_handle (_otaContext o))
            (base64Decode w (Base64Part_as_String details));
          OtaEnd (update_handle (_otaContext o));
          OtaSetBoot (update_partition (_otaContext o))]
    /\ restarts evs = 1%nat.
Proof.
  intros Hevent Hin Hnz Herr Hversion Hpayload Hdec Hk1 Hseq Htot Hlast Hsize Hw He Hs.
  apply Z.eqb_neq in Hnz, Hk1. apply Z.eqb_eq in Hseq, Hlast.
  apply isEmpty_false in Hversion, Hpayload. apply strlen_eqb_false in Hdec.
  assert (Hw0 : (esp_ota_write w 0 =? ESP_OK) = true) by (rewrite Hw; reflexivity).
  assert (He' : (esp_ota_end w =? ESP_OK) = true) by (rewrite He; reflexivity).
  assert (Hs' : (esp_ota_set_boot_partition w =? ESP_OK) = true)
    by (rewrite Hs; reflexivity).
  assert (Hrecv : (uint32 (receivedSize (_otaContext o)
                           + strlen (base64Decode w (Base64Part_as_String details)))
                   <? 1000) = false) by (apply Z.ltb_ge; lia).
  assert (Hdiv : int_div (int32 (PartIndex_as_int details * 100))
                   (TotalParts_as_int details)
                 = Some (int32 (Z.quot (int32 (PartIndex_as_int details * 100))
                                  (TotalParts_as_int details)))).
  { unfold int_div. apply Z.eqb_neq in Htot. rewrite Htot. reflexivity. }
  apply sat_outcome
    with (P := fun r =>
                 exists o' evs,
                   r = Stop Rebooted o' evs
                   /\ driver_calls evs
                      = [OtaWrite (update_handle (_otaContext o))
                           (base64Decode w (Base64Part_as_String details));
                         OtaEnd (update_handle (_otaContext o));
                         OtaSetBoot (update_partition (_otaContext o))]
                   /\ restarts evs = 1%nat).
  wp;
    repeat match goal with
           | H : Some ?z = Some _ |- _ => is_var z; injection H as ->
           | H : None = Some _ |- _ => discriminate H
           end.
  eexists _, _. split; [reflexivity|].
  course_leaf. split; reflexivity.
Qed.

End Messages.

(** ** The configuration *)

Lemma configuration_frame_refl o : configuration_frame o o [].
Proof. reflexivity. Qed.

Lemma configuration_frame_trans o o1 o2 e1 e2 :
  configuration_frame o o1 e1 -> configuration_frame o1 o2 e2 ->
  configuration_frame o o2 (e1 ++ e2).
Proof. unfold configuration_frame. congruence. Qed.

Lemma configuration_frame_reports o evs :
  forallb is_report evs = true -> configuration_frame o o evs.
Proof. reflexivity. Qed.

Lemma configuration_frame_progress o p : configuration_frame o (set_currentProgress p o) [].
Proof. reflexivity. Qed.

Ltac configuration_framed :=
  frame_by configuration_frame_refl configuration_frame_trans
    configuration_frame_reports configuration_frame_progress
    ltac:(reflexivity).

Section Configuration.

Context {libb64 : Libb64}.

Lemma cleanup_configuration : framed configuration_frame cleanup.
Proof. unfold cleanup. configuration_framed. Qed.

Lemma _cleanupChunkedOTA_configuration : framed configuration_frame _cleanupChunkedOTA.
Proof. unfold _cleanupChunkedOTA. configuration_framed. Qed.

Lemma _startChunkedOTA_configuration w chunk :
  framed configuration_frame (_startChunkedOTA w chunk).
Proof. unfold _startChunkedOTA. configuration_framed. Qed.

Lemma _processChunkData_configuration w chunk :
  framed configuration_frame (_processChunkData w chunk).
Proof.
  unfold _processChunkData. configuration_framed; apply _cleanupChunkedOTA_configuration.
Qed.

Lemma _completeChunkedOTA_configuration w chunk :
  framed configuration_frame (_completeChunkedOTA w chunk).
Proof.
  unfold _completeChunkedOTA.
  configuration_framed; apply _cleanupChunkedOTA_configuration.
Qed.

Lemma _processOTAChunk_sequence_configuration w chunk :
  framed configuration_frame (_processOTAChunk_sequence w chunk).
Proof.
  unfold _processOTAChunk_sequence.
  configuration_framed;
    first [ apply _cleanupChunkedOTA_configuration
          | apply _processChunkData_configuration
          | apply _completeChunkedOTA_configuration ].
Qed.

Lemma _processOTAChunk_configuration w m :
  framed configuration_frame (_processOTAChunk w m).
Proof.
  unfold _processOTAChunk.
  configuration_framed;
    first [ apply _cleanupChunkedOTA_configuration
          | apply _startChunkedOTA_configuration
          | apply _processOTAChunk_sequence_configuration ].
Qed.

Lemma _validateFirmwareData_configuration w d :
  framed configuration_frame (_validateFirmwareData w d).
Proof. unfold _validateFirmwareData. configuration_framed. Qed.

Lemma write_slices_configuration w h v d cs fuel :
  forall written i bw,
    framed configuration_frame (write_slices w h v d cs fuel written i bw).
Proof.
  induction fuel as [|fuel IH]; intros written i bw; cbn [write_slices].
  - configuration_framed.
  - configuration_framed. apply IH.
Qed.

Lemma performUpdate_configuration w d v : framed configuration_frame (performUpdate w d v).
Proof.
  unfold performUpdate, _performOTAUpdateESPIDF.
  configuration_framed; apply write_slices_configuration.
Qed.

Lemma _processOTAMessage_configuration w m :
  framed configuration_frame (_processOTAMessage w m).
Proof.
  unfold _processOTAMessage.
  configuration_framed;
    first [ apply _validateFirmwareData_configuration
          | apply performUpdate_configuration
          | apply cleanup_configuration ].
Qed.

Lemma handle_configuration w : framed configuration_frame (handle w).
Proof.
  unfold handle.
  configuration_framed;
    first [ apply cleanup_configuration | apply _cleanupChunkedOTA_configuration ].
Qed.

Lemma processMessage_configuration w topic m :
  framed configuration_frame (processMessage w topic m).
Proof.
  unfold processMessage.
  configuration_framed;
    first [ apply _processOTAChunk_configuration
          | apply _processOTAMessage_configuration ].
Qed.

Lemma abortUpdate_configuration w : framed configuration_frame (abortUpdate w).
Proof.
  unfold abortUpdate, _setState, _publishStateChange.
  configuration_framed;
    first [ apply cleanup_configuration | apply _cleanupChunkedOTA_configuration ].
Qed.

Lemma update_call_configuration w op :
  is_update_call op = true -> framed configuration_frame (call w op).
Proof.
  destruct op; intro H; try discriminate H; cbn [call].
  - apply handle_configuration.
  - apply processMessage_configuration.
  - configuration_framed. apply performUpdate_configuration.
  - apply cleanup_configuration.
  - apply abortUpdate_configuration.
Qed.

(** X18.  No call that carries an update forward or ends it -- [handle],
    [processMessage], [performUpdate], [cleanup], [abortUpdate] -- writes the
    configuration, whether it returns or stops the program: device name,
    firmware version, device identifier, topic, callbacks, transport, the
    three options and the policy members of the session record are as they
    were.  In particular the version reported by [getCurrentVersion] is not
    changed by an update, and the retry counter is never counted up. *)
Theorem update_calls_leave_the_configuration (w : Platform) (op : Op) (o : MQTTOTA) :
  is_update_call op = true ->
  configuration (final (call w op o)) = configuration o.
Proof. intro H. apply (update_call_configuration w op H o). Qed.

Lemma call_keeps_the_ranges (w : Platform) (op : Op) (o : MQTTOTA) (id : string) :
  configuration_in_range o /\ _deviceID o = id ->
  configuration_in_range (final (call w op o)) /\ _deviceID (final (call w op o)) = id.
Proof.
  intros [(Hcs & Hmr & Hrc) Hid].
  destruct (is_update_call op) eqn:Hop.
  - pose proof (update_call_configuration w op Hop o) as Hc.
    unfold configuration_frame, configuration in Hc.
    injection Hc as E1 E2 E3 E4 E5 E6 E7 E8 E9 E10 E11 E12 E13 E14 E15 E16 E17 E18.
    unfold configuration_in_range. rewrite E3, E13, E14, E15. auto.
  - unfold configuration_in_range, MQTT_OTA_MAX_CHUNK_SIZE in *.
    destruct op as [n v|pf cf t|n|cb|cb|cb|cb| |t m|d v|e|cs|a|mr|e|e| |];
      try discriminate Hop; cbn [call]; unfold modify; proj;
      unfold begin, setMQTTConfig, setPartitionName, onProgress, onError, onSuccess,
        onStateChange, enableChunkedOTA, setChunkSize, setAutoReset, setMaxRetries,
        enableRollbackProtection, enableVersionCheck, MQTT_OTA_MAX_CHUNK_SIZE,
        MQTT_OTA_BUFFSIZE, MQTT_OTA_MAX_RETRIES; proj; auto.
    + (* setChunkSize *)
      destruct ((cs >? 0) && (cs <=? 65536)) eqn:Hc; [|repeat split; auto; lia].
      apply andb_prop in Hc. destruct Hc as [H1 H2].
      apply Z.gtb_lt in H1. apply Z.leb_le in H2. repeat split; auto; lia.
    + (* setMaxRetries *)
      destruct (mr >? 0) eqn:Hc; [|repeat split; auto; lia].
      apply Z.gtb_lt in Hc. repeat split; auto; lia.
Qed.

(** X19.  From construction on, under every history of calls of the
    interface, and also at the point where a call stops the program: the
    chunk size lies between 1 and 65536, the retry limit is at least 1, the
    retry counter is 0, and the device identifier is the one generated at
    construction. *)
Theorem configuration_stays_in_range (deviceID : string)
  (calls : list (Platform * Op)) :
  let o := final (run calls (MQTTOTA_ctor deviceID)) in
  1 <= _chunkSize o <= 65536
  /\ 1 <= maxRetries (_otaContext o)
  /\ retryCount (_otaContext o) = 0
  /\ _deviceID o = deviceID.
Proof.
  assert (K : forall calls o,
             configuration_in_range o /\ _deviceID o = deviceID ->
             configuration_in_range (final (run calls o))
             /\ _deviceID (final (run calls o)) = deviceID).
  { clear calls. induction calls as [|[w op] calls IH]; intros o Ho; cbn [run].
    - exact Ho.
    - unfold bind.
      pose proof (call_keeps_the_ranges w op o deviceID Ho) as Hc.
      destruct (call w op o) as [a o1 e1|h o1 e1]; cbn [final] in *; [|exact Hc].
      specialize (IH o1 Hc).
      destruct (run calls o1); cbn [final] in *; exact IH. }
  intro o. subst o.
  destruct (K calls (MQTTOTA_ctor deviceID)) as [(H1 & H2 & H3) H4].
  - split; [|reflexivity].
    unfold configuration_in_range, MQTTOTA_ctor, OTAContext_ctor,
      MQTT_OTA_MAX_CHUNK_SIZE, MQTT_OTA_BUFFSIZE, MQTT_OTA_MAX_RETRIES.
    proj. repeat split; lia.
  - unfold MQTT_OTA_MAX_CHUNK_SIZE in H1. auto.
Qed.

End Configuration.

(** ** Between calls, from construction *)

Section Reachable.

Context {libb64 : Libb64}.

(** X20.  Whenever a history of calls that started at construction has
    returned, the single-message flag is off, so [isUpdateInProgress] tells
    exactly whether a chunked session is open; an open session holds a
    non-zero handle; and when no session is open [handle] does nothing,
    whatever the clock says: the timeout of the single-message path never
    fires. *)
Theorem single_message_timeout_never_fires (deviceID : string)
  (calls : list (Platform * Op)) (w : Platform) :
  let r := run calls (MQTTOTA_ctor deviceID) in
  returned r = true ->
  _otaInProgress (final r) = false
  /\ isUpdateInProgress (final r) = inProgress (_otaContext (final r))
  /\ (inProgress (_otaContext (final r)) = true ->
      update_handle (_otaContext (final r)) <> 0)
  /\ (inProgress (_otaContext (final r)) = false ->
      handle w (final r) = Next tt (final r) []).
Proof.
  intros r Hr.
  destruct (run_between_calls calls (MQTTOTA_ctor deviceID)
              (ctor_between_calls deviceID) Hr) as [Hflag Hlive].
  fold r in Hflag, Hlive.
  split; [exact Hflag|].
  split; [unfold isUpdateInProgress; rewrite Hflag; reflexivity|].
  split; [exact Hlive|].
  intro Hidle. unfold handle.
  rewrite bind_get. cbv beta. rewrite Hflag. cbn [andb when].
  unfold bind at 1. unfold ret at 1. cbv beta iota.
  rewrite bind_get. cbv beta. rewrite Hidle. reflexivity.
Qed.

(** X21.  Destroying the object releases the flash handle of an open
    session by exactly one [esp_ota_abort] and makes no other driver call;
    without an open session (or with a zero handle) it makes none.  It
    leaves no update in progress and the session record idle, reports
    nothing, and run again it does nothing. *)
Theorem destructor_releases_an_open_session_once (o : MQTTOTA) :
  let r := MQTTOTA_dtor o in
  returned r = true
  /\ events r
     = (if inProgress (_otaContext o) && negb (update_handle (_otaContext o) =? 0)
        then [OtaAbort (update_handle (_otaContext o))]
        else [])
  /\ isUpdateInProgress (final r) = false
  /\ session_idle (_otaContext (final r))
  /\ MQTTOTA_dtor (final r) = Next tt (final r) [].
Proof.
  unfold MQTTOTA_dtor, cleanup, bind, modify.
  rewrite !_cleanupChunkedOTA_eq. unfold abort_events. proj. cbn [app andb].
  repeat split.
Qed.

End Reachable.

(** ** Telemetry discipline *)

Lemma permitted_gates (w : Platform) (o o' : MQTTOTA) (e : Event) :
  telemetry_gates o' = telemetry_gates o -> permitted w o' e = permitted w o e.
Proof.
  unfold telemetry_gates. intro H.
  injection H as H1 H2 H3 H4 H5 H6 H7.
  destruct e; cbn [permitted]; try congruence.
  unfold transport_up. rewrite H5, H6, H7. reflexivity.
Qed.

Lemma telemetry_frame_refl w o : telemetry_frame w o o [].
Proof. split; reflexivity. Qed.

Lemma telemetry_frame_trans w o o1 o2 e1 e2 :
  telemetry_frame w o o1 e1 -> telemetry_frame w o1 o2 e2 ->
  telemetry_frame w o o2 (e1 ++ e2).
Proof.
  intros [G1 P1] [G2 P2]. split; [congruence|].
  rewrite forallb_app, P1. cbn [andb].
  rewrite <- P2. clear P1 P2.
  induction e2 as [|e e2 IH]; cbn [forallb]; [reflexivity|].
  rewrite IH, (permitted_gates w o o1 e G1). reflexivity.
Qed.

Lemma telemetry_frame_error w o m v : telemetry_frame w o o (error_events w o m v).
Proof.
  split; [reflexivity|]. rewrite error_events_eq. cbv zeta.
  destruct (_errorCallback o) eqn:Hc, (transport_up w o) eqn:Ht;
    cbn [app forallb permitted]; rewrite ?Hc, ?Ht, ?String.eqb_refl; reflexivity.
Qed.

Lemma telemetry_frame_success w o v : telemetry_frame w o o (success_events w o v).
Proof.
  split; [reflexivity|]. rewrite success_events_eq.
  destruct (_successCallback o) eqn:Hc, (transport_up w o) eqn:Ht;
    cbn [app forallb permitted]; rewrite ?Hc, ?Ht, ?String.eqb_refl; reflexivity.
Qed.

Lemma telemetry_frame_state w o s : telemetry_frame w o o (state_events w o s).
Proof.
  split; [reflexivity|]. rewrite state_events_eq.
  destruct (_stateChangeCallback o) eqn:Hc, (transport_up w o) eqn:Ht;
    cbn [app forallb permitted]; rewrite ?Hc, ?Ht, ?String.eqb_refl; reflexivity.
Qed.

Lemma telemetry_frame_progress w o p v :
  telemetry_frame w o (set_currentProgress p o) (progress_events w o p v).
Proof.
  split; [reflexivity|]. rewrite progress_events_eq.
  assert (Hten : (int_rem p 10 =? 0) || (p =? 100) = true -> (Z.rem p 10 =? 0) = true).
  { unfold int_rem. intro H. apply orb_prop in H. destruct H as [H|H]; [exact H|].
    apply Z.eqb_eq in H. subst p. reflexivity. }
  destruct (_progressCallback o) eqn:Hc, (transport_up w o) eqn:Ht;
    cbn [app forallb permitted andb]; rewrite ?Hc; try reflexivity;
    destruct ((int_rem p 10 =? 0) || (p =? 100)) eqn:Hp;
    cbn [app forallb permitted andb]; rewrite ?Hc, ?Ht, ?String.eqb_refl, ?(Hten eq_refl);
    reflexivity.
Qed.

Lemma framed_telemetry_error w m v : framed (telemetry_frame w) (_publishError w m v).
Proof. intro o. rewrite _publishError_eq. apply telemetry_frame_error. Qed.

Lemma framed_telemetry_success w v : framed (telemetry_frame w) (_publishSuccess w v).
Proof. intro o. rewrite _publishSuccess_eq. apply telemetry_frame_success. Qed.

Lemma framed_telemetry_state w s : framed (telemetry_frame w) (_publishStateChange w s).
Proof. intro o. rewrite _publishStateChange_eq. apply telemetry_frame_state. Qed.

Lemma framed_telemetry_progress w p v : framed (telemetry_frame w) (_publishProgress w p v).
Proof. intro o. rewrite _publishProgress_eq. apply telemetry_frame_progress. Qed.

Ltac telemetry_framed :=
  repeat first
    [ apply (framed_ret _ (telemetry_frame_refl _))
    | apply (framed_get _ (telemetry_frame_refl _))
    | apply (framed_halt _ (telemetry_frame_refl _))
    | apply framed_telemetry_error
    | apply framed_telemetry_success
    | apply framed_telemetry_state
    | apply framed_telemetry_progress
    | apply (framed_when _ (telemetry_frame_refl _))
    | apply (framed_bind _ (telemetry_frame_trans _)); [|intro]
    | apply framed_modify; intro; solve [split; reflexivity]
    | apply framed_emit; intro; solve [split; reflexivity]
    | progress cbv beta zeta
    | match goal with
      | |- framed _ (if ?b then _ else _) => destruct b
      | |- framed _ (match ?x with _ => _ end) => destruct x
      end ].

Section Telemetry.

Context {libb64 : Libb64}.

Variable w : Platform.

Lemma cleanup_telemetry : framed (telemetry_frame w) cleanup.
Proof. unfold cleanup. telemetry_framed. Qed.

Lemma _cleanupChunkedOTA_telemetry : framed (telemetry_frame w) _cleanupChunkedOTA.
Proof. unfold _cleanupChunkedOTA. telemetry_framed. Qed.

Lemma _startChunkedOTA_telemetry chunk :
  framed (telemetry_frame w) (_startChunkedOTA w chunk).
Proof. unfold _startChunkedOTA. telemetry_framed. Qed.

Lemma _processChunkData_telemetry chunk :
  framed (telemetry_frame w) (_processChunkData w chunk).
Proof. unfold _processChunkData. telemetry_framed; apply _cleanupChunkedOTA_telemetry. Qed.

Lemma _completeChunkedOTA_telemetry chunk :
  framed (telemetry_frame w) (_completeChunkedOTA w chunk).
Proof. unfold _completeChunkedOTA. telemetry_framed; apply _cleanupChunkedOTA_telemetry. Qed.

Lemma _processOTAChunk_sequence_telemetry chunk :
  framed (telemetry_frame w) (_processOTAChunk_sequence w chunk).
Proof.
  unfold _processOTAChunk_sequence.
  telemetry_framed;
    first [ apply _cleanupChunkedOTA_telemetry | apply _processChunkData_telemetry
          | apply _completeChunkedOTA_telemetry ].
Qed.

Lemma _processOTAChunk_telemetry m : framed (telemetry_frame w) (_processOTAChunk w m).
Proof.
  unfold _processOTAChunk.
  telemetry_framed;
    first [ apply _cleanupChunkedOTA_telemetry | apply _startChunkedOTA_telemetry
          | apply _processOTAChunk_sequence_telemetry ].
Qed.

Lemma _validateFirmwareData_telemetry d :
  framed (telemetry_frame w) (_validateFirmwareData w d).
Proof. unfold _validateFirmwareData. telemetry_framed. Qed.

Lemma write_slices_telemetry h v d cs fuel :
  forall written i bw,
    framed (telemetry_frame w) (write_slices w h v d cs fuel written i bw).
Proof.
  induction fuel as [|fuel IH]; intros written i bw; cbn [write_slices].
  - telemetry_framed.
  - telemetry_framed. apply IH.
Qed.

Lemma performUpdate_telemetry d v : framed (telemetry_frame w) (performUpdate w d v).
Proof.
  unfold performUpdate, _performOTAUpdateESPIDF.
  telemetry_framed; apply write_slices_telemetry.
Qed.

Lemma _processOTAMessage_telemetry m : framed (telemetry_frame w) (_processOTAMessage w m).
Proof.
  unfold _processOTAMessage.
  telemetry_framed;
    first [ apply _validateFirmwareData_telemetry | apply performUpdate_telemetry
          | apply cleanup_telemetry ].
Qed.

Lemma handle_telemetry : framed (telemetry_frame w) (handle w).
Proof.
  unfold handle.
  telemetry_framed; first [ apply cleanup_telemetry | apply _cleanupChunkedOTA_telemetry ].
Qed.

Lemma processMessage_telemetry topic m :
  framed (telemetry_frame w) (processMessage w topic m).
Proof.
  unfold processMessage.
  telemetry_framed;
    first [ apply _processOTAChunk_telemetry | apply _processOTAMessage_telemetry ].
Qed.

Lemma abortUpdate_telemetry : framed (telemetry_frame w) (abortUpdate w).
Proof.
  unfold abortUpdate, _setState.
  telemetry_framed; first [ apply cleanup_telemetry | apply _cleanupChunkedOTA_telemetry ].
Qed.

(** X22.  Whatever [handle], [processMessage], [performUpdate], [cleanup]
    or [abortUpdate] does, its telemetry keeps to this: a callback is
    invoked only if it is registered; a document is published only when a
    publish function and a connection test are set and the test answers
    yes; each kind of document goes to its own topic ([ota/progress],
    [ota/error], [ota/success], [ota/state]) and carries the device
    identifier; and a progress document carries a multiple of ten. *)
Theorem telemetry_keeps_to_its_gates (op : Op) (o : MQTTOTA) :
  is_update_call op = true ->
  forallb (permitted w o) (events (call w op o)) = true.
Proof.
  intro H.
  assert (K : framed (telemetry_frame w) (call w op)).
  { destruct op; try discriminate H; cbn [call].
    - apply handle_telemetry.
    - apply processMessage_telemetry.
    - telemetry_framed. apply performUpdate_telemetry.
    - apply cleanup_telemetry.
    - apply abortUpdate_telemetry. }
  apply (K o).
Qed.

End Telemetry.

(** ** The open session *)

Section OpenSession.

Context {libb64 : Libb64}.

Lemma call_keeps_an_open_session (w : Platform) (op : Op) (o : MQTTOTA) :
  inProgress (_otaContext o) = true ->
  closes_sessions op = false ->
  session_record (final (call w op o)) = session_record o.
Proof.
  intros Hin Hop.
  destruct op as [n v|pf cf t|n|cb|cb|cb|cb| |topic m|d v|e|cs|a|mr|e|e| |];
    try discriminate Hop; cbn [call]; try reflexivity.
  - (* processMessage *)
    rewrite processMessage_eq. unfold isUpdateInProgress. rewrite Hin, orb_true_r.
    destruct (negb (String.eqb topic (_otaTopic o))); reflexivity.
  - (* performUpdate *)
    pose proof (performUpdate_session w d v o) as [Hc _].
    unfold bind.
    destruct (performUpdate w d v o) as [b o1 e1|h o1 e1];
      cbn [final ret] in *; unfold session_record; rewrite Hc; reflexivity.
Qed.


(** What a first chunk of several does to an idle object. *)
Lemma first_chunk_of_several_outcome (w : Platform) (topic : string)
  (EventType : option string) (details : JsonDetails) (o : MQTTOTA) (p h : Z) :
  topic = _otaTopic o ->
  isUpdateInProgress o = false ->
  _chunkedOTAEnabled o = true ->
  30000 <= getFreeHeap w ->
  is_UpdateFirmwareDevice EventType = true ->
  IsError_or_false details = false ->
  FirmwareVersion_as_String details <> ""%string ->
  Base64Part_as_String details <> ""%string ->
  PartIndex_as_int details = 1 ->
  TotalParts_as_int details <> 0 ->
  TotalParts_as_int details <> 1 ->
  esp_ota_get_next_update_partition w = Some p ->
  esp_ota_begin w = (ESP_OK, h) ->
  h <> 0 ->
  esp_ota_write w 0%nat = ESP_OK ->
  288 <= strlen (base64Decode w (Base64Part_as_String details)) < 4294967296 ->
  exists o' evs,
    processMessage w topic (Json EventType (Some details)) o = Next tt o' evs
    /\ driver_calls evs
       = [OtaBegin p; OtaWrite h (base64Decode w (Base64Part_as_String details))]
    /\ session_record o'
       = ((true, FirmwareVersion_as_String details, 1, TotalParts_as_int details),
          (millis w, strlen (base64Decode w (Base64Part_as_String details)),
           h, Some p))
    /\ isUpdateInProgress o' = true
    /\ progress_reported evs
       = if _progressCallback o
         then [0; int32 (Z.quot 100 (TotalParts_as_int details))]
         else [].
Proof.
  intros Htopic Hidle Hmode Hheap Hevent Herr Hversion Hpayload Hk Hn0 Hn1 Hp Hb Hh
    Hw Hsize.
  rewrite processMessage_eq, Htopic, String.eqb_refl, Hidle, Hmode. cbn [negb].
  replace (getFreeHeap w <? 30000) with false by (symmetry; apply Z.ltb_ge; lia).
  apply orb_false_elim in Hidle. destruct Hidle as [Hflag Hsession].
  apply isEmpty_false in Hversion. apply isEmpty_false in Hpayload.
  apply Z.eqb_neq in Hh.
  assert (Hok : (ESP_OK =? ESP_OK) = true) by reflexivity.
  assert (Hk1 : (PartIndex_as_int details =? 1) = true) by (rewrite Hk; reflexivity).
  assert (Hseq : (PartIndex_as_int details =? int32 (0 + 1)) = true)
    by (rewrite Hk; reflexivity).
  assert (Hlast : (PartIndex_as_int details =? TotalParts_as_int details) = false)
    by (rewrite Hk; apply Z.eqb_neq; congruence).
  assert (Hdiv : int_div (int32 (PartIndex_as_int details * 100))
                   (TotalParts_as_int details)
                 = Some (int32 (Z.quot 100 (TotalParts_as_int details)))).
  { unfold int_div. apply Z.eqb_neq in Hn0. rewrite Hn0, Hk. reflexivity. }
  assert (Hdec : (strlen (base64Decode w (Base64Part_as_String details)) =? 0) = false)
    by (apply Z.eqb_neq; lia).
  assert (Hhdr : _processImageHeader (base64Decode w (Base64Part_as_String details))
                   (strlen (base64Decode w (Base64Part_as_String details))) = true)
    by (apply header_check_passes; lia).
  assert (Hw0 : (esp_ota_write w 0 =? ESP_OK) = true) by (rewrite Hw; reflexivity).
  revert Hp.
  apply sat_outcome
    with (P := fun r =>
                 esp_ota_get_next_update_partition w = Some p ->
                 exists o' evs,
                   r = Next tt o' evs
                   /\ driver_calls evs
                      = [OtaBegin p;
                         OtaWrite h (base64Decode w (Base64Part_as_String details))]
                   /\ session_record o'
                      = ((true, FirmwareVersion_as_String details, 1,
                          TotalParts_as_int details),
                         (millis w,
                          strlen (base64Decode w (Base64Part_as_String details)),
                          h, Some p))
                   /\ isUpdateInProgress o' = true
                   /\ progress_reported evs
                      = if _progressCallback o
                        then [0; int32 (Z.quot 100 (TotalParts_as_int details))]
                        else []).
  wp;
    repeat match goal with
           | H : Some ?z = Some _ |- _ => is_var z; injection H as ->
           | H : None = Some _ |- _ => discriminate H
           | |- Some _ = Some _ -> _ => intro
           | |- None = Some _ -> _ => intro
           | H : Some _ = Some _ |- _ => injection H as <-
           end.
  eexists _, _. split; [reflexivity|].
  course_leaf.
  split; [reflexivity|].
  split.
  { unfold session_record. proj. rewrite Hk, uint32_small by lia. reflexivity. }
  split; [unfold isUpdateInProgress; proj; apply orb_true_r|].
  destruct (_progressCallback o); reflexivity.
Qed.

(** X24.  On an idle object in chunked mode, a first chunk of several whose
    payload decodes to at least 288 bytes opens the session when the driver
    accepts: the driver sees [esp_ota_begin] and one write of the decoded
    payload; the call returns with the session in progress on the handle
    and partition handed out, one part and the decoded bytes counted, the
    chunk's total and version pinned and the clock read as start time; the
    progress callback sees 0 and then 100 divided by the total. *)
Theorem first_chunk_of_several_opens_the_session (w : Platform) (topic : string)
  (EventType : option string) (details : JsonDetails) (o : MQTTOTA) (p h : Z) :
  topic = _otaTopic o ->
  isUpdateInProgress o = false ->
  _chunkedOTAEnabled o = true ->
  30000 <= getFreeHeap w ->
  is_UpdateFirmwareDevice EventType = true ->
  IsError_or_false details = false ->
  FirmwareVersion_as_String details <> ""%string ->
  Base64Part_as_String details <> ""%string ->
  PartIndex_as_int details = 1 ->
  TotalParts_as_int details <> 0 ->
  TotalParts_as_int details <> 1 ->
  esp_ota_get_next_update_partition w = Some p ->
  esp_ota_begin w = (ESP_OK, h) ->
  h <> 0 ->
  esp_ota_write w 0%nat = ESP_OK ->
  288 <= strlen (base64Decode w (Base64Part_as_String details)) < 4294967296 ->
  exists o' evs,
    processMessage w topic (Json EventType (Some details)) o = Next tt o' evs
    /\ driver_calls evs
       = [OtaBegin p; OtaWrite h (base64Decode w (Base64Part_as_String details))]
    /\ session_record o'
       = ((true, FirmwareVersion_as_String details, 1, TotalParts_as_int details),
          (millis w, strlen (base64Decode w (Base64Part_as_String details)),
           h, Some p))
    /\ isUpdateInProgress o' = true
    /\ progress_reported evs
       = if _progressCallback o
         then [0; int32 (Z.quot 100 (TotalParts_as_int details))]
         else [].
Proof.
  intros. eapply first_chunk_of_several_outcome; eassumption.
Qed.

(** X26.  A first chunk whose [TotalParts] reads as 0 -- as it does when
    the key is missing -- is not refused: the session is opened and the
    decoded payload is written, and then the handler evaluates
    [partIndex * 100 / totalParts] with a zero divisor.  At that point the
    session is in progress on the handle handed out, with total 0; nothing
    has been aborted and no error has been reported. *)
Theorem first_chunk_with_total_zero_divides_by_zero (w : Platform) (topic : string)
  (EventType : option string) (details : JsonDetails) (o : MQTTOTA) (p h : Z) :
  topic = _otaTopic o ->
  isUpdateInProgress o = false ->
  _chunkedOTAEnabled o = true ->
  30000 <= getFreeHeap w ->
  is_UpdateFirmwareDevice EventType = true ->
  IsError_or_false details = false ->
  FirmwareVersion_as_String details <> ""%string ->
  Base64Part_as_String details <> ""%string ->
  PartIndex_as_int details = 1 ->
  TotalParts_as_int details = 0 ->
  esp_ota_get_next_update_partition w = Some p ->
  esp_ota_begin w = (ESP_OK, h) ->
  h <> 0 ->
  esp_ota_write w 0%nat = ESP_OK ->
  288 <= strlen (base64Decode w (Base64Part_as_String details)) ->
  exists o' evs,
    processMessage w topic (Json EventType (Some details)) o
    = Stop DivideByZero o' evs
    /\ driver_calls evs
       = [OtaBegin p; OtaWrite h (base64Decode w (Base64Part_as_String details))]
    /\ inProgress (_otaContext o') = true
    /\ update_handle (_otaContext o') = h
    /\ totalParts (_otaContext o') = 0
    /\ error_messages evs = [].
Proof.
  intros Htopic Hidle Hmode Hheap Hevent Herr Hversion Hpayload Hk Hn Hp Hb Hh Hw Hsize.
  rewrite processMessage_eq, Htopic, String.eqb_refl, Hidle, Hmode. cbn [negb].
  replace (getFreeHeap w <? 30000) with false by (symmetry; apply Z.ltb_ge; lia).
  apply orb_false_elim in Hidle. destruct Hidle as [Hflag Hsession].
  apply isEmpty_false in Hversion. apply isEmpty_false in Hpayload.
  apply Z.eqb_neq in Hh.
  assert (Hok : (ESP_OK =? ESP_OK) = true) by reflexivity.
  assert (Hk1 : (PartIndex_as_int details =? 1) = true) by (rewrite Hk; reflexivity).
  assert (Hseq : (PartIndex_as_int details =? int32 (0 + 1)) = true)
    by (rewrite Hk; reflexivity).
  assert (Hdiv : int_div (int32 (PartIndex_as_int details * 100))
                   (TotalParts_as_int details) = None)
    by (rewrite Hn; reflexivity).
  assert (Hdec : (strlen (base64Decode w (Base64Part_as_String details)) =? 0) = false)
    by (apply Z.eqb_neq; lia).
  assert (Hhdr : _processImageHeader (base64Decode w (Base64Part_as_String details))
                   (strlen (base64Decode w (Base64Part_as_String details))) = true)
    by (apply header_check_passes; lia).
  assert (Hw0 : (esp_ota_write w 0 =? ESP_OK) = true) by (rewrite Hw; reflexivity).
  revert Hp.
  apply sat_outcome
    with (P := fun r =>
                 esp_ota_get_next_update_partition w = Some p ->
                 exists o' evs,
                   r = Stop DivideByZero o' evs
                   /\ driver_calls evs
                      = [OtaBegin p;
                         OtaWrite h (base64Decode w (Base64Part_as_String details))]
                   /\ inProgress (_otaContext o') = true
                   /\ update_handle (_otaContext o') = h
                   /\ totalParts (_otaContext o') = 0
                   /\ error_messages evs = []).
  wp;
    repeat match goal with
           | H : None = Some _ |- _ => discriminate H
           | H : Some _ = None |- _ => discriminate H
           | |- Some _ = Some _ -> _ => intro
           | |- None = Some _ -> _ => intro
           | H : Some _ = Some _ |- _ => injection H as <-
           end.
  eexists _, _. split; [reflexivity|].
  course_leaf.
  split; [reflexivity|]. split; [reflexivity|]. split; [reflexivity|].
  split; [exact Hn|].
  cbn [app]. rewrite progress_events_eq.
  match goal with
  | |- context [if ?a then [ProgressCallback _ _] else []] => destruct a
  end;
  match goal with
  | |- context [if ?a then [PublishMQTT _ _] else []] => destruct a
  end; reflexivity.
Qed.

(** C2, as the code does it.  Part 1 of several, delivered through
    [processMessage] to an idle object, opens the session with the part
    counter at 1 and the chunk's total pinned.  The next part -- index
    [currentPart + 1], the pinned total -- delivered the same way is then
    not accepted: the call returns with the object as it was and without an
    event, so nothing is written and the part counter stays at 1.  Nor is
    any other index fatal: every message is dropped in that way, without
    error, abort or reset.  The comparison with [currentPart + 1] in
    [_processOTAChunk] is never reached for an open session. *)
Theorem part_in_sequence_is_dropped_by_processMessage (w w' : Platform)
  (topic : string) (EventType : option string) (details next : JsonDetails)
  (o : MQTTOTA) (p h : Z) :
  topic = _otaTopic o ->
  isUpdateInProgress o = false ->
  _chunkedOTAEnabled o = true ->
  30000 <= getFreeHeap w ->
  is_UpdateFirmwareDevice EventType = true ->
  IsError_or_false details = false ->
  FirmwareVersion_as_String details <> ""%string ->
  Base64Part_as_String details <> ""%string ->
  PartIndex_as_int details = 1 ->
  TotalParts_as_int details <> 0 ->
  TotalParts_as_int details <> 1 ->
  esp_ota_get_next_update_partition w = Some p ->
  esp_ota_begin w = (ESP_OK, h) ->
  h <> 0 ->
  esp_ota_write w 0%nat = ESP_OK ->
  288 <= strlen (base64Decode w (Base64Part_as_String details)) < 4294967296 ->
  PartIndex_as_int next = 2 ->
  TotalParts_as_int next = TotalParts_as_int details ->
  let live := final (processMessage w topic (Json EventType (Some details)) o) in
  let r := processMessage w' topic (Json EventType (Some next)) live in
  inProgress (_otaContext live) = true
  /\ totalParts (_otaContext live) = TotalParts_as_int next
  /\ PartIndex_as_int next = currentPart (_otaContext live) + 1
  /\ r = Next tt live []
  /\ written_data (events r) = []
  /\ currentPart (_otaContext (final r)) = 1
  /\ (forall w'' topic'' m, processMessage w'' topic'' m live = Next tt live []).
Proof.
  intros Htopic Hidle Hmode Hheap Hevent Herr Hversion Hpayload Hk Hn0 Hn1 Hp Hb Hh
    Hw Hsize Hk2 Hn2 live r.
  destruct (first_chunk_of_several_outcome w topic EventType details o p h
              Htopic Hidle Hmode Hheap Hevent Herr Hversion Hpayload Hk Hn0 Hn1 Hp Hb
              Hh Hw Hsize) as (o' & evs & Heq & _ & Hrec & _).
  assert (Hlive : live = o') by (subst live; rewrite Heq; reflexivity).
  unfold session_record in Hrec. cbv zeta in Hrec.
  injection Hrec as Hin _ Hcur Htot _ _ _ _.
  rewrite <- Hlive in Hin, Hcur, Htot.
  assert (Hdrop : forall w'' topic'' m, processMessage w'' topic'' m live = Next tt live []).
  { intros w'' topic'' m. rewrite processMessage_eq. unfold isUpdateInProgress.
    rewrite Hin, orb_true_r.
    destruct (negb (String.eqb topic'' (_otaTopic live))); reflexivity. }
  subst r. rewrite Hdrop. cbn [events final written_data flat_map].
  repeat split; auto; try congruence. rewrite Hcur, Hk2. reflexivity.
Qed.

(** C4.  While a chunked session is in progress, whatever arrives through
    [processMessage] -- a new part 1, a chunk with [IsError] set, a chunk
    with an empty payload, anything else -- is dropped with no side effect
    on the live session: the call returns with the object as it was, so the
    handle, the partition, [currentPart] and [receivedSize] are unchanged
    and the session is still in progress, and without an event, so nothing
    is aborted and nothing is reported. *)
Theorem in_session_messages_are_dropped_without_side_effects (w : Platform)
  (topic : string) (m : Message) (o : MQTTOTA) :
  inProgress (_otaContext o) = true ->
  let r := processMessage w topic m o in
  r = Next tt o []
  /\ inProgress (_otaContext (final r)) = true
  /\ update_handle (_otaContext (final r)) = update_handle (_otaContext o)
  /\ update_partition (_otaContext (final r)) = update_partition (_otaContext o)
  /\ currentPart (_otaContext (final r)) = currentPart (_otaContext o)
  /\ receivedSize (_otaContext (final r)) = receivedSize (_otaContext o)
  /\ aborted_handles (events r) = []
  /\ error_messages (events r) = [].
Proof.
  intros Hin r.
  assert (E : r = Next tt o []).
  { subst r. rewrite processMessage_eq. unfold isUpdateInProgress.
    rewrite Hin, orb_true_r.
    destruct (negb (String.eqb topic (_otaTopic o))); reflexivity. }
  rewrite E. cbn [final events aborted_handles error_messages flat_map].
  repeat split; auto.
Qed.

End OpenSession.

(** ** Options that are stored and never read *)

Lemma blind_bind {A B : Type} (c : M A) (k : A -> M B) :
  blind c -> (forall a, blind (k a)) -> blind (bind c k).
Proof.
  intros Hc Hk o1 o2 Ho. unfold bind.
  pose proof (Hc o1 o2 Ho) as H1.
  destruct (c o1) as [a1 p1 e1|h1 p1 e1], (c o2) as [a2 p2 e2|h2 p2 e2];
    cbn [same_outcome] in *; try contradiction.
  - destruct H1 as (Ha & Hp & He). subst a2 e2.
    pose proof (Hk a1 p1 p2 Hp) as H2.
    destruct (k a1 p1) as [b1 q1 f1|g1 q1 f1], (k a1 p2) as [b2 q2 f2|g2 q2 f2];
      cbn [same_outcome] in *; try contradiction;
      destruct H2 as (Hb & Hq & Hf); subst; auto.
  - exact H1.
Qed.

Lemma blind_bind_get {B : Type} (k : MQTTOTA -> M B) :
  (forall o1 o2, core o1 = core o2 -> respects eq (k o1) (k o2)) -> blind (bind get k).
Proof.
  intros Hk o1 o2 Ho. unfold bind, get.
  pose proof (Hk o1 o2 Ho o1 o2 Ho) as H.
  destruct (k o1 o1) as [b1 q1 f1|g1 q1 f1], (k o2 o2) as [b2 q2 f2|g2 q2 f2];
    cbn [same_outcome app] in *; try contradiction; exact H.
Qed.

Lemma blind_ret {A : Type} (a : A) : blind (ret a).
Proof. intros o1 o2 Ho. cbn. auto. Qed.

Lemma blind_halt {A : Type} (h : Halt) : blind (@halt A h).
Proof. intros o1 o2 Ho. cbn. auto. Qed.

Lemma blind_emit (e : Event) : blind (emit e).
Proof. intros o1 o2 Ho. cbn. auto. Qed.

Lemma blind_modify (f : MQTTOTA -> MQTTOTA) :
  (forall o1 o2, core o1 = core o2 -> core (f o1) = core (f o2)) -> blind (modify f).
Proof. intros Hf o1 o2 Ho. cbn. auto. Qed.

Lemma blind_when (b : bool) (c : M unit) : blind c -> blind (when b c).
Proof. intro Hc. destruct b; [exact Hc|apply blind_ret]. Qed.

(** After [get], the members of the second object that the method reads are
    those of the first. *)
Ltac read_core Ho :=
  let H := fresh in
  pose proof Ho as H; unfold core in H;
  injection H as ? ? ? ? ? ? ? ? ? ? ? ? ? ? ? ? ? ? ? ? ? ? ? ? ?;
  repeat match goal with
         | E : ?f ?o = ?f ?o' |- _ => try rewrite <- E; clear E
         | E : ?f (?g ?o) = ?f (?g ?o') |- _ => try rewrite <- E; clear E
         end.

Ltac blind_step :=
  lazymatch goal with
  | |- blind (ret _) => apply blind_ret
  | |- blind (halt _) => apply blind_halt
  | |- blind (emit _) => apply blind_emit
  | |- blind (when _ _) => apply blind_when
  | |- blind (modify _) =>
      apply blind_modify;
      let o1 := fresh "o" in let o2 := fresh "o" in let Ho := fresh "Ho" in
      intros o1 o2 Ho; unfold core in *; proj; solve [congruence]
  | |- blind (bind get _) =>
      apply blind_bind_get;
      let o1 := fresh "o" in let o2 := fresh "o" in let Ho := fresh "Ho" in
      intros o1 o2 Ho; cbv beta zeta; read_core Ho;
      match goal with |- respects eq ?c ?c => change (blind c) end
  | |- blind (bind _ _) => apply blind_bind; [|intro]
  | |- blind (if ?b then _ else _) => destruct b
  | |- blind (match ?x with _ => _ end) => destruct x
  | |- blind (let _ := _ in _) => cbv zeta
  | |- blind ((fun _ => _) _) => cbv beta
  end.

Ltac blindly := repeat blind_step.

Section Blind.

Context {libb64 : Libb64}.

Variable w : Platform.

Lemma _publishError_blind m v : blind (_publishError w m v).
Proof. unfold _publishError, transport_up. blindly. Qed.

Lemma _publishSuccess_blind v : blind (_publishSuccess w v).
Proof. unfold _publishSuccess, transport_up. blindly. Qed.

Lemma _publishProgress_blind p v : blind (_publishProgress w p v).
Proof. unfold _publishProgress, transport_up. blindly. Qed.

Lemma _publishStateChange_blind s : blind (_publishStateChange w s).
Proof. unfold _publishStateChange, transport_up. blindly. Qed.

Lemma _setState_blind s : blind (_setState w s).
Proof. unfold _setState. blindly. apply _publishStateChange_blind. Qed.

Lemma cleanup_blind : blind cleanup.
Proof. unfold cleanup. blindly. Qed.

Lemma _cleanupChunkedOTA_blind : blind _cleanupChunkedOTA.
Proof. unfold _cleanupChunkedOTA. blindly. Qed.

Ltac blind_calls :=
  first [ apply _publishError_blind | apply _publishSuccess_blind
        | apply _publishProgress_blind | apply _setState_blind
        | apply cleanup_blind | apply _cleanupChunkedOTA_blind ].

Lemma _startChunkedOTA_blind chunk : blind (_startChunkedOTA w chunk).
Proof. unfold _startChunkedOTA. blindly; blind_calls. Qed.

Lemma _processChunkData_blind chunk : blind (_processChunkData w chunk).
Proof. unfold _processChunkData. blindly; blind_calls. Qed.

Lemma _completeChunkedOTA_blind chunk : blind (_completeChunkedOTA w chunk).
Proof. unfold _completeChunkedOTA. blindly; blind_calls. Qed.

Lemma _processOTAChunk_sequence_blind chunk : blind (_processOTAChunk_sequence w chunk).
Proof.
  unfold _processOTAChunk_sequence.
  blindly;
    first [ blind_calls | apply _processChunkData_blind | apply _completeChunkedOTA_blind ].
Qed.

Lemma _processOTAChunk_blind m : blind (_processOTAChunk w m).
Proof.
  unfold _processOTAChunk.
  blindly;
    first [ blind_calls | apply _startChunkedOTA_blind
          | apply _processOTAChunk_sequence_blind ].
Qed.

Lemma _validateFirmwareData_blind d : blind (_validateFirmwareData w d).
Proof. unfold _validateFirmwareData. blindly; blind_calls. Qed.

Lemma write_slices_blind h v d cs fuel :
  forall written i bw, blind (write_slices w h v d cs fuel written i bw).
Proof.
  induction fuel as [|fuel IH]; intros written i bw; cbn [write_slices].
  - blindly.
  - blindly; first [ blind_calls | apply IH ].
Qed.

Lemma performUpdate_blind d v : blind (performUpdate w d v).
Proof.
  unfold performUpdate, _performOTAUpdateESPIDF.
  blindly; first [ blind_calls | apply write_slices_blind ].
Qed.

Lemma _processOTAMessage_blind m : blind (_processOTAMessage w m).
Proof.
  unfold _processOTAMessage.
  blindly;
    first [ blind_calls | apply _validateFirmwareData_blind | apply performUpdate_blind ].
Qed.

Lemma handle_blind : blind (handle w).
Proof. unfold handle. blindly; blind_calls. Qed.

Lemma processMessage_blind topic m : blind (processMessage w topic m).
Proof.
  unfold processMessage, isUpdateInProgress.
  blindly; first [ apply _processOTAChunk_blind | apply _processOTAMessage_blind ].
Qed.

Lemma abortUpdate_blind : blind (abortUpdate w).
Proof. unfold abortUpdate, isUpdateInProgress. blindly; blind_calls. Qed.

Lemma update_call_blind op : is_update_call op = true -> blind (call w op).
Proof.
  destruct op; intro H; try discriminate H; cbn [call].
  - apply handle_blind.
  - apply processMessage_blind.
  - blindly. apply performUpdate_blind.
  - apply cleanup_blind.
  - apply abortUpdate_blind.
Qed.

(** X25.  The auto-reset option, the retry limit and counter, the partition
    name and the rollback and version-check flags are stored and never
    read: two objects that differ only in these members behave alike under
    [handle], [processMessage], [performUpdate], [cleanup] and
    [abortUpdate] -- the same events in the same order, the same way of
    ending (return, or stop for the same reason), and objects that again
    differ only in these members. *)
Theorem policy_options_are_never_read (op : Op) (o1 o2 : MQTTOTA) :
  is_update_call op = true ->
  core o1 = core o2 ->
  events (call w op o1) = events (call w op o2)
  /\ returned (call w op o1) = returned (call w op o2)
  /\ core (final (call w op o1)) = core (final (call w op o2)).
Proof.
  intros Hop Ho.
  pose proof (update_call_blind op Hop o1 o2 Ho) as H.
  destruct (call w op o1) as [a1 p1 e1|h1 p1 e1], (call w op o2) as [a2 p2 e2|h2 p2 e2];
    cbn [same_outcome events returned final] in *; try contradiction;
    destruct H as (_ & Hp & He); auto.
Qed.

End Blind.

(** ** Instances *)

Section Instances.

Import Scenario.
Import Bench.

Lemma board_drivers_succeed (now : Z) : drivers_succeed (board now) 1 7.
Proof. repeat split. Defined.

Lemma calculateBase64DecodedSize_of_an_encoding_witness :
  calculateBase64DecodedSize (RefB64.encode "firmware image") = 14.
Proof.
  apply (calculateBase64DecodedSize_of_an_encoding "firmware image").
  vm_compute. reflexivity.
Defined.

Lemma checkFirmwareCompatibility_accepts_exactly_witness :
  checkFirmwareCompatibility "2.1.0-rc1" = false
  /\ checkFirmwareCompatibility "2.1.0-1" = true.
Proof.
  split.
  - rewrite (checkFirmwareCompatibility_accepts_exactly "2.1.0-rc1");
      [reflexivity | vm_compute; reflexivity].
  - rewrite (checkFirmwareCompatibility_accepts_exactly "2.1.0-1");
      [reflexivity | vm_compute; reflexivity].
Defined.

Lemma base64Decode_is_the_library_below_66666_characters_witness :
  base64Decode (libb64 := reference_libb64) (board 0) (bytes 66666) = ""%string
  /\ base64Decode (libb64 := reference_libb64) (board 0) "QUJD" = "ABC"%string.
Proof.
  split.
  - rewrite (base64Decode_is_the_library_below_66666_characters
               (libb64 := reference_libb64) (board 0) (bytes 66666)).
    + rewrite strlen_bytes by lia. reflexivity.
    + rewrite strlen_bytes by lia. lia.
  - rewrite (base64Decode_is_the_library_below_66666_characters
               (libb64 := reference_libb64) (board 0) "QUJD").
    + reflexivity.
    + vm_compute. discriminate.
Defined.

Lemma performUpdate_follows_the_driver_protocol_witness :
  returned (performUpdate (libb64 := reference_libb64) (board 1000)
              (RefB64.encode (bytes 300)) "2.0.0" plain_device) = true.
Proof.
  destruct (performUpdate_follows_the_driver_protocol (libb64 := reference_libb64)
              (board 1000) (RefB64.encode (bytes 300)) "2.0.0" plain_device)
    as (b & o' & evs & Heq & _).
  - vm_compute. discriminate.
  - vm_compute. discriminate.
  - rewrite Heq. reflexivity.
Defined.

Lemma performUpdate_installs_the_decoded_image_witness :
  exists o' evs,
    performUpdate (libb64 := reference_libb64) (board 1000)
      (RefB64.encode (bytes 300)) "2.0.0" plain_device = Next true o' evs
    /\ getProgress o' = 100.
Proof.
  destruct (performUpdate_installs_the_decoded_image (libb64 := reference_libb64)
              (board 1000) (RefB64.encode (bytes 300)) "2.0.0" plain_device 1 7)
    as (o' & evs & slices & Heq & _ & _ & _ & Hprog).
  - vm_compute. discriminate.
  - apply board_drivers_succeed.
  - vm_compute. discriminate.
  - vm_compute. discriminate.
  - vm_compute. discriminate.
  - exists o', evs. split; [exact Heq|exact Hprog].
Defined.

Lemma performUpdate_refuses_a_first_slice_below_288_bytes_witness :
  aborted_handles
    (events (performUpdate (libb64 := reference_libb64) (board 1000)
               (RefB64.encode (bytes 300)) "2.0.0" (setChunkSize 256 plain_device)))
  = [7].
Proof.
  rewrite (performUpdate_refuses_a_first_slice_below_288_bytes
             (libb64 := reference_libb64) (board 1000) (RefB64.encode (bytes 300))
             "2.0.0" (setChunkSize 256 plain_device) 1 7).
  - reflexivity.
  - vm_compute. discriminate.
  - vm_compute. discriminate.
  - reflexivity.
  - reflexivity.
  - vm_compute. reflexivity.
Defined.

Lemma single_message_update_installs_and_restarts_witness :
  exists o' evs,
    processMessage (libb64 := reference_libb64) (board 1000) "ota"
      (whole (bytes 300)) plain_device = Stop Rebooted o' evs.
Proof.
  destruct (single_message_update_installs_and_restarts (libb64 := reference_libb64)
              (board 1000) "ota" (Some "UpdateFirmwareDevice"%string)
              (whole_details (bytes 300)) plain_device 1 7)
    as (o' & evs & pre & slices & Heq & _).
  - reflexivity.
  - reflexivity.
  - reflexivity.
  - vm_compute. discriminate.
  - reflexivity.
  - vm_compute. discriminate.
  - vm_compute. discriminate.
  - vm_compute. reflexivity.
  - apply board_drivers_succeed.
  - vm_compute. discriminate.
  - vm_compute. discriminate.
  - vm_compute. discriminate.
  - exists o', evs. exact Heq.
Defined.

Lemma single_message_mode_restarts_or_leaves_no_update_in_progress_witness :
  let r := processMessage (libb64 := reference_libb64) (board 1000) "ota"
             (whole (bytes 100)) plain_device in
  returned r = false \/ isUpdateInProgress (final r) = false.
Proof.
  intro r.
  destruct (single_message_mode_restarts_or_leaves_no_update_in_progress
              (libb64 := reference_libb64) (board 1000) "ota"
              (Some "UpdateFirmwareDevice"%string) (whole_details (bytes 100))
              plain_device)
    as [(o' & evs & Heq & _)|(o' & evs & Heq & Hidle & _)].
  - reflexivity.
  - reflexivity.
  - vm_compute. discriminate.
  - vm_compute. discriminate.
  - left. subst r. unfold whole. rewrite Heq. reflexivity.
  - right. subst r. unfold whole. rewrite Heq. exact Hidle.
Defined.

Lemma unusable_messages_are_dropped_without_a_trace_witness :
  processMessage (libb64 := reference_libb64) (board 1000) "ota/other"
    (part 1 3 (bytes 400)) device = Next tt device []
  /\ processMessage (libb64 := reference_libb64) (board 1000) "ota" Malformed device
     = Next tt device [].
Proof.
  split.
  - apply (unusable_messages_are_dropped_without_a_trace (libb64 := reference_libb64)).
    left. vm_compute. discriminate.
  - apply (unusable_messages_are_dropped_without_a_trace (libb64 := reference_libb64)).
    right. right. left. reflexivity.
Defined.

Lemma chunked_update_in_one_part_installs_and_restarts_witness :
  exists o' evs,
    processMessage (libb64 := reference_libb64) (board 1000) "ota"
      (part 1 1 (bytes 1200)) device = Stop Rebooted o' evs
    /\ progress_reported evs = [0; 100; 90; 95; 100].
Proof.
  destruct (chunked_update_in_one_part_installs_and_restarts (libb64 := reference_libb64)
              (board 1000) "ota" (Some "UpdateFirmwareDevice"%string)
              (part_details 1 1 (bytes 1200)) device 1 7)
    as (o' & evs & Heq & _ & _ & Hprog).
  - reflexivity.
  - reflexivity.
  - reflexivity.
  - vm_compute. discriminate.
  - reflexivity.
  - reflexivity.
  - vm_compute. discriminate.
  - vm_compute. discriminate.
  - reflexivity.
  - reflexivity.
  - apply board_drivers_succeed.
  - lia.
  - vm_compute. split; [discriminate|reflexivity].
  - exists o', evs. split; [exact Heq|exact Hprog].
Defined.

Lemma first_chunk_below_288_bytes_is_refused_unwritten_witness :
  exists o' evs,
    processMessage (libb64 := reference_libb64) (board 1000) "ota"
      (part 1 3 (bytes 100)) device = Next tt o' evs
    /\ driver_calls evs = [OtaBegin 1; OtaAbort 7].
Proof.
  destruct (first_chunk_below_288_bytes_is_refused_unwritten (libb64 := reference_libb64)
              (board 1000) "ota" (Some "UpdateFirmwareDevice"%string)
              (part_details 1 3 (bytes 100)) device 1 7)
    as (o' & evs & Heq & Hcalls & _).
  - reflexivity.
  - reflexivity.
  - reflexivity.
  - vm_compute. discriminate.
  - reflexivity.
  - reflexivity.
  - vm_compute. discriminate.
  - vm_compute. discriminate.
  - reflexivity.
  - reflexivity.
  - reflexivity.
  - lia.
  - vm_compute. split; reflexivity.
  - exists o', evs. split; [exact Heq|exact Hcalls].
Defined.

Lemma first_chunk_opens_no_session_when_the_driver_refuses_witness :
  isUpdateInProgress
    (final (processMessage (libb64 := reference_libb64) (board_without_partition 1000)
              "ota" (part 1 3 (bytes 400)) device)) = false.
Proof.
  destruct (first_chunk_opens_no_session_when_the_driver_refuses
              (libb64 := reference_libb64) (board_without_partition 1000) "ota"
              (Some "UpdateFirmwareDevice"%string) (part_details 1 3 (bytes 400)) device)
    as (evs & Heq & _).
  - reflexivity.
  - reflexivity.
  - reflexivity.
  - vm_compute. discriminate.
  - reflexivity.
  - reflexivity.
  - vm_compute. discriminate.
  - vm_compute. discriminate.
  - reflexivity.
  - left. reflexivity.
  - unfold part. rewrite Heq. reflexivity.
Defined.

Lemma chunk_in_sequence_is_written_once_and_counted_witness :
  exists o' evs,
    _processOTAChunk (libb64 := reference_libb64) (board 2000)
      (part 2 3 (bytes 400)) live = Next tt o' evs
    /\ driver_calls evs = [OtaWrite 7 (bytes 400)]
    /\ getProgress o' = 66.
Proof.
  destruct (chunk_in_sequence_is_written_once_and_counted (libb64 := reference_libb64)
              (board 2000) (Some "UpdateFirmwareDevice"%string)
              (part_details 2 3 (bytes 400)) live)
    as (o' & evs & Heq & Hcalls & _ & _ & _ & _ & Hprog & _).
  - reflexivity.
  - reflexivity.
  - vm_compute. discriminate.
  - reflexivity.
  - vm_compute. discriminate.
  - vm_compute. discriminate.
  - vm_compute. discriminate.
  - reflexivity.
  - vm_compute. discriminate.
  - reflexivity.
  - vm_compute. discriminate.
  - vm_compute. discriminate.
  - exists o', evs. split; [exact Heq|]. split.
    + rewrite Hcalls. vm_compute. reflexivity.
    + rewrite Hprog. reflexivity.
Defined.

Lemma last_chunk_in_sequence_completes_the_update_witness :
  exists o' evs,
    _processOTAChunk (libb64 := reference_libb64) (board 4000)
      (part 4 4 (bytes 400)) nearly_done = Stop Rebooted o' evs
    /\ driver_calls evs = [OtaWrite 7 (bytes 400); OtaEnd 7; OtaSetBoot (Some 1)].
Proof.
  destruct (last_chunk_in_sequence_completes_the_update (libb64 := reference_libb64)
              (board 4000) (Some "UpdateFirmwareDevice"%string)
              (part_details 4 4 (bytes 400)) nearly_done)
    as (o' & evs & Heq & Hcalls & _).
  - reflexivity.
  - reflexivity.
  - vm_compute. discriminate.
  - reflexivity.
  - vm_compute. discriminate.
  - vm_compute. discriminate.
  - vm_compute. discriminate.
  - vm_compute. discriminate.
  - reflexivity.
  - vm_compute. discriminate.
  - reflexivity.
  - vm_compute. discriminate.
  - reflexivity.
  - reflexivity.
  - reflexivity.
  - exists o', evs. split; [exact Heq|].
    rewrite Hcalls. vm_compute. reflexivity.
Defined.

Lemma update_calls_leave_the_configuration_witness :
  configuration
    (final (call (libb64 := reference_libb64) (board 1000)
              (Op_processMessage "ota" (part 1 3 (bytes 400))) device))
  = configuration device.
Proof.
  apply (update_calls_leave_the_configuration (libb64 := reference_libb64)).
  reflexivity.
Defined.

Lemma single_message_timeout_never_fires_witness :
  let r := run (libb64 := reference_libb64) failed_single_message_update
             (MQTTOTA_ctor "A1B2C3D4E5F6") in
  let r' := run (libb64 := reference_libb64) then_a_first_chunk
              (MQTTOTA_ctor "A1B2C3D4E5F6") in
  (aborted_handles (events r) = [7]
   /\ progress_reported (events r) = [10; 25]
   /\ _otaInProgress (final r) = false
   /\ handle (board 900000) (final r) = Next tt (final r) [])
  /\ (written_data (events r') = [(7, bytes 400)]
      /\ _otaInProgress (final r') = false
      /\ isUpdateInProgress (final r') = true
      /\ update_handle (_otaContext (final r')) <> 0).
Proof.
  intros r r'.
  destruct (single_message_timeout_never_fires (libb64 := reference_libb64)
              "A1B2C3D4E5F6" failed_single_message_update (board 900000))
    as (H1 & _ & _ & H4); [vm_compute; reflexivity|].
  destruct (single_message_timeout_never_fires (libb64 := reference_libb64)
              "A1B2C3D4E5F6" then_a_first_chunk (board 900000))
    as (H1' & H2' & H3' & _); [vm_compute; reflexivity|].
  fold r in H1, H4. fold r' in H1', H2', H3'.
  split; [|split; [|split; [|split]]].
  - split; [vm_compute; reflexivity|]. split; [vm_compute; reflexivity|].
    split; [exact H1|]. apply H4. vm_compute. reflexivity.
  - vm_compute. reflexivity.
  - exact H1'.
  - rewrite H2'. vm_compute. reflexivity.
  - apply H3'. vm_compute. reflexivity.
Defined.

Lemma telemetry_keeps_to_its_gates_witness :
  forallb (permitted (board 1000) device)
    (events (call (libb64 := reference_libb64) (board 1000)
               (Op_processMessage "ota" (part 1 1 (bytes 1200))) device))
  = true.
Proof.
  apply (telemetry_keeps_to_its_gates (libb64 := reference_libb64)).
  reflexivity.
Defined.


Lemma first_chunk_of_several_opens_the_session_witness :
  exists o' evs,
    processMessage (libb64 := reference_libb64) (board 1000) "ota"
      (part 1 3 (bytes 400)) device = Next tt o' evs
    /\ progress_reported evs = [0; 33].
Proof.
  destruct (first_chunk_of_several_opens_the_session (libb64 := reference_libb64)
              (board 1000) "ota" (Some "UpdateFirmwareDevice"%string)
              (part_details 1 3 (bytes 400)) device 1 7)
    as (o' & evs & Heq & _ & _ & _ & Hprog).
  - reflexivity.
  - reflexivity.
  - reflexivity.
  - vm_compute. discriminate.
  - reflexivity.
  - reflexivity.
  - vm_compute. discriminate.
  - vm_compute. discriminate.
  - reflexivity.
  - vm_compute. discriminate.
  - vm_compute. discriminate.
  - reflexivity.
  - reflexivity.
  - lia.
  - reflexivity.
  - vm_compute. split; [discriminate|reflexivity].
  - exists o', evs. split; [exact Heq|exact Hprog].
Defined.

Lemma policy_options_are_never_read_witness :
  let configured :=
    setAutoReset false
      (setMaxRetries 7
         (setPartitionName "ota_1"
            (enableRollbackProtection false (enableVersionCheck false device)))) in
  events (call (libb64 := reference_libb64) (board 1000)
            (Op_processMessage "ota" (part 1 1 (bytes 1200))) configured)
  = events (call (libb64 := reference_libb64) (board 1000)
              (Op_processMessage "ota" (part 1 1 (bytes 1200))) device).
Proof.
  intro configured.
  apply (policy_options_are_never_read (libb64 := reference_libb64) (board 1000)
           (Op_processMessage "ota" (part 1 1 (bytes 1200))) configured device).
  - reflexivity.
  - reflexivity.
Defined.

Lemma first_chunk_with_total_zero_divides_by_zero_witness :
  exists o' evs,
    processMessage (libb64 := reference_libb64) (board 1000) "ota"
      (part 1 0 (bytes 400)) device = Stop DivideByZero o' evs.
Proof.
  destruct (first_chunk_with_total_zero_divides_by_zero (libb64 := reference_libb64)
              (board 1000) "ota" (Some "UpdateFirmwareDevice"%string)
              (part_details 1 0 (bytes 400)) device 1 7)
    as (o' & evs & Heq & _).
  - reflexivity.
  - reflexivity.
  - reflexivity.
  - vm_compute. discriminate.
  - reflexivity.
  - reflexivity.
  - vm_compute. discriminate.
  - vm_compute. discriminate.
  - reflexivity.
  - reflexivity.
  - reflexivity.
  - reflexivity.
  - lia.
  - reflexivity.
  - vm_compute. discriminate.
  - exists o', evs. exact Heq.
Defined.

(** *** The claims on messages during a session and on the state field *)

Lemma part_in_sequence_is_dropped_by_processMessage_witness :
  let r := processMessage (libb64 := reference_libb64) (board 2000) "ota"
             (part 2 3 (bytes 400)) live in
  currentPart (_otaContext live) = 1
  /\ totalParts (_otaContext live) = 3
  /\ r = Next tt live []
  /\ written_data (events r) = [].
Proof.
  intro r.
  destruct (part_in_sequence_is_dropped_by_processMessage (libb64 := reference_libb64)
              (board 1000) (board 2000) "ota" (Some "UpdateFirmwareDevice"%string)
              (part_details 1 3 (bytes 400)) (part_details 2 3 (bytes 400)) device 1 7)
    as (_ & Htot & Hseq & Hr & Hw & _).
  - reflexivity.
  - reflexivity.
  - reflexivity.
  - vm_compute. discriminate.
  - reflexivity.
  - reflexivity.
  - vm_compute. discriminate.
  - vm_compute. discriminate.
  - reflexivity.
  - vm_compute. discriminate.
  - vm_compute. discriminate.
  - reflexivity.
  - reflexivity.
  - lia.
  - reflexivity.
  - vm_compute. split; [discriminate|reflexivity].
  - reflexivity.
  - reflexivity.
  - split; [|split; [exact Htot|split; [exact Hr|exact Hw]]].
    assert (H : 2 = currentPart (_otaContext live) + 1) by exact Hseq.
    lia.
Defined.

Lemma in_session_messages_are_dropped_without_side_effects_witness :
  processMessage (libb64 := reference_libb64) (board 2000) "ota"
    (part 1 3 (bytes 400)) live = Next tt live []
  /\ processMessage (libb64 := reference_libb64) (board 2000) "ota"
       failure_notice live = Next tt live []
  /\ processMessage (libb64 := reference_libb64) (board 2000) "ota"
       (part 2 3 "") live = Next tt live []
  /\ update_handle (_otaContext live) = 7.
Proof.
  split; [|split; [|split]].
  - apply (in_session_messages_are_dropped_without_side_effects
             (libb64 := reference_libb64) (board 2000) "ota" (part 1 3 (bytes 400)) live).
    reflexivity.
  - apply (in_session_messages_are_dropped_without_side_effects
             (libb64 := reference_libb64) (board 2000) "ota" failure_notice live).
    reflexivity.
  - apply (in_session_messages_are_dropped_without_side_effects
             (libb64 := reference_libb64) (board 2000) "ota" (part 2 3 "") live).
    reflexivity.
  - reflexivity.
Defined.



End Instances.
